(** * Maid Services: the availability and booking engine of [app.py]

    A shallow embedding of the scheduling core of the Streamlit
    application ([worker_daily_range], [generate_slots], [is_overlap],
    [worker_booked_spans], [available_start_slots], [create_booking],
    [register_user]) together with the pieces of the Python runtime those
    functions lean on, followed by the properties of the engine.

    Conventions of the embedding.
    - Python exceptions are values of [exn]; a computation that may raise
      has type [result A].  Only [ValueError] and [OverflowError] can come
      out of the functions modelled here.
    - Text is ASCII: a [string] is a Python [str] whose code points are
      below 128.
    - A [dt.date] is its proleptic Gregorian ordinal ([date.toordinal()]),
      a [dt.time] is the pair of its [hour] and [minute] (every time of the
      program is built by [dt.time(h, m)], by [strptime] with ["%H:%M"] or
      by adding whole minutes, so seconds are always zero), a
      [dt.timedelta] is a whole number of minutes, and a [dt.datetime] is
      the number of minutes between 0000-12-31T00:00 (ordinal 0) and it.
      The limits of the three types are kept: where Python raises because
      a value leaves them, so does the model.
    - [duration_hrs] is a binary64 float, as in Python.
    - The rows of the three JSON tables are records of the fields the
      program writes, as strings where the file has strings; the fields
      the program reads with [.get] are options.
    - The tables kept on GitHub are the fields of [store]; the requests the
      program makes are recorded in a trace of [event]s.  The store answers
      every request, and no other session writes while a function of the
      program runs: the revision token [sha] then never goes stale and is
      left out.  What other sessions write between two calls is a
      parameter where a property hangs on it ([others] in
      [page_browse_and_book]).  What a call reads from elsewhere (clock,
      secrets, random salt, the fate of the SMTP session) comes in an
      [env].

    Around the engine, the accounts ([hash_password], [verify_password],
    [get_user], [login_user]), the worker profiles ([get_worker],
    [upsert_worker], [list_workers]) and what the pages compute
    ([page_browse_and_book], the listing of [page_my_bookings], the
    profile of [page_worker_dashboard], the two forms of [sidebar_auth],
    the menu of [main]) are embedded
    in the same way.  A widget of Streamlit is the value it returns;
    PBKDF2 is a function that is left open. *)

From Stdlib Require Import ZArith List String Ascii Bool Lia.
From Stdlib Require Import PrimFloat FloatOps SpecFloat.
From Stdlib Require Import Sorting.Permutation Sorting.Sorted.
From Equations Require Import Equations.
Import ListNotations.

Local Open Scope string_scope.
Local Open Scope Z_scope.

(** ** Exceptions *)

Inductive exn : Type :=
| ValueError
| OverflowError.

Inductive result (A : Type) : Type :=
| Ok (a : A)
| Raise (e : exn).

Arguments Ok {A} a.
Arguments Raise {A} e.

Definition rbind {A B : Type} (c : result A) (k : A -> result B) : result B :=
  match c with
  | Ok a => k a
  | Raise e => Raise e
  end.

Declare Scope result_scope.
Delimit Scope result_scope with result.
Notation "x <- c ;; k" := (rbind c (fun x => k))
  (at level 61, c at next level, right associativity) : result_scope.
Notation "' p <- c ;; k" := (rbind c (fun x => match x with p => k end))
  (at level 61, p pattern, c at next level, right associativity) : result_scope.

(** [mapM f l]: the list of the [f x], or the first exception. *)
Fixpoint mapM {A B : Type} (f : A -> result B) (l : list A) : result (list B) :=
  match l with
  | [] => Ok []
  | x :: r => (y <- f x ;; ys <- mapM f r ;; Ok (y :: ys))%result
  end.

(** ** Python strings *)

Module Py.

Definition code (c : ascii) : Z := Z.of_N (N_of_ascii c).

(** [str.lower()] on ASCII text. *)
Definition lower_char (c : ascii) : ascii :=
  if (65 <=? code c) && (code c <=? 90)
  then ascii_of_N (N_of_ascii c + 32)
  else c.

Fixpoint lower (s : string) : string :=
  match s with
  | EmptyString => EmptyString
  | String c r => String (lower_char c) (lower r)
  end.

(** [s.split(":")]. *)
Fixpoint split_colon (s : string) : list string :=
  match s with
  | EmptyString => [EmptyString]
  | String c r =>
      if Ascii.eqb c ":" then EmptyString :: split_colon r
      else match split_colon r with
           | hd :: tl => String c hd :: tl
           | [] => [String c EmptyString]
           end
  end.

(** The characters [int] strips: tab, newline, vertical tab, form feed,
    carriage return and space. *)
Definition is_space (c : ascii) : bool :=
  ((9 <=? code c) && (code c <=? 13)) || (code c =? 32).

Definition is_digit (c : ascii) : bool :=
  (48 <=? code c) && (code c <=? 57).

Fixpoint lstrip (l : list ascii) : list ascii :=
  match l with
  | c :: r => if is_space c then lstrip r else l
  | [] => []
  end.

Definition strip (l : list ascii) : list ascii :=
  rev (lstrip (rev (lstrip l))).

(** Decimal digits, single underscores allowed between two digits. *)
Fixpoint digits (acc : Z) (after_digit : bool) (l : list ascii) : option Z :=
  match l with
  | [] => if after_digit then Some acc else None
  | c :: r =>
      if is_digit c then digits (10 * acc + (code c - 48)) true r
      else if Ascii.eqb c "_" then
             if after_digit then digits acc false r else None
           else None
  end.

(** [int(s)] for a [str] argument, base 10.  (The interpreter's limit on
    the length of a literal, 4300 digits by default, is not modelled.) *)
Definition int (s : string) : result Z :=
  let body := strip (list_ascii_of_string s) in
  let parsed :=
    match body with
    | c :: r =>
        if Ascii.eqb c "-" then option_map Z.opp (digits 0 false r)
        else if Ascii.eqb c "+" then digits 0 false r
        else digits 0 false body
    | [] => None
    end in
  match parsed with
  | Some n => Ok n
  | None => Raise ValueError
  end.

(** Truth value of a [str]: non-empty. *)
Definition truthy (s : string) : bool :=
  match s with
  | EmptyString => false
  | _ => true
  end.

Definition digit_char (d : Z) : ascii := ascii_of_N (Z.to_N (48 + d)).

(** ["%02d" % n] for [0 <= n < 100] and ["%04d" % n] for [0 <= n < 10000]:
    the only formats the program prints numbers with ([strftime] with
    ["%H:%M"], [isoformat]). *)
Definition pad2 (n : Z) : string :=
  String (digit_char (n / 10)) (String (digit_char (n mod 10)) EmptyString).

Definition pad4 (n : Z) : string :=
  String (digit_char (n / 1000))
    (String (digit_char (n / 100 mod 10)) (pad2 (n mod 100))).

End Py.

(** ** Dates, times and durations *)

(** [dt.time]: hour and minute. *)
Record time : Type := mkTime { hour : Z; minute : Z }.

Definition time_ok (t : time) : Prop :=
  0 <= hour t < 24 /\ 0 <= minute t < 60.

(** The C constructor first converts its arguments to C [int]s, then checks
    the hour, then the minute. *)
Definition fits_c_int (n : Z) : bool :=
  (- 2147483648 <=? n) && (n <=? 2147483647).

Definition dt_time (h m : Z) : result time :=
  if negb (fits_c_int h && fits_c_int m) then Raise OverflowError
  else if negb ((0 <=? h) && (h <? 24)) then Raise ValueError
  else if negb ((0 <=? m) && (m <? 60)) then Raise ValueError
  else Ok (mkTime h m).

(** Times compare as the tuples [(hour, minute)]. *)
Definition time_eqb (a b : time) : bool :=
  (hour a =? hour b) && (minute a =? minute b).

Definition time_ltb (a b : time) : bool :=
  (hour a <? hour b) || ((hour a =? hour b) && (minute a <? minute b)).

(** [max(a, b)] and [min(a, b)]: the first argument wins a tie. *)
Definition time_max (a b : time) : time := if time_ltb a b then b else a.
Definition time_min (a b : time) : time := if time_ltb b a then b else a.

(** Minutes since midnight. *)
Definition minute_of_day (t : time) : Z := hour t * 60 + minute t.

(** [t.strftime("%H:%M")]. *)
Definition strftime_HM (t : time) : string :=
  Py.pad2 (hour t) ++ ":" ++ Py.pad2 (minute t).

(** [h, m = map(int, s.split(":"))]: the unpacking pulls two numbers out
    of the iterator, then asks it for a third item to make sure that there
    is none, which converts a third field if the string has one. *)
Definition unpack_HM (s : string) : result (Z * Z) :=
  match Py.split_colon s with
  | [a; b] => (h <- Py.int a ;; m <- Py.int b ;; Ok (h, m))%result
  | a :: b :: c :: _ =>
      (h <- Py.int a ;; m <- Py.int b ;; _ <- Py.int c ;; Raise ValueError)%result
  | [a] => (h <- Py.int a ;; Raise ValueError)%result
  | [] => Raise ValueError
  end.

(** [dt.date], as its ordinal: 1 is 0001-01-01, [MAXORDINAL] is
    9999-12-31. *)
Definition date : Type := Z.

Definition MAXORDINAL : Z := 3652059.

Definition date_ok (d : date) : Prop := 1 <= d <= MAXORDINAL.

(** [date.isoformat()], with the year, month and day computed from the
    ordinal the way the [datetime] module does ([_ord2ymd]). *)
Definition DAYS_IN_MONTH (month : Z) : Z :=
  match month with
  | 2 => 28
  | 4 | 6 | 9 | 11 => 30
  | _ => 31
  end.

Definition DAYS_BEFORE_MONTH (month : Z) : Z :=
  match month with
  | 1 => 0 | 2 => 31 | 3 => 59 | 4 => 90 | 5 => 120 | 6 => 151
  | 7 => 181 | 8 => 212 | 9 => 243 | 10 => 273 | 11 => 304 | _ => 334
  end.

Definition ord2ymd (ordinal : date) : Z * Z * Z :=
  let n := ordinal - 1 in
  let n400 := n / 146097 in
  let n := n mod 146097 in
  let n100 := n / 36524 in
  let n := n mod 36524 in
  let n4 := n / 1461 in
  let n := n mod 1461 in
  let n1 := n / 365 in
  let n := n mod 365 in
  let year := n400 * 400 + 1 + n100 * 100 + n4 * 4 + n1 in
  if (n1 =? 4) || (n100 =? 4) then (year - 1, 12, 31)
  else
    let leapyear := (n1 =? 3) && (negb (n4 =? 24) || (n100 =? 3)) in
    let month := Z.shiftr (n + 50) 5 in
    let preceding :=
      DAYS_BEFORE_MONTH month + (if (2 <? month) && leapyear then 1 else 0) in
    if n <? preceding then
      let month := month - 1 in
      let preceding :=
        preceding
        - (DAYS_IN_MONTH month + (if (month =? 2) && leapyear then 1 else 0)) in
      (year, month, n - preceding + 1)
    else (year, month, n - preceding + 1).

Definition isoformat (d : date) : string :=
  let '(y, m, dd) := ord2ymd d in
  Py.pad4 y ++ "-" ++ Py.pad2 m ++ "-" ++ Py.pad2 dd.

(** [dt.timedelta], in minutes.  The constructor refuses more than
    999999999 days either way. *)
Definition timedelta : Type := Z.

Definition dt_timedelta (minutes : Z) : result timedelta :=
  if (- 999999999 <=? minutes / 1440) && (minutes / 1440 <=? 999999999)
  then Ok minutes
  else Raise OverflowError.

Definition HALF_HOUR : timedelta := 30.

(** [dt.datetime], in minutes since the midnight that starts ordinal 0. *)
Definition datetime : Type := Z.

Definition combine (d : date) (t : time) : datetime :=
  d * 1440 + minute_of_day t.

(** [x.time()]. *)
Definition time_of (x : datetime) : time :=
  mkTime (x mod 1440 / 60) (x mod 60).

(** [x + delta]: [OverflowError] when the day leaves [1 .. MAXORDINAL]. *)
Definition datetime_add (x : datetime) (delta : timedelta) : result datetime :=
  let y := x + delta in
  if (1 <=? y / 1440) && (y / 1440 <=? MAXORDINAL) then Ok y
  else Raise OverflowError.

(** [x - delta], which Python computes as [x + (-delta)]. *)
Definition datetime_sub (x : datetime) (delta : timedelta) : result datetime :=
  datetime_add x (- delta).

(** [int(x)] for a float: truncation towards zero, [OverflowError] on an
    infinity, [ValueError] on a NaN. *)
Definition int_of_float (x : float) : result Z :=
  match Prim2SF x with
  | S754_zero _ => Ok 0
  | S754_finite s m e =>
      let magnitude := Z.shiftl (Z.pos m) e in
      Ok (if s then - magnitude else magnitude)
  | S754_infinity _ => Raise OverflowError
  | S754_nan => Raise ValueError
  end.

(** [dt.timedelta(minutes=int(duration_hrs * 60))], the first line of
    [available_start_slots] and of [create_booking]. *)
Definition duration (duration_hrs : float) : result timedelta :=
  (n <- int_of_float (duration_hrs * 60) ;; dt_timedelta n)%result.

(** ** Records *)

(** A row of [data/users.json]; also the logged-in user handed to
    [create_booking], which reads [email] with [.get]. *)
Record user : Type := mkUser {
  u_username : string;
  u_email : option string;
  u_role : string;
  u_pwd_salt : string;
  u_pwd_hash : string;
  u_created_at : string
}.

(** A worker profile; the fields read with [.get] are optional. *)
Record worker : Type := mkWorker {
  w_username : string;
  w_name : option string;
  w_city : option string;
  w_skills : list string;
  w_rate_per_hour : Z;
  w_bio : string;
  w_daily_start : option string;
  w_daily_end : option string
}.

(** A row of [data/bookings.json]. *)
Record booking : Type := mkBooking {
  b_id : string;
  b_user : string;
  b_worker : string;
  b_date : string;
  b_start : string;
  b_end : string;
  b_created_at : string;
  b_status : string
}.

Definition span : Type := (time * time)%type.

(** ** The record store and the outside world *)

Definition DATA_USERS : string := "data/users.json".
Definition DATA_WORKERS : string := "data/workers.json".
Definition DATA_BOOKINGS : string := "data/bookings.json".

Record store : Type := mkStore {
  users : list user;
  workers : list worker;
  bookings : list booking
}.

(** What the program asks of its collaborators. *)
Inductive event : Type :=
| GhGet (path : string)
| GhPut (path message : string)
| SmtpSend (sender recipient subject body : string).

Record world : Type := mkWorld {
  tables : store;
  trace : list event
}.

(** The [email] section of the secrets.  [port_converts] tells whether
    [int(EMAIL.get("port", 587))] returns. *)
Record email_secrets : Type := mkEmail {
  host : option string;
  port_converts : bool;
  smtp_username : option string;
  smtp_password : option string;
  sender_name : option string;
  sender_email : option string
}.

(** What one call reads from outside the store: the clock, already printed
    ([utcnow] is [dt.datetime.utcnow().strftime("%Y%m%d%H%M%S%f")]), the
    secrets, whether the SMTP session runs to its end without an
    exception, and [hash_password] with the salt [os.urandom] hands out in
    this call. *)
Record env : Type := mkEnv {
  utcnow : string;
  now_iso : string;
  EMAIL : email_secrets;
  smtp_session_ok : bool;
  hash_password : string -> string * string
}.

(** Computations that read and write the world and may raise. *)
Definition M (A : Type) : Type := world -> result A * world.

Definition ret {A : Type} (a : A) : M A := fun w => (Ok a, w).

Definition bind {A B : Type} (c : M A) (k : A -> M B) : M B :=
  fun w =>
    match c w with
    | (Ok a, w') => k a w'
    | (Raise e, w') => (Raise e, w')
    end.

Definition lift {A : Type} (r : result A) : M A := fun w => (r, w).

Definition emit (e : event) : M unit :=
  fun w => (Ok tt, mkWorld (tables w) (trace w ++ [e])).

Declare Scope io_scope.
Delimit Scope io_scope with io.
Notation "x <- c ;; k" := (bind c (fun x => k))
  (at level 61, c at next level, right associativity) : io_scope.
Notation "' p <- c ;; k" := (bind c (fun x => match x with p => k end))
  (at level 61, p pattern, c at next level, right associativity) : io_scope.
Notation "c ;;; k" := (bind c (fun _ => k))
  (at level 61, right associativity) : io_scope.

(** [load_table] and [save_table], one pair per table.  A missing file, an
    empty one and one without ["rows"] all load as no rows. *)
Definition load_table_users : M (list user) :=
  (emit (GhGet DATA_USERS) ;;; fun w => (Ok (users (tables w)), w))%io.

Definition load_bookings : M (list booking) :=
  (emit (GhGet DATA_BOOKINGS) ;;; fun w => (Ok (bookings (tables w)), w))%io.

Definition save_table_users (rows : list user) (message : string) : M unit :=
  (emit (GhPut DATA_USERS message) ;;;
   fun w =>
     (Ok tt,
      mkWorld (mkStore rows (workers (tables w)) (bookings (tables w)))
              (trace w)))%io.

Definition save_table_bookings (rows : list booking) (message : string)
  : M unit :=
  (emit (GhPut DATA_BOOKINGS message) ;;;
   fun w =>
     (Ok tt,
      mkWorld (mkStore (users (tables w)) (workers (tables w)) rows)
              (trace w)))%io.

(** ** The engine *)

Definition get_default (field : option string) (default : string) : string :=
  match field with
  | Some s => s
  | None => default
  end.

(** [worker_daily_range]: both strings are split and converted before
    either [dt.time] is built. *)
Definition worker_daily_range (w : worker) : result (time * time) :=
  (let start := get_default (w_daily_start w) "09:00" in
   let end_ := get_default (w_daily_end w) "18:00" in
   ' (s_h, s_m) <- unpack_HM start ;;
   ' (e_h, e_m) <- unpack_HM end_ ;;
   start_t <- dt_time s_h s_m ;;
   end_t <- dt_time e_h e_m ;;
   Ok (start_t, end_t))%result.

Definition inspect {A : Type} (a : A) : {b : A | a = b} := exist _ a eq_refl.

(** The [while] loop of [generate_slots]; its condition computes
    [end_dt - HALF_HOUR] anew at every turn. *)
Equations? while_slots (cur_dt end_dt : datetime) (slots : list time)
  : result (list time) by wf (Z.to_nat (end_dt - cur_dt)) lt :=
while_slots cur_dt end_dt slots with inspect (datetime_sub end_dt HALF_HOUR) := {
  | exist _ (Raise e) _ => Raise e
  | exist _ (Ok limit) Hlimit with inspect (cur_dt <=? limit) := {
    | exist _ false _ => Ok slots
    | exist _ true Hle with inspect (datetime_add cur_dt HALF_HOUR) := {
      | exist _ (Raise e) _ => Raise e
      | exist _ (Ok next) Hnext =>
          while_slots next end_dt (slots ++ [time_of cur_dt]) } } }.
Proof.
  unfold datetime_sub, datetime_add, HALF_HOUR in *.
  destruct (_ && _) in Hlimit; [|discriminate].
  destruct (_ && _) in Hnext; [|discriminate].
  injection Hlimit as <-. injection Hnext as <-.
  apply Z.leb_le in Hle. lia.
Qed.

Definition generate_slots (w : worker) (d : date) : result (list time) :=
  (' (start_t, end_t) <- worker_daily_range w ;;
   let cur_dt := combine d start_t in
   let end_dt := combine d end_t in
   while_slots cur_dt end_dt [])%result.

Definition is_overlap (s1 e1 s2 e2 : time) : bool :=
  time_ltb (time_max s1 s2) (time_min e1 e2).

(** The loop of [worker_booked_spans] over the rows. *)
Fixpoint booked_spans_loop (worker_username day : string)
  (rows : list booking) (spans : list span) : result (list span) :=
  match rows with
  | [] => Ok spans
  | b :: rest =>
      if (Py.lower (b_worker b) =? Py.lower worker_username)%string
         && (b_date b =? day)%string
         && negb (b_status b =? "cancelled")%string
      then
        (' (sh, sm) <- unpack_HM (b_start b) ;;
         ' (eh, em) <- unpack_HM (b_end b) ;;
         s <- dt_time sh sm ;;
         e <- dt_time eh em ;;
         booked_spans_loop worker_username day rest (spans ++ [(s, e)]))%result
      else booked_spans_loop worker_username day rest spans
  end.

Definition worker_booked_spans (worker_username : string) (d : date)
  : M (list span) :=
  (rows <- load_bookings ;;
   let day := isoformat d in
   lift (booked_spans_loop worker_username day rows []))%io.

(** The loop of [available_start_slots] over the grid. *)
Fixpoint available_loop (d : date) (dur : timedelta) (day_start day_end : time)
  (spans : list span) (slots : list time) (avail : list time)
  : result (list time) :=
  match slots with
  | [] => Ok avail
  | t :: rest =>
      (let start_dt := combine d t in
       end_dt <- datetime_add start_dt dur ;;
       let st_t := time_of start_dt in
       let en_t := time_of end_dt in
       if time_ltb st_t day_start || time_ltb day_end en_t then
         available_loop d dur day_start day_end spans rest avail
       else if negb (existsb (fun '(s, e) => is_overlap st_t en_t s e) spans)
       then available_loop d dur day_start day_end spans rest (avail ++ [t])
       else available_loop d dur day_start day_end spans rest avail)%result
  end.

Definition available_start_slots (w : worker) (d : date) (duration_hrs : float)
  : M (list time) :=
  (dur <- lift (duration duration_hrs) ;;
   slots <- lift (generate_slots w d) ;;
   spans <- worker_booked_spans (w_username w) d ;;
   ' (day_start, day_end) <- lift (worker_daily_range w) ;;
   lift (available_loop d dur day_start day_end spans slots []))%io.

Definition nl : string := String (ascii_of_N 10) EmptyString.

Definition SLOT_TAKEN : string := "Selected slot is no longer available.".
Definition BOOKED : string := "Booking created successfully.".
Definition NOT_SENT : string :=
  " (Email not sent; check SMTP settings in secrets.toml.)".

(** The [try] block of [create_booking]: [True] when the message went out,
    [False] when the secrets are incomplete or anything raised. *)
Definition send_confirmation (e : env) (recipient subject body : string)
  : M bool :=
  let cfg := EMAIL e in
  if negb (port_converts cfg) then ret false
  else
    let sender :=
      match sender_email cfg with
      | Some s => Some s
      | None => smtp_username cfg
      end in
    match host cfg, smtp_username cfg, smtp_password cfg, sender with
    | Some h, Some u, Some p, Some s =>
        if Py.truthy h && Py.truthy u && Py.truthy p && Py.truthy s
        then (emit (SmtpSend s recipient subject body) ;;;
              ret (smtp_session_ok e))%io
        else ret false
    | _, _, _, _ => ret false
    end.

Definition create_booking (e : env) (u : user) (w : worker) (d : date)
  (start : time) (duration_hrs : float) : M (bool * string) :=
  (dur <- lift (duration duration_hrs) ;;
   end_dt <- lift (datetime_add (combine d start) dur) ;;
   let end_t := time_of end_dt in
   avail <- available_start_slots w d duration_hrs ;;
   if negb (existsb (time_eqb start) avail) then ret (false, SLOT_TAKEN)
   else
     rows <- load_bookings ;;
     let booking_id := "bk_" ++ utcnow e in
     let row :=
       mkBooking booking_id (u_username u) (w_username w) (isoformat d)
                 (strftime_HM start) (strftime_HM end_t) (now_iso e)
                 "confirmed" in
     save_table_bookings (rows ++ [row]) ("Add booking " ++ booking_id) ;;;
     let shown := get_default (w_name w) (w_username w) in
     let subject :=
       "Booking Confirmed: " ++ shown ++ " on " ++ b_date row ++ " "
       ++ b_start row ++ "-" ++ b_end row in
     let body :=
       "Hello " ++ u_username u ++ "," ++ nl ++ nl
       ++ "Your booking is confirmed." ++ nl ++ nl
       ++ "Worker: " ++ shown ++ nl
       ++ "Date:   " ++ b_date row ++ nl
       ++ "Time:   " ++ b_start row ++ " - " ++ b_end row ++ nl
       ++ "City:   " ++ get_default (w_city w) "" ++ nl ++ nl
       ++ "Booking ID: " ++ booking_id ++ nl ++ nl
       ++ "Thanks for using Maid Services!" in
     sent <- match u_email u with
             | Some address =>
                 if Py.truthy address
                 then send_confirmation e address subject body
                 else ret false
             | None => ret false
             end ;;
     ret (true, if sent then BOOKED else BOOKED ++ NOT_SENT))%io.

Definition register_user (e : env) (username email password role : string)
  : M (bool * string) :=
  (rows <- load_table_users ;;
   if existsb (fun u => (Py.lower (u_username u) =? Py.lower username)%string)
              rows
   then ret (false, "Username already exists.")
   else
     let '(salt_b64, hash_b64) := hash_password e password in
     let row :=
       mkUser username (Some email) role salt_b64 hash_b64 (now_iso e) in
     save_table_users (rows ++ [row]) ("Add user " ++ username) ;;;
     ret (true, "Account created."))%io.

(** ** Passwords *)

(** [base64]: the encoder, and the lenient decoder behind
    [base64.b64decode] (bytes outside the alphabet are skipped, a pad that
    completes a group ends the input, anything left over in an open group
    is [binascii.Error], a [ValueError]).  Bytes are the characters of a
    [string]. *)
Module Base64.

Definition alphabet (n : Z) : ascii :=
  if n <? 26 then ascii_of_N (Z.to_N (65 + n))
  else if n <? 52 then ascii_of_N (Z.to_N (97 + (n - 26)))
  else if n <? 62 then ascii_of_N (Z.to_N (48 + (n - 52)))
  else if n =? 62 then "+"%char
  else "/"%char.

Definition table_a2b (c : ascii) : option Z :=
  let n := Py.code c in
  if (65 <=? n) && (n <=? 90) then Some (n - 65)
  else if (97 <=? n) && (n <=? 122) then Some (n - 97 + 26)
  else if (48 <=? n) && (n <=? 57) then Some (n - 48 + 52)
  else if n =? 43 then Some 62
  else if n =? 47 then Some 63
  else None.

Definition byte (n : Z) : ascii := ascii_of_N (Z.to_N n).

Fixpoint b64encode (s : string) : string :=
  match s with
  | EmptyString => EmptyString
  | String a EmptyString =>
      let x := Py.code a in
      String (alphabet (x / 4))
        (String (alphabet (x mod 4 * 16)) "==")
  | String a (String b EmptyString) =>
      let x := Py.code a in
      let y := Py.code b in
      String (alphabet (x / 4))
        (String (alphabet (x mod 4 * 16 + y / 16))
           (String (alphabet (y mod 16 * 4)) "="))
  | String a (String b (String c r)) =>
      let x := Py.code a in
      let y := Py.code b in
      let z := Py.code c in
      String (alphabet (x / 4))
        (String (alphabet (x mod 4 * 16 + y / 16))
           (String (alphabet (y mod 16 * 4 + z / 64))
              (String (alphabet (z mod 64)) (b64encode r))))
  end.

(** The decoding loop: [quad_pos] is the place in the group of four,
    [leftchar] the bits not yet written, [pads] the pads seen in a row. *)
Fixpoint a2b_base64 (s : string) (quad_pos leftchar pads : Z) : result string :=
  match s with
  | EmptyString => if quad_pos =? 0 then Ok EmptyString else Raise ValueError
  | String c r =>
      if Ascii.eqb c "=" then
        if 2 <=? quad_pos then
          if 4 <=? quad_pos + (pads + 1) then Ok EmptyString
          else a2b_base64 r quad_pos leftchar (pads + 1)
        else a2b_base64 r quad_pos leftchar pads
      else
        match table_a2b c with
        | None => a2b_base64 r quad_pos leftchar pads
        | Some this_ch =>
            if quad_pos =? 0 then a2b_base64 r 1 this_ch 0
            else if quad_pos =? 1 then
              (out <- a2b_base64 r 2 (this_ch mod 16) 0 ;;
               Ok (String (byte (leftchar * 4 + this_ch / 16)) out))%result
            else if quad_pos =? 2 then
              (out <- a2b_base64 r 3 (this_ch mod 4) 0 ;;
               Ok (String (byte (leftchar * 16 + this_ch / 4)) out))%result
            else
              (out <- a2b_base64 r 0 0 0 ;;
               Ok (String (byte (leftchar * 64 + this_ch)) out))%result
        end
  end.

Definition b64decode (s : string) : result string := a2b_base64 s 0 0 0.

End Base64.

(** [hash_password] and [verify_password].  [pbkdf2_hmac password salt]
    stands for [hashlib.pbkdf2_hmac("sha256", password, salt, 200_000)],
    [urandom] for the sixteen bytes [os.urandom(16)] hands out;
    [hmac.compare_digest] on two ASCII strings is their equality. *)
Module Auth.
Section Hash.

Variable pbkdf2_hmac : string -> string -> string.

Definition hash_password (urandom : string) (password : string)
  (salt : option string) : string * string :=
  let salt := match salt with
              | None => urandom
              | Some s => s
              end in
  let pwd_hash := pbkdf2_hmac password salt in
  (Base64.b64encode salt, Base64.b64encode pwd_hash).

Definition verify_password (password salt_b64 hash_b64 : string) : result bool :=
  (salt <- Base64.b64decode salt_b64 ;;
   let calc := pbkdf2_hmac password salt in
   Ok (Base64.b64encode calc =? hash_b64)%string)%result.

End Hash.
End Auth.

(** ** More of Python's strings *)

Module Str.

(** The characters [str.strip()] removes: the six of [int] and the four
    separators 28 to 31. *)
Definition isspace (c : ascii) : bool :=
  ((9 <=? Py.code c) && (Py.code c <=? 13))
  || ((28 <=? Py.code c) && (Py.code c <=? 32)).

Fixpoint lstrip (s : string) : string :=
  match s with
  | String c r => if isspace c then lstrip r else s
  | EmptyString => EmptyString
  end.

Fixpoint rev (s : string) : string :=
  match s with
  | EmptyString => EmptyString
  | String c r => (rev r ++ String c EmptyString)%string
  end.

Definition rstrip (s : string) : string := rev (lstrip (rev s)).

(** [s.strip()]. *)
Definition strip (s : string) : string := rstrip (lstrip s).

(** [needle in hay]. *)
Fixpoint contains (needle hay : string) : bool :=
  String.prefix needle hay
  || match hay with
     | EmptyString => false
     | String _ r => contains needle r
     end.

(** [s.split(sep)] for a separator of one character. *)
Fixpoint split (sep : ascii) (s : string) : list string :=
  match s with
  | EmptyString => [EmptyString]
  | String c r =>
      if Ascii.eqb c sep then EmptyString :: split sep r
      else match split sep r with
           | hd :: tl => String c hd :: tl
           | [] => [String c EmptyString]
           end
  end.

(** [a < b] on [str]: by code points. *)
Definition ltb (a b : string) : bool := String.ltb a b.

End Str.

(** [dt.datetime.strptime(s, "%H:%M").time()].  The format is the regular
    expression [(2[0-3]|[0-1]\d|\d):([0-5]\d|\d)], which has to match from
    the start and to leave nothing over. *)
Definition digit_of (c : ascii) : Z := Py.code c - 48.

Definition strptime_HM (s : string) : result time :=
  let read_minute (r : string) (h : Z) :=
    match r with
    | String m1 (String m2 EmptyString) =>
        if Py.is_digit m1 && (digit_of m1 <=? 5) && Py.is_digit m2
        then Ok (mkTime h (digit_of m1 * 10 + digit_of m2))
        else Raise ValueError
    | String m1 EmptyString =>
        if Py.is_digit m1 then Ok (mkTime h (digit_of m1)) else Raise ValueError
    | _ => Raise ValueError
    end in
  match s with
  | String h1 (String h2 r) =>
      if Py.is_digit h1 && Py.is_digit h2 then
        if ((digit_of h1 =? 2) && (digit_of h2 <=? 3)) || (digit_of h1 <=? 1)
        then match r with
             | String c r' =>
                 if Ascii.eqb c ":" then read_minute r' (digit_of h1 * 10 + digit_of h2)
                 else Raise ValueError
             | EmptyString => Raise ValueError
             end
        else Raise ValueError
      else if Py.is_digit h1 && Ascii.eqb h2 ":" then read_minute r (digit_of h1)
      else Raise ValueError
  | _ => Raise ValueError
  end.

(** ** Accounts, profiles and pages *)

Definition load_table_workers : M (list worker) :=
  (emit (GhGet DATA_WORKERS) ;;; fun w => (Ok (workers (tables w)), w))%io.

Definition save_table_workers (rows : list worker) (message : string)
  : M unit :=
  (emit (GhPut DATA_WORKERS message) ;;;
   fun w =>
     (Ok tt,
      mkWorld (mkStore (users (tables w)) rows (bookings (tables w)))
              (trace w)))%io.

Definition get_user (username : string) : M (option user) :=
  (rows <- load_table_users ;;
   ret (find (fun u => (Py.lower (u_username u) =? Py.lower username)%string)
             rows))%io.

Definition login_user (pbkdf2_hmac : string -> string -> string)
  (username password : string) : M (bool * string * option user) :=
  (found <- get_user username ;;
   match found with
   | None => ret (false, "User not found.", None)
   | Some u =>
       ok <- lift (Auth.verify_password pbkdf2_hmac password
                                        (u_pwd_salt u) (u_pwd_hash u)) ;;
       if ok then ret (true, "Welcome back!", Some u)
       else ret (false, "Invalid password.", None)
   end)%io.

Definition get_worker (username : string) : M (option worker) :=
  (rows <- load_table_workers ;;
   ret (find (fun w => (Py.lower (w_username w) =? Py.lower username)%string)
             rows))%io.

(** The loop of [upsert_worker]: the rows with the first row of that name
    replaced, or [None] when no row has the name. *)
Fixpoint upsert_loop (profile : worker) (rows : list worker)
  : option (list worker) :=
  match rows with
  | [] => None
  | w :: rest =>
      if (Py.lower (w_username w) =? Py.lower (w_username profile))%string
      then Some (profile :: rest)
      else option_map (cons w) (upsert_loop profile rest)
  end.

Definition upsert_worker (profile : worker) : M unit :=
  (rows <- load_table_workers ;;
   match upsert_loop profile rows with
   | Some rows' =>
       save_table_workers rows' ("Update worker " ++ w_username profile)
   | None =>
       save_table_workers (rows ++ [profile])
                          ("Add worker " ++ w_username profile)
   end)%io.

(** The [filters] dictionary of [list_workers]. *)
Record filters : Type := mkFilters {
  f_city : option string;
  f_skill : option string
}.

(** [(filters.get(key) or "").strip().lower()]. *)
Definition filter_text (field : option string) : string :=
  Py.lower (Str.strip (get_default field "")).

Definition list_workers (f : filters) : M (list worker) :=
  (rows <- load_table_workers ;;
   let city := filter_text (f_city f) in
   let skill := filter_text (f_skill f) in
   let rows :=
     if Py.truthy city
     then filter (fun w => Str.contains city
                             (Py.lower (get_default (w_city w) ""))) rows
     else rows in
   let rows :=
     if Py.truthy skill
     then filter (fun w => existsb (fun s => Str.contains skill (Py.lower s))
                                   (w_skills w)) rows
     else rows in
   ret rows)%io.

(** [sorted(rows, key=lambda b: (b["date"], b["start"]))].  [sorted] is
    stable and only asks whether one key is less than another; on such
    keys every stable sort returns the same list, computed here by
    insertion. *)
Definition key_ltb (a b : booking) : bool :=
  Str.ltb (b_date a) (b_date b)
  || ((b_date a =? b_date b)%string && Str.ltb (b_start a) (b_start b)).

Fixpoint insert_row (b : booking) (l : list booking) : list booking :=
  match l with
  | [] => [b]
  | y :: r => if key_ltb y b then y :: insert_row b r else b :: l
  end.

Fixpoint sorted (l : list booking) : list booking :=
  match l with
  | [] => []
  | b :: r => insert_row b (sorted r)
  end.

(** The rows [page_my_bookings] lists for the logged-in [u], in the order
    it lists them (the value of [rows_sorted]; no row, no list). *)
Definition rows_sorted (u : user) : M (list booking) :=
  (all <- load_bookings ;;
   let my_role := u_role u in
   let rows :=
     if (my_role =? "customer")%string
     then filter (fun b => (Py.lower (b_user b) =? Py.lower (u_username u))%string)
                 all
     else if (my_role =? "worker")%string
     then filter (fun b => (Py.lower (b_worker b) =? Py.lower (u_username u))%string)
                 all
     else all in
   ret (sorted rows))%io.

(** [page_browse_and_book] for a logged-in user: [f] is what the two
    filter boxes hold, [choose] and [pick] are the choices the two
    [st.selectbox] return (each returns one of the options it is given),
    [d] and [duration_hrs] the date and the duration chosen, [book] whether
    "Book" was pressed.  A worker row is a dictionary with a user name, so
    [if selected] holds.  The tables are shared with other sessions:
    [others] is what they have done to the world between the read of the
    page and the call of [create_booking], which reads again.  The result
    is what [create_booking] returned, or [None] when the page did not call
    it. *)
Definition page_browse_and_book (e : env) (u : user) (f : filters)
  (choose : list worker -> worker) (d : date) (duration_hrs : float)
  (pick : list string -> string) (book : bool) (others : world -> world)
  : M (option (bool * string)) :=
  (workers <- list_workers f ;;
   match workers with
   | [] => ret None
   | _ =>
       let selected := choose workers in
       avail <- available_start_slots selected d duration_hrs ;;
       match avail with
       | [] => ret None
       | _ =>
           let pretty := map strftime_HM avail in
           let start_str := pick pretty in
           start_time <- lift (strptime_HM start_str) ;;
           if book then
             (fun W => (Ok tt, others W)) ;;;
             outcome <- create_booking e u selected d start_time duration_hrs ;;
             ret (Some outcome)
           else ret None
       end
   end)%io.

(** The profile [page_worker_dashboard] builds when "Save Profile" is
    pressed, from what its widgets hold: three text inputs, the number
    input, the two time inputs and the text area. *)
Definition dashboard_profile (u : user) (name city skills_csv : string)
  (rate : Z) (start end_ : time) (bio : string) : worker :=
  let skills :=
    map Str.strip
        (filter (fun s => Py.truthy (Str.strip s)) (Str.split "," skills_csv)) in
  mkWorker (u_username u)
           (Some (if Py.truthy (Str.strip name) then Str.strip name
                  else u_username u))
           (Some (Str.strip city))
           skills
           rate
           (Str.strip bio)
           (Some (strftime_HM start))
           (Some (strftime_HM end_)).

(** The branch of "Save Profile". *)
Definition page_worker_dashboard_save (u : user) (name city skills_csv : string)
  (rate : Z) (start end_ : time) (bio : string) : M unit :=
  upsert_worker (dashboard_profile u name city skills_csv rate start end_ bio).

(** What the dashboard shows before any button is pressed: the stored
    profile of the user or the blank one, whose two times it reads with
    [strptime] to fill the time inputs. *)
Definition blank_profile (u : user) : worker :=
  mkWorker (u_username u) (Some "") (Some "") [] 300 ""
           (Some "09:00") (Some "18:00").

Definition page_worker_dashboard_times (u : user) : M (time * time) :=
  (found <- get_worker (u_username u) ;;
   let existing := match found with
                   | Some w => w
                   | None => blank_profile u
                   end in
   start <- lift (strptime_HM (get_default (w_daily_start existing) "09:00")) ;;
   end_ <- lift (strptime_HM (get_default (w_daily_end existing) "18:00")) ;;
   ret (start, end_))%io.

(** ** Navigation *)

(** What a page does first: it opens, it asks to log in and stops, or it
    says that the page is for another role and returns. *)
Inductive entry : Type :=
| Opens
| PleaseLogIn
| WrongRole.

Definition logged_in (auth_user : option user) (then_ : user -> entry) : entry :=
  match auth_user with
  | Some u => then_ u
  | None => PleaseLogIn
  end.

Definition page_home_entry (auth_user : option user) : entry := Opens.

Definition page_browse_and_book_entry (auth_user : option user) : entry :=
  logged_in auth_user (fun _ => Opens).

Definition page_my_bookings_entry (auth_user : option user) : entry :=
  logged_in auth_user (fun _ => Opens).

Definition page_worker_dashboard_entry (auth_user : option user) : entry :=
  logged_in auth_user
    (fun u => if negb ((u_role u =? "worker")%string
                       || (u_role u =? "admin")%string)
              then WrongRole else Opens).

Definition page_admin_entry (auth_user : option user) : entry :=
  logged_in auth_user
    (fun u => if negb (u_role u =? "admin")%string then WrongRole else Opens).

(** The dictionary [pages] of [main]. *)
Definition pages (choice : string) : option (option user -> entry) :=
  if (choice =? "Home")%string then Some page_home_entry
  else if (choice =? "Browse & Book")%string then Some page_browse_and_book_entry
  else if (choice =? "My Bookings")%string then Some page_my_bookings_entry
  else if (choice =? "Worker Dashboard")%string
  then Some page_worker_dashboard_entry
  else if (choice =? "Admin")%string then Some page_admin_entry
  else None.

(** The list [visible] of [main]. *)
Definition visible (auth_user : option user) : list string :=
  ["Home"; "Browse & Book"]
  ++ match auth_user with
     | Some u =>
         ["My Bookings"]
         ++ (if (u_role u =? "worker")%string || (u_role u =? "admin")%string
             then ["Worker Dashboard"] else [])
         ++ (if (u_role u =? "admin")%string then ["Admin"] else [])
     | None => []
     end.

(** ** The sidebar *)

(** What the sidebar shows after a button: [st.success], [st.error], or
    the report of an exception followed by [st.stop()]. *)
Inductive notice : Type :=
| Succeeded (msg : string)
| Errored (msg : string)
| Stopped (x : exn).

(** [sidebar_auth] when nobody is logged in and "Log in" is pressed: the
    new value of [st.session_state["auth_user"]] and what is shown. *)
Definition sidebar_log_in (pbkdf2_hmac : string -> string -> string)
  (u_name pwd : string) (W : world) : (option user * notice) * world :=
  match login_user pbkdf2_hmac u_name pwd W with
  | (Raise x, W') => ((None, Stopped x), W')
  | (Ok (ok, msg, found), W') =>
      if ok then ((found, Succeeded msg), W') else ((None, Errored msg), W')
  end.

(** [sidebar_auth] when "Create account" is pressed; [role] is the choice
    of the select box over ["customer"] and ["worker"]. *)
Definition sidebar_sign_up (e : env) (u_new email role p1 p2 : string)
  (W : world) : notice * world :=
  if negb (Py.truthy u_new) || negb (Py.truthy email) || negb (Py.truthy p1)
  then (Errored "Please fill all required fields.", W)
  else if negb (p1 =? p2)%string
  then (Errored "Passwords do not match.", W)
  else
    match register_user e u_new email p1 role W with
    | (Raise x, W') => (Stopped x, W')
    | (Ok (ok, msg), W') =>
        if ok then (Succeeded (msg ++ " You can now log in."), W')
        else (Errored msg, W')
    end.

(** ** Notions the properties are stated with *)

(** The time of day [n] minutes after [t], around the clock. *)
Definition add_minutes (t : time) (n : Z) : time :=
  time_of (minute_of_day t + n).

(** The grid of a window as the specification words it: one time per
    30-minute boundary, from the start of the window on, as long as the
    half hour that starts there ends by the end of the window. *)
Definition is_grid (start_t end_t : time) (slots : list time) : Prop :=
  forall (i : nat) (t : time),
    nth_error slots i = Some t <->
    t = add_minutes start_t (30 * Z.of_nat i)
    /\ minute_of_day start_t + 30 * Z.of_nat i + 30 <= minute_of_day end_t.

(** The same grid, computed. *)
Definition grid (start_t end_t : time) : list time :=
  map (fun k => add_minutes start_t (30 * Z.of_nat k))
      (seq 0 (Z.to_nat ((minute_of_day end_t - minute_of_day start_t) / 30))).

(** Every time of day, for proofs by enumeration. *)
Definition all_times : list time :=
  flat_map (fun h => map (fun m => mkTime (Z.of_nat h) (Z.of_nat m)) (seq 0 60))
           (seq 0 24).

(** A booking occupies the calendar of the worker [handle] on the day
    printed as [day]: same worker up to case, same date, not cancelled. *)
Definition occupies (handle day : string) (b : booking) : Prop :=
  Py.lower (b_worker b) = Py.lower handle
  /\ b_date b = day
  /\ b_status b <> "cancelled".

Definition occupiesb (handle day : string) (b : booking) : bool :=
  (Py.lower (b_worker b) =? Py.lower handle)%string
  && (b_date b =? day)%string
  && negb (b_status b =? "cancelled")%string.

(** The interval a booking row stands for. *)
Definition booking_span (b : booking) : result span :=
  (' (sh, sm) <- unpack_HM (b_start b) ;;
   ' (eh, em) <- unpack_HM (b_end b) ;;
   s <- dt_time sh sm ;;
   e <- dt_time eh em ;;
   Ok (s, e))%result.

(** The two tests of the Availability Calculator on a slot [t], the end of
    the visit being taken around the clock: the visit fits the window, and
    it overlaps no booked span. *)
Definition fits (day_start day_end : time) (dur : timedelta) (t : time) : bool :=
  negb (time_ltb t day_start || time_ltb day_end (add_minutes t dur)).

Definition free (spans : list span) (dur : timedelta) (t : time) : bool :=
  negb (existsb (fun '(s, e) => is_overlap t (add_minutes t dur) s e) spans).

(** The row [create_booking] writes for a visit of [dur] minutes. *)
Definition booking_row (e : env) (u : user) (w : worker) (d : date)
  (start : time) (dur : timedelta) : booking :=
  mkBooking ("bk_" ++ utcnow e) (u_username u) (w_username w) (isoformat d)
            (strftime_HM start) (strftime_HM (add_minutes start dur))
            (now_iso e) "confirmed".

(** The confirmation mail of [create_booking]: the sender and the
    recipient of the SMTP session it opens, which it does when the customer
    has an address, the port converts, and the host, the user name, the
    password and the sender (the user name unless the secrets name
    another) are all set and not empty; [None] when it opens none. *)
Definition set_and_filled (field : option string) : bool :=
  match field with
  | Some s => Py.truthy s
  | None => false
  end.

Definition mail_route (e : env) (u : user) : option (string * string) :=
  let cfg := EMAIL e in
  let sender := match sender_email cfg with
                | Some s => Some s
                | None => smtp_username cfg
                end in
  match sender, u_email u with
  | Some s, Some recipient =>
      if set_and_filled (u_email u) && port_converts cfg
         && set_and_filled (host cfg) && set_and_filled (smtp_username cfg)
         && set_and_filled (smtp_password cfg) && set_and_filled sender
      then Some (s, recipient)
      else None
  | _, _ => None
  end.

(** The world after the bookings file has been read once more. *)
Definition after_read (W : world) : world :=
  mkWorld (tables W) (trace W ++ [GhGet DATA_BOOKINGS]).

(** The minute at which a stored interval ends, counted from the midnight
    that begins its day.  A row holds the time of day at which the visit
    ends: an end that is before the start is on the next day.  (An end
    that is the start is read as no visit at all.) *)
Definition span_end (a : span) : Z :=
  if minute_of_day (snd a) <? minute_of_day (fst a)
  then minute_of_day (snd a) + 1440
  else minute_of_day (snd a).

(** Two intervals of one date overlap, half-open: some minute is in
    both. *)
Definition overlap (a b : span) : Prop :=
  exists x : Z,
    minute_of_day (fst a) <= x < span_end a
    /\ minute_of_day (fst b) <= x < span_end b.

(** No worker is booked twice at once: any two rows that are not
    cancelled and name the same worker, up to case, on the same date stand
    for intervals that do not overlap. *)
Definition no_double_booking (rows : list booking) : Prop :=
  forall (i j : nat) (b1 b2 : booking),
    i <> j ->
    nth_error rows i = Some b1 ->
    nth_error rows j = Some b2 ->
    b_status b1 <> "cancelled" ->
    b_status b2 <> "cancelled" ->
    Py.lower (b_worker b1) = Py.lower (b_worker b2) ->
    b_date b1 = b_date b2 ->
    exists sp1 sp2,
      booking_span b1 = Ok sp1 /\ booking_span b2 = Ok sp2 /\ ~ overlap sp1 sp2.

(** The worlds reached from an empty booking collection by Booking
    Transactions that succeed, whoever books whom, when and for how long. *)
Inductive booked_from_empty : world -> Prop :=
| bfe_empty (W : world) :
    bookings (tables W) = [] -> booked_from_empty W
| bfe_booked (W W' : world) (e : env) (u : user) (w : worker) (d : date)
    (start : time) (duration_hrs : float) (msg : string) :
    booked_from_empty W ->
    create_booking e u w d start duration_hrs W = (Ok (true, msg), W') ->
    booked_from_empty W'.

(** Two characters, then two strings, that differ at most in the case of
    ASCII letters. *)
Definition is_upper (c : ascii) : bool :=
  (65 <=? Py.code c) && (Py.code c <=? 90).

Definition char_case_eq (a b : ascii) : Prop :=
  a = b
  \/ (is_upper a = true /\ Py.code b = Py.code a + 32)
  \/ (is_upper b = true /\ Py.code a = Py.code b + 32).

Fixpoint same_up_to_case (s t : string) : Prop :=
  match s, t with
  | EmptyString, EmptyString => True
  | String a s', String b t' => char_case_eq a b /\ same_up_to_case s' t'
  | _, _ => False
  end.

(** Usernames are unique up to case. *)
Definition unique_usernames (rows : list user) : Prop :=
  NoDup (map (fun u => Py.lower (u_username u)) rows).

(** ** Sample data *)

Definition asha : worker := mkWorker "Asha" None None [] 300 "" None None.

Definition night_worker : worker :=
  mkWorker "Asha" None None [] 300 "" (Some "20:00") (Some "23:30").

Definition bob : user :=
  mkUser "bob" (Some "bob@example.org") "customer" "" "" "".

Definition quiet_env : env :=
  mkEnv "20240424093000000000" "2024-04-24T15:00:00+05:30"
        (mkEmail None true None None None None) true (fun _ => ("", "")).

Definition mailing_env : env :=
  mkEnv "20240424094500000000" "2024-04-24T15:15:00+05:30"
        (mkEmail (Some "smtp.example.org") true (Some "maid") (Some "secret")
                 None None)
        false (fun _ => ("", "")).

(** Complete secrets and an SMTP session that runs to its end. *)
Definition sending_env : env :=
  mkEnv "20240424094500000000" "2024-04-24T15:15:00+05:30"
        (mkEmail (Some "smtp.example.org") true (Some "maid") (Some "secret")
                 None (Some "desk@example.org"))
        true (fun _ => ("", "")).

(** At work from 17:00 to 23:30. *)
Definition evening_worker : worker :=
  mkWorker "Asha" None None [] 300 "" (Some "17:00") (Some "23:30").

Definition empty_world : world := mkWorld (mkStore [] [] []) [].

(** 2024-04-24. *)
Definition a_day : date := 739000.

(** ** More notions the properties are stated with *)

(** The row a successful [register_user] appends. *)
Definition new_user (e : env) (username email password role : string) : user :=
  mkUser username (Some email) role
         (fst (hash_password e password)) (snd (hash_password e password))
         (now_iso e).

Definition name_taken (username : string) (rows : list user) : bool :=
  existsb (fun u => (Py.lower (u_username u) =? Py.lower username)%string) rows.


(** A row carries the name [name], up to case. *)
Definition named (name : string) (w : worker) : bool :=
  (Py.lower (w_username w) =? Py.lower name)%string.

(** The workers table after [upsert_worker profile]. *)
Definition upserted (profile : worker) (rows : list worker) : list worker :=
  match upsert_loop profile rows with
  | Some rows' => rows'
  | None => rows ++ [profile]
  end.

(** Worker names are unique up to case. *)
Definition unique_handles (rows : list worker) : Prop :=
  NoDup (map (fun w => Py.lower (w_username w)) rows).

(** [needle] occurs in [hay]. *)
Definition occurs_in (needle hay : string) : Prop :=
  exists before after : string, hay = (before ++ needle ++ after)%string.

(** A string of characters that [strip] removes. *)
Fixpoint blank (s : string) : Prop :=
  match s with
  | EmptyString => True
  | String c r => Str.isspace c = true /\ blank r
  end.

(** One time of day is earlier than another. *)
Definition earlier (a b : time) : Prop := minute_of_day a < minute_of_day b.

(** A world with the same users and workers and other booking rows. *)
Definition with_bookings (W : world) (rows : list booking) : world :=
  mkWorld (mkStore (users (tables W)) (workers (tables W)) rows) (trace W).

(** The bookings [page_my_bookings] shows to [u]: a customer's own, a
    worker's own, and all of them to anyone else. *)
Definition shown_to (u : user) (b : booking) : bool :=
  if (u_role u =? "customer")%string
  then (Py.lower (b_user b) =? Py.lower (u_username u))%string
  else if (u_role u =? "worker")%string
  then (Py.lower (b_worker b) =? Py.lower (u_username u))%string
  else true.

(** The row [a] is not listed after [b] by date and start. *)
Definition not_after (a b : booking) : Prop := key_ltb b a = false.

(** The row is of that date and start. *)
Definition at_key (day start : string) (b : booking) : bool :=
  (b_date b =? day)%string && (b_start b =? start)%string.

(** The key of [sorted]: the date, then the start. *)
Definition key_cmp (a b : booking) : comparison :=
  match String.compare (b_date a) (b_date b) with
  | Eq => String.compare (b_start a) (b_start b)
  | c => c
  end.

(** The ordinal of a year, a month and a day, as the [datetime] module
    computes it ([_ymd2ord]). *)
Definition days_before_year (year : Z) : Z :=
  let y := year - 1 in
  y * 365 + y / 4 - y / 100 + y / 400.

Definition is_leap (year : Z) : bool :=
  (year mod 4 =? 0) && (negb (year mod 100 =? 0) || (year mod 400 =? 0)).

Definition days_before_month (year month : Z) : Z :=
  DAYS_BEFORE_MONTH month + (if (2 <? month) && is_leap year then 1 else 0).

Definition ymd2ord (ymd : Z * Z * Z) : Z :=
  let '(year, month, day) := ymd in
  days_before_year year + days_before_month year month + day.

(** ** More sample data *)

(** A digest to compute with, in place of PBKDF2. *)
Definition sample_digest (password salt : string) : string :=
  (salt ++ password)%string.

Definition sample_salt : string := "0123456789abcdef".

(** A quiet environment whose [hash_password] is the program's, over
    [sample_digest] and [sample_salt]. *)
Definition hashing_env : env :=
  mkEnv "20240424093000000000" "2024-04-24T15:00:00+05:30"
        (mkEmail None true None None None None) true
        (fun p => Auth.hash_password sample_digest sample_salt p None).

Definition asha_user : user :=
  mkUser "Asha" (Some "asha@example.org") "worker" "" "" "".

(** A world in which Asha takes bookings. *)
Definition asha_world : world := mkWorld (mkStore [] [asha] []) [].

(** Bookings on [a_day]: one of Asha from 10:00 to 11:00, one of another
    worker. *)
Definition asha_booking : booking :=
  mkBooking "bk_1" "bob" "asha" "2024-04-24" "10:00" "11:00" "" "confirmed".

Definition ravi_booking : booking :=
  mkBooking "bk_2" "bob" "Ravi" "2024-04-24" "10:00" "11:00" "" "confirmed".

(** The list a call returned, for the examples. *)
Definition returned {A : Type} (r : result (list A)) : list A :=
  match r with
  | Ok l => l
  | Raise _ => []
  end.

(** Every stored user has one of the two roles the sign-up form offers. *)
Definition roles_offered (rows : list user) : Prop :=
  Forall (fun u => u_role u = "customer" \/ u_role u = "worker") rows.

(** * Properties *)

Local Open Scope list_scope.

(** ** Times *)

Lemma time_ltb_minutes (a b : time) :
  0 <= minute a < 60 -> 0 <= minute b < 60 ->
  time_ltb a b = (minute_of_day a <? minute_of_day b).
Proof.
  intros Ha Hb. unfold time_ltb, minute_of_day.
  destruct (Z.ltb_spec (hour a) (hour b)); simpl.
  - symmetry. apply Z.ltb_lt. lia.
  - destruct (Z.eqb_spec (hour a) (hour b)); simpl.
    + destruct (Z.ltb_spec (minute a) (minute b)); symmetry;
        [apply Z.ltb_lt | apply Z.ltb_ge]; lia.
    + symmetry. apply Z.ltb_ge. lia.
Qed.

Lemma time_max_minutes (a b : time) :
  0 <= minute a < 60 -> 0 <= minute b < 60 ->
  minute_of_day (time_max a b) = Z.max (minute_of_day a) (minute_of_day b).
Proof.
  intros Ha Hb. unfold time_max. rewrite time_ltb_minutes by assumption.
  destruct (Z.ltb_spec (minute_of_day a) (minute_of_day b)); lia.
Qed.

Lemma time_min_minutes (a b : time) :
  0 <= minute a < 60 -> 0 <= minute b < 60 ->
  minute_of_day (time_min a b) = Z.min (minute_of_day a) (minute_of_day b).
Proof.
  intros Ha Hb. unfold time_min. rewrite time_ltb_minutes by assumption.
  destruct (Z.ltb_spec (minute_of_day b) (minute_of_day a)); lia.
Qed.

Lemma time_max_ok (a b : time) : time_ok a -> time_ok b -> time_ok (time_max a b).
Proof. unfold time_max. destruct (time_ltb a b); auto. Qed.

Lemma time_min_ok (a b : time) : time_ok a -> time_ok b -> time_ok (time_min a b).
Proof. unfold time_min. destruct (time_ltb b a); auto. Qed.

(** [is_overlap] in minutes since midnight. *)
Lemma is_overlap_minutes (s1 e1 s2 e2 : time) :
  time_ok s1 -> time_ok e1 -> time_ok s2 -> time_ok e2 ->
  is_overlap s1 e1 s2 e2 =
  (Z.max (minute_of_day s1) (minute_of_day s2)
   <? Z.min (minute_of_day e1) (minute_of_day e2)).
Proof.
  intros Hs1 He1 Hs2 He2. unfold is_overlap.
  rewrite time_ltb_minutes.
  - rewrite time_max_minutes, time_min_minutes; try reflexivity;
      match goal with H : time_ok ?t |- _ <= minute ?t < _ => apply H end.
  - apply time_max_ok; assumption.
  - apply time_min_ok; assumption.
Qed.

(** C3. The Overlap Detector answers true exactly when the later start is
    strictly before the earlier end, times being compared as times of day;
    two intervals that only touch ([e1 = s2] or [e2 = s1]) do not overlap.
    Neither part needs the intervals to be non-empty. *)
Theorem is_overlap_half_open (s1 e1 s2 e2 : time) :
  time_ok s1 -> time_ok e1 -> time_ok s2 -> time_ok e2 ->
  (is_overlap s1 e1 s2 e2 = true <->
   Z.max (minute_of_day s1) (minute_of_day s2)
   < Z.min (minute_of_day e1) (minute_of_day e2))
  /\ (e1 = s2 \/ e2 = s1 -> is_overlap s1 e1 s2 e2 = false).
Proof.
  intros Hs1 He1 Hs2 He2.
  rewrite is_overlap_minutes by assumption. split.
  - apply Z.ltb_lt.
  - intros [-> | ->]; apply Z.ltb_ge; lia.
Qed.

Lemma is_overlap_half_open_witness :
  (is_overlap (mkTime 10 0) (mkTime 11 0) (mkTime 10 30) (mkTime 12 0) = true <->
   Z.max (minute_of_day (mkTime 10 0)) (minute_of_day (mkTime 10 30))
   < Z.min (minute_of_day (mkTime 11 0)) (minute_of_day (mkTime 12 0)))
  /\ (mkTime 11 0 = mkTime 10 30 \/ mkTime 12 0 = mkTime 10 0 ->
      is_overlap (mkTime 10 0) (mkTime 11 0) (mkTime 10 30) (mkTime 12 0) = false).
Proof.
  apply (is_overlap_half_open (mkTime 10 0) (mkTime 11 0) (mkTime 10 30) (mkTime 12 0));
    unfold time_ok; simpl; lia.
Defined.

Lemma time_of_ok (x : datetime) : time_ok (time_of x).
Proof. unfold time_ok, time_of; simpl. Z.div_mod_to_equations. lia. Qed.

Create HintDb times.
#[local] Hint Resolve time_of_ok time_max_ok time_min_ok : times.

Lemma minute_of_day_time_of (x : datetime) :
  minute_of_day (time_of x) = x mod 1440.
Proof. unfold minute_of_day, time_of; simpl. Z.div_mod_to_equations. lia. Qed.

Lemma time_of_day_shift (d : date) (x : Z) : time_of (d * 1440 + x) = time_of x.
Proof. unfold time_of. f_equal; Z.div_mod_to_equations; lia. Qed.

Lemma time_of_minute_of_day (t : time) :
  time_ok t -> time_of (minute_of_day t) = t.
Proof.
  destruct t as [h m]. unfold time_ok, time_of, minute_of_day; simpl.
  intros [Hh Hm]. f_equal; Z.div_mod_to_equations; lia.
Qed.

Lemma time_of_combine (d : date) (t : time) :
  time_ok t -> time_of (combine d t) = t.
Proof.
  intros Ht. unfold combine. rewrite time_of_day_shift.
  apply time_of_minute_of_day, Ht.
Qed.

Lemma minute_of_day_range (t : time) : time_ok t -> 0 <= minute_of_day t < 1440.
Proof. unfold time_ok, minute_of_day. lia. Qed.

Lemma minute_of_day_inj (a b : time) :
  time_ok a -> time_ok b -> minute_of_day a = minute_of_day b -> a = b.
Proof.
  intros Ha Hb E. rewrite <- (time_of_minute_of_day a Ha).
  rewrite <- (time_of_minute_of_day b Hb). now rewrite E.
Qed.

Lemma time_eqb_eq (a b : time) : time_eqb a b = true <-> a = b.
Proof.
  destruct a as [h m], b as [h' m']. unfold time_eqb; simpl.
  rewrite andb_true_iff, !Z.eqb_eq. split.
  - intros [-> ->]. reflexivity.
  - intros E. injection E as -> ->. auto.
Qed.

Lemma dt_time_Ok (h m : Z) (t : time) :
  dt_time h m = Ok t -> t = mkTime h m /\ time_ok t.
Proof.
  unfold dt_time, time_ok.
  destruct (fits_c_int h && fits_c_int m); simpl; [|discriminate].
  destruct (Z.leb_spec 0 h), (Z.ltb_spec h 24); simpl; try discriminate.
  destruct (Z.leb_spec 0 m), (Z.ltb_spec m 60); simpl; try discriminate.
  intros E. injection E as <-. simpl. split; [reflexivity | lia].
Qed.

Lemma dt_time_of_ok (t : time) : time_ok t -> dt_time (hour t) (minute t) = Ok t.
Proof.
  destruct t as [h m]. unfold time_ok, dt_time, fits_c_int; simpl. intros [Hh Hm].
  replace (- 2147483648 <=? h) with true by (symmetry; apply Z.leb_le; lia).
  replace (h <=? 2147483647) with true by (symmetry; apply Z.leb_le; lia).
  replace (- 2147483648 <=? m) with true by (symmetry; apply Z.leb_le; lia).
  replace (m <=? 2147483647) with true by (symmetry; apply Z.leb_le; lia).
  replace (0 <=? h) with true by (symmetry; apply Z.leb_le; lia).
  replace (h <? 24) with true by (symmetry; apply Z.ltb_lt; lia).
  replace (0 <=? m) with true by (symmetry; apply Z.leb_le; lia).
  replace (m <? 60) with true by (symmetry; apply Z.ltb_lt; lia).
  reflexivity.
Qed.

(** *** Printing a time and reading it back *)

Lemma all_times_complete (t : time) : time_ok t -> In t all_times.
Proof.
  destruct t as [h m]. unfold time_ok; cbn [hour minute]. intros [Hh Hm].
  unfold all_times. apply (proj2 (in_flat_map _ _ _)).
  exists (Z.to_nat h). split.
  - apply in_seq. lia.
  - apply (proj2 (in_map_iff _ _ _)). exists (Z.to_nat m). split.
    + f_equal; lia.
    + apply in_seq. lia.
Qed.

Lemma unpack_strftime_all :
  forallb (fun t =>
             match unpack_HM (strftime_HM t) with
             | Ok (h, m) => (h =? hour t) && (m =? minute t)
             | Raise _ => false
             end) all_times = true.
Proof. vm_compute. reflexivity. Qed.

(** [strftime] with ["%H:%M"], then [split] and [int], gives the hour and
    the minute back. *)
Lemma unpack_strftime (t : time) :
  time_ok t -> unpack_HM (strftime_HM t) = Ok (hour t, minute t).
Proof.
  intros Ht. pose proof unpack_strftime_all as H.
  rewrite forallb_forall in H. specialize (H t (all_times_complete t Ht)).
  destruct (unpack_HM (strftime_HM t)) as [[h m]|]; [|discriminate].
  apply andb_true_iff in H. destruct H as [Hh Hm].
  apply Z.eqb_eq in Hh, Hm. now subst.
Qed.

(** ** The result monad *)

Lemma rbind_Ok {A B : Type} (c : result A) (k : A -> result B) (b : B) :
  rbind c k = Ok b -> exists a, c = Ok a /\ k a = Ok b.
Proof. destruct c as [a|e]; simpl; [eauto | discriminate]. Qed.

Ltac rbind_inv H :=
  let a := fresh "a" in
  let Ha := fresh "H" a in
  apply rbind_Ok in H; destruct H as (a & Ha & H).

(** ** The working window *)

Lemma worker_daily_range_ok (w : worker) (start_t end_t : time) :
  worker_daily_range w = Ok (start_t, end_t) ->
  time_ok start_t /\ time_ok end_t.
Proof.
  unfold worker_daily_range. intros H.
  rbind_inv H. destruct a as [s_h s_m].
  rbind_inv H. destruct a as [e_h e_m].
  rbind_inv H. rbind_inv H. injection H as <- <-.
  apply dt_time_Ok in Ha1, Ha2. tauto.
Qed.

(** ** The Time-Grid Generator *)

Lemma while_slots_step (cur_dt end_dt : datetime) (slots : list time) :
  while_slots cur_dt end_dt slots =
  match datetime_sub end_dt HALF_HOUR with
  | Raise e => Raise e
  | Ok limit =>
      if cur_dt <=? limit then
        match datetime_add cur_dt HALF_HOUR with
        | Raise e => Raise e
        | Ok next => while_slots next end_dt (slots ++ [time_of cur_dt])
        end
      else Ok slots
  end.
Proof.
  rewrite while_slots_equation_1.
  destruct (inspect (datetime_sub end_dt HALF_HOUR)) as [[limit|e] Hlimit];
    cbn [while_slots_unfold_clause_1]; rewrite (eq_trans Hlimit eq_refl);
    [|reflexivity].
  destruct (inspect (cur_dt <=? limit)) as [[|] Hle];
    cbn [while_slots_unfold_clause_1_clause_2]; rewrite (eq_trans Hle eq_refl);
    [|reflexivity].
  destruct (inspect (datetime_add cur_dt HALF_HOUR)) as [[next|e] Hnext];
    cbn [while_slots_unfold_clause_1_clause_2_clause_2];
    rewrite (eq_trans Hnext eq_refl); reflexivity.
Qed.

Lemma datetime_add_in_range (x : datetime) (delta : timedelta) :
  1 <= (x + delta) / 1440 <= MAXORDINAL -> datetime_add x delta = Ok (x + delta).
Proof.
  intros [Hlo Hhi]. unfold datetime_add.
  apply Z.leb_le in Hlo, Hhi. cbv zeta. rewrite Hlo, Hhi. reflexivity.
Qed.

Lemma datetime_add_Ok (x : datetime) (delta : timedelta) (y : datetime) :
  datetime_add x delta = Ok y ->
  y = x + delta /\ 1 <= (x + delta) / 1440 <= MAXORDINAL.
Proof.
  unfold datetime_add. cbv zeta.
  destruct (Z.leb_spec 1 ((x + delta) / 1440)); simpl; [|discriminate].
  destruct (Z.leb_spec ((x + delta) / 1440) MAXORDINAL); simpl; [|discriminate].
  intros E. injection E as <-. lia.
Qed.

Lemma datetime_add_out_of_range (x : datetime) (delta : timedelta) :
  (x + delta) / 1440 < 1 \/ MAXORDINAL < (x + delta) / 1440 ->
  datetime_add x delta = Raise OverflowError.
Proof.
  intros H. unfold datetime_add. cbv zeta.
  destruct (Z.leb_spec 1 ((x + delta) / 1440)); simpl; [|reflexivity].
  destruct (Z.leb_spec ((x + delta) / 1440) MAXORDINAL); simpl; [|reflexivity].
  lia.
Qed.

(** The loop, once the limit is known to exist: it appends the times of
    [cur_dt], [cur_dt + 30], ... up to the limit. *)
Lemma while_slots_run (end_dt : datetime) :
  1 <= (end_dt - 30) / 1440 -> end_dt / 1440 <= MAXORDINAL ->
  forall (n : nat) (cur_dt : datetime) (slots : list time),
    1 <= cur_dt / 1440 ->
    n = Z.to_nat ((end_dt - cur_dt) / 30) ->
    while_slots cur_dt end_dt slots =
    Ok (slots ++ map (fun k => time_of (cur_dt + 30 * Z.of_nat k)) (seq 0 n))%list.
Proof.
  intros Hlo Hhi.
  assert (Hlimit : datetime_sub end_dt HALF_HOUR = Ok (end_dt - 30)).
  { unfold datetime_sub, HALF_HOUR.
    replace (end_dt - 30) with (end_dt + - 30) in * by lia.
    apply datetime_add_in_range. split; [assumption|].
    Z.div_mod_to_equations. lia. }
  induction n as [|n IH]; intros cur_dt slots Hcur Hn;
    rewrite while_slots_step, Hlimit.
  - replace (cur_dt <=? end_dt - 30) with false.
    + simpl. now rewrite app_nil_r.
    + symmetry. apply Z.leb_gt.
      assert ((end_dt - cur_dt) / 30 <= 0) by lia.
      Z.div_mod_to_equations. lia.
  - assert (Hle : cur_dt <= end_dt - 30).
    { assert (1 <= (end_dt - cur_dt) / 30) by lia.
      Z.div_mod_to_equations. lia. }
    replace (cur_dt <=? end_dt - 30) with true by (symmetry; now apply Z.leb_le).
    unfold HALF_HOUR. rewrite datetime_add_in_range.
    + rewrite (IH (cur_dt + 30) (slots ++ [time_of cur_dt])).
      * f_equal. rewrite <- app_assoc. f_equal. cbn [seq map app]. f_equal.
        -- apply f_equal. lia.
        -- rewrite <- seq_shift, map_map. apply map_ext.
           intros k. apply f_equal. lia.
      * Z.div_mod_to_equations. lia.
      * replace (end_dt - (cur_dt + 30)) with (end_dt - cur_dt + (-1) * 30) by lia.
        rewrite Z.div_add by lia. lia.
    + Z.div_mod_to_equations. lia.
Qed.

Lemma nth_error_map_seq {A : Type} (f : nat -> A) (n i : nat) (a : A) :
  nth_error (map f (seq 0 n)) i = Some a <-> (i < n)%nat /\ a = f i.
Proof.
  rewrite nth_error_map, nth_error_seq.
  destruct (Nat.ltb_spec i n); simpl; split.
  - intros E. injection E as <-. auto.
  - intros [_ ->]. reflexivity.
  - discriminate.
  - intros [Hi _]. lia.
Qed.

(** The computed grid is the grid of the specification. *)
Lemma grid_is_grid (start_t end_t : time) : is_grid start_t end_t (grid start_t end_t).
Proof.
  intros i t. unfold grid. rewrite nth_error_map_seq.
  set (len := minute_of_day end_t - minute_of_day start_t).
  assert (Hi : (i < Z.to_nat (len / 30))%nat <->
               minute_of_day start_t + 30 * Z.of_nat i + 30 <= minute_of_day end_t).
  { subst len. split; intros H.
    - assert (Z.of_nat i + 1 <= (minute_of_day end_t - minute_of_day start_t) / 30)
        by lia.
      Z.div_mod_to_equations. lia.
    - assert (Z.of_nat i + 1 <= (minute_of_day end_t - minute_of_day start_t) / 30).
      { apply Z.div_le_lower_bound; lia. }
      lia. }
  tauto.
Qed.

(** [generate_slots] returns the grid, unless the date is 0001-01-01 and
    the window ends before 00:30: the half hour before its end is then out
    of [datetime]'s range. *)
Lemma generate_slots_grid (w : worker) (d : date) (start_t end_t : time) :
  worker_daily_range w = Ok (start_t, end_t) ->
  date_ok d ->
  (d = 1 -> 30 <= minute_of_day end_t) ->
  generate_slots w d = Ok (grid start_t end_t).
Proof.
  intros Hw Hd Hmin. unfold generate_slots. rewrite Hw. simpl.
  destruct (worker_daily_range_ok _ _ _ Hw) as [Hs He].
  apply minute_of_day_range in Hs, He. unfold date_ok, MAXORDINAL in Hd.
  rewrite while_slots_run
    with (n := Z.to_nat ((minute_of_day end_t - minute_of_day start_t) / 30)).
  - simpl. unfold grid, add_minutes. f_equal. apply map_ext. intros k.
    unfold combine. rewrite <- Z.add_assoc. apply time_of_day_shift.
  - unfold combine. Z.div_mod_to_equations. lia.
  - unfold combine, MAXORDINAL. Z.div_mod_to_equations. lia.
  - unfold combine. Z.div_mod_to_equations. lia.
  - unfold combine. f_equal. f_equal. lia.
Qed.

Lemma generate_slots_overflow (w : worker) (d : date) (start_t end_t : time) :
  worker_daily_range w = Ok (start_t, end_t) ->
  d = 1 -> minute_of_day end_t < 30 ->
  generate_slots w d = Raise OverflowError.
Proof.
  intros Hw -> Hend. unfold generate_slots. rewrite Hw. simpl.
  destruct (worker_daily_range_ok _ _ _ Hw) as [Hs He].
  apply minute_of_day_range in He.
  rewrite while_slots_step. unfold datetime_sub.
  rewrite datetime_add_out_of_range; [reflexivity|].
  left. unfold combine, HALF_HOUR. Z.div_mod_to_equations. lia.
Qed.

Lemma last_map_seq {A : Type} (f : nat -> A) (n : nat) (a : A) :
  last (map f (seq 0 (S n))) a = f n.
Proof. rewrite seq_S, map_app. simpl. apply last_last. Qed.

Lemma grid_short (start_t end_t : time) :
  minute_of_day end_t - minute_of_day start_t < 30 -> grid start_t end_t = [].
Proof.
  intros Hshort. unfold grid.
  replace (Z.to_nat ((minute_of_day end_t - minute_of_day start_t) / 30)) with O;
    [reflexivity|].
  assert ((minute_of_day end_t - minute_of_day start_t) / 30 <= 0)
    by (Z.div_mod_to_equations; lia).
  lia.
Qed.

Lemma grid_long (start_t end_t : time) :
  time_ok start_t ->
  30 <= minute_of_day end_t - minute_of_day start_t ->
  exists k : nat,
    hd_error (grid start_t end_t) = Some start_t
    /\ last (grid start_t end_t) start_t = add_minutes start_t (30 * Z.of_nat k)
    /\ minute_of_day start_t + 30 * Z.of_nat k + 30 <= minute_of_day end_t
       < minute_of_day start_t + 30 * Z.of_nat k + 60.
Proof.
  intros Hs Hlong. unfold grid.
  remember (minute_of_day end_t - minute_of_day start_t) as len eqn:Elen.
  assert (Hq : 1 <= len / 30) by (apply Z.div_le_lower_bound; lia).
  destruct (Z.to_nat (len / 30)) as [|k] eqn:Ek; [lia|].
  exists k. split; [|split].
  - cbn [seq map hd_error]. f_equal. unfold add_minutes.
    replace (minute_of_day start_t + 30 * Z.of_nat 0)
      with (minute_of_day start_t) by lia.
    apply time_of_minute_of_day, Hs.
  - exact (last_map_seq (fun i => add_minutes start_t (30 * Z.of_nat i))
                         k start_t).
  - assert (Z.of_nat k + 1 = len / 30) by lia.
    Z.div_mod_to_equations. lia.
Qed.

(** C4, amended.  For a worker whose window is [(start_t, end_t)]:
    on 0001-01-01 with a window that ends before 00:30, [generate_slots]
    raises [OverflowError]; on every other date and window it returns the
    grid: the times [start_t], [start_t + 30], ... in order, as long as the
    half hour that starts there ends by [end_t].  The grid is empty when the
    window is shorter than 30 minutes; otherwise it starts at [start_t] and
    its last time is the greatest boundary with room for a half hour. *)
Theorem generate_slots_is_grid (w : worker) (d : date) (start_t end_t : time) :
  worker_daily_range w = Ok (start_t, end_t) ->
  date_ok d ->
  if (d =? 1) && (minute_of_day end_t <? 30)
  then generate_slots w d = Raise OverflowError
  else
    exists slots,
      generate_slots w d = Ok slots
      /\ is_grid start_t end_t slots
      /\ (minute_of_day end_t - minute_of_day start_t < 30 -> slots = [])
      /\ (30 <= minute_of_day end_t - minute_of_day start_t ->
          exists k : nat,
            hd_error slots = Some start_t
            /\ last slots start_t = add_minutes start_t (30 * Z.of_nat k)
            /\ minute_of_day start_t + 30 * Z.of_nat k + 30 <= minute_of_day end_t
               < minute_of_day start_t + 30 * Z.of_nat k + 60).
Proof.
  intros Hw Hd.
  destruct (worker_daily_range_ok _ _ _ Hw) as [Hs He].
  destruct (Z.eqb_spec d 1) as [E1|N1], (Z.ltb_spec (minute_of_day end_t) 30);
    cbn [andb];
    try (apply (generate_slots_overflow w d start_t end_t); assumption).
  all: exists (grid start_t end_t).
  all: split; [apply (generate_slots_grid w d start_t end_t); auto; lia|].
  all: split; [apply grid_is_grid|].
  all: split; [apply grid_short | apply grid_long; assumption].
Qed.

Lemma generate_slots_is_grid_witness :
  exists slots,
    generate_slots (mkWorker "asha" None None [] 300 "" None None) 739000
    = Ok slots
    /\ is_grid (mkTime 9 0) (mkTime 18 0) slots
    /\ (minute_of_day (mkTime 18 0) - minute_of_day (mkTime 9 0) < 30 ->
        slots = [])
    /\ (30 <= minute_of_day (mkTime 18 0) - minute_of_day (mkTime 9 0) ->
        exists k : nat,
          hd_error slots = Some (mkTime 9 0)
          /\ last slots (mkTime 9 0) = add_minutes (mkTime 9 0) (30 * Z.of_nat k)
          /\ minute_of_day (mkTime 9 0) + 30 * Z.of_nat k + 30
             <= minute_of_day (mkTime 18 0)
             < minute_of_day (mkTime 9 0) + 30 * Z.of_nat k + 60).
Proof.
  apply (generate_slots_is_grid
           (mkWorker "asha" None None [] 300 "" None None) 739000
           (mkTime 9 0) (mkTime 18 0)).
  - reflexivity.
  - unfold date_ok, MAXORDINAL. lia.
Defined.

(** C4 as worded fails on the first day of the calendar: for the window
    00:00-00:10 on 0001-01-01 no sequence is returned, empty or not. *)
Lemma generate_slots_first_day_counterexample :
  let w := mkWorker "asha" None None [] 300 "" (Some "00:00") (Some "00:10") in
  worker_daily_range w = Ok (mkTime 0 0, mkTime 0 10)
  /\ date_ok 1
  /\ minute_of_day (mkTime 0 10) - minute_of_day (mkTime 0 0) < 30
  /\ generate_slots w 1 = Raise OverflowError
  /\ generate_slots w 1 <> Ok [].
Proof.
  cbv zeta. split; [reflexivity|]. split; [unfold date_ok, MAXORDINAL; lia|].
  split; [reflexivity|]. split; [reflexivity | discriminate].
Qed.

(** ** The Booked-Span Resolver *)

Lemma occupiesb_spec (handle day : string) (b : booking) :
  occupiesb handle day b = true <-> occupies handle day b.
Proof.
  unfold occupiesb, occupies.
  rewrite !andb_true_iff, negb_true_iff, !String.eqb_eq, String.eqb_neq.
  tauto.
Qed.

Lemma mapM_Ok_Forall2 {A B : Type} (f : A -> result B) (l : list A) (r : list B) :
  mapM f l = Ok r <-> Forall2 (fun a b => f a = Ok b) l r.
Proof.
  revert r. induction l as [|a l IH]; intros r; simpl.
  - split.
    + intros E. injection E as <-. constructor.
    + intros H. inversion H. reflexivity.
  - split.
    + intros H. rbind_inv H. rbind_inv H. injection H as <-.
      constructor; [assumption | now apply IH].
    + intros H. inversion H as [|? b ? r' Hb Hr]; subst.
      rewrite Hb. simpl. apply IH in Hr. rewrite Hr. reflexivity.
Qed.

(** The loop collects, in the order of the rows, the spans of the rows
    that occupy the calendar, and stops at the first of them whose times
    cannot be read. *)
Lemma booked_spans_loop_spec (handle day : string) (rows : list booking)
  (spans : list span) :
  booked_spans_loop handle day rows spans =
  (found <- mapM booking_span (filter (occupiesb handle day) rows) ;;
   Ok (spans ++ found))%result.
Proof.
  revert spans. induction rows as [|b rows IH]; intros spans.
  - simpl. now rewrite app_nil_r.
  - cbn [booked_spans_loop filter]. fold (occupiesb handle day b).
    destruct (occupiesb handle day b).
    + cbn [mapM]. unfold booking_span at 1.
      destruct (unpack_HM (b_start b)) as [[sh sm]|]; cbn [rbind];
        [|reflexivity].
      destruct (unpack_HM (b_end b)) as [[eh em]|]; cbn [rbind]; [|reflexivity].
      destruct (dt_time sh sm) as [s|]; cbn [rbind]; [|reflexivity].
      destruct (dt_time eh em) as [e|]; cbn [rbind]; [|reflexivity].
      rewrite IH.
      destruct (mapM _ _) as [found|]; [|reflexivity].
      cbn [rbind]. now rewrite <- app_assoc.
    + apply IH.
Qed.

Lemma worker_booked_spans_run (handle : string) (d : date) (W : world) :
  worker_booked_spans handle d W =
  (mapM booking_span
        (filter (occupiesb handle (isoformat d)) (bookings (tables W))),
   after_read W).
Proof.
  unfold worker_booked_spans, load_bookings, bind, emit, lift, after_read. cbn.
  rewrite booked_spans_loop_spec.
  destruct (mapM _ _); reflexivity.
Qed.


(** ** The Availability Calculator *)

Lemma available_loop_spec (d : date) (dur : timedelta) (day_start day_end : time)
  (spans : list span) (slots avail : list time) :
  Forall time_ok slots ->
  available_loop d dur day_start day_end spans slots avail =
  (_ <- mapM (fun t => datetime_add (combine d t) dur) slots ;;
   Ok (avail ++ filter (fun t => fits day_start day_end dur t && free spans dur t)
                       slots))%result.
Proof.
  intros Hok. revert avail.
  induction Hok as [|t slots Ht Hok IH]; intros avail.
  - simpl. now rewrite app_nil_r.
  - cbn [available_loop mapM filter].
    destruct (datetime_add (combine d t) dur) as [end_dt|] eqn:Hadd;
      [|reflexivity].
    cbn [rbind]. apply datetime_add_Ok in Hadd. destruct Hadd as [-> _].
    rewrite time_of_combine by assumption.
    unfold combine at 1 2. rewrite <- Z.add_assoc, time_of_day_shift.
    fold (add_minutes t dur). unfold fits, free.
    destruct (time_ltb t day_start || time_ltb day_end (add_minutes t dur));
      cbn [negb andb].
    + rewrite IH. destruct (mapM _ slots); reflexivity.
    + match goal with
      | |- context [existsb ?f spans] => destruct (existsb f spans)
      end; cbn [negb].
      * rewrite IH. destruct (mapM _ slots); reflexivity.
      * rewrite IH. destruct (mapM _ slots); [|reflexivity].
        cbn [rbind]. now rewrite <- app_assoc.
Qed.

Lemma grid_times_ok (start_t end_t : time) : Forall time_ok (grid start_t end_t).
Proof.
  unfold grid. apply Forall_forall. intros t Ht.
  apply in_map_iff in Ht. destruct Ht as (k & <- & _).
  unfold add_minutes. auto with times.
Qed.

(** The times the loop of [generate_slots] appends are times of day. *)
Lemma while_slots_times_ok (cur_dt end_dt : datetime) (slots res : list time) :
  Forall time_ok slots ->
  while_slots cur_dt end_dt slots = Ok res -> Forall time_ok res.
Proof.
  funelim (while_slots cur_dt end_dt slots); intros Hok Hres;
    try discriminate.
  - injection Hres as <-. assumption.
  - eapply H; [|exact Hres].
    apply Forall_app. split; [assumption|].
    constructor; [apply time_of_ok | constructor].
Qed.

Lemma generate_slots_times_ok (w : worker) (d : date) (slots : list time) :
  generate_slots w d = Ok slots -> Forall time_ok slots.
Proof.
  unfold generate_slots. intros H. rbind_inv H. destruct a as [start_t end_t].
  eapply while_slots_times_ok; [|exact H]. constructor.
Qed.

Lemma available_start_slots_run (w : worker) (d : date) (duration_hrs : float)
  (W : world) :
  available_start_slots w d duration_hrs W =
  match duration duration_hrs with
  | Raise x => (Raise x, W)
  | Ok dur =>
      match generate_slots w d with
      | Raise x => (Raise x, W)
      | Ok slots =>
          match mapM booking_span
                     (filter (occupiesb (w_username w) (isoformat d))
                             (bookings (tables W))) with
          | Raise x => (Raise x, after_read W)
          | Ok spans =>
              match worker_daily_range w with
              | Raise x => (Raise x, after_read W)
              | Ok (day_start, day_end) =>
                  (available_loop d dur day_start day_end spans slots [],
                   after_read W)
              end
          end
      end
  end.
Proof.
  unfold available_start_slots, bind, lift.
  destruct (duration duration_hrs) as [dur|]; [|reflexivity].
  destruct (generate_slots w d) as [slots|]; [|reflexivity].
  rewrite worker_booked_spans_run.
  destruct (mapM booking_span _) as [spans|]; [|reflexivity].
  destruct (worker_daily_range w) as [[day_start day_end]|]; [|reflexivity].
  destruct (available_loop _ _ _ _ _ _ _); reflexivity.
Qed.

(** What a returned availability list is made of. *)
Lemma available_start_slots_Ok (w : worker) (d : date) (duration_hrs : float)
  (W W1 : world) (avail : list time) :
  available_start_slots w d duration_hrs W = (Ok avail, W1) ->
  exists dur slots spans day_start day_end,
    duration duration_hrs = Ok dur
    /\ generate_slots w d = Ok slots
    /\ mapM booking_span
            (filter (occupiesb (w_username w) (isoformat d))
                    (bookings (tables W))) = Ok spans
    /\ worker_daily_range w = Ok (day_start, day_end)
    /\ Forall (fun t => datetime_add (combine d t) dur
                        = Ok (combine d t + dur)) slots
    /\ avail = filter (fun t => fits day_start day_end dur t
                                && free spans dur t) slots
    /\ W1 = after_read W.
Proof.
  rewrite available_start_slots_run.
  destruct (duration duration_hrs) as [dur|]; [|discriminate].
  destruct (generate_slots w d) as [slots|] eqn:Hslots; [|discriminate].
  destruct (mapM booking_span _) as [spans|]; [|discriminate].
  destruct (worker_daily_range w) as [[day_start day_end]|]; [|discriminate].
  rewrite available_loop_spec by (eapply generate_slots_times_ok; eassumption).
  destruct (mapM _ slots) as [ends|] eqn:Hends; [|discriminate].
  cbn [rbind app]. intros E. injection E as <- <-.
  exists dur, slots, spans, day_start, day_end.
  repeat (split; [reflexivity|]). split; [|split; reflexivity].
  apply mapM_Ok_Forall2 in Hends. clear Hslots.
  induction Hends as [|t y slots ends Hy _ IH]; constructor; [|exact IH].
  rewrite Hy. apply datetime_add_Ok in Hy. destruct Hy as [-> _]. reflexivity.
Qed.

(** A time the Availability Calculator returns starts inside the window,
    and the time of day at which the visit ends is not after the end of
    the window; if the visit ends on the same day, it ends inside the
    window. *)
Lemma available_slot_bounds (w : worker) (d : date) (duration_hrs : float)
  (W W1 : world) (avail : list time) (dur : timedelta) (day_start day_end t : time) :
  available_start_slots w d duration_hrs W = (Ok avail, W1) ->
  duration duration_hrs = Ok dur ->
  worker_daily_range w = Ok (day_start, day_end) ->
  In t avail ->
  minute_of_day day_start <= minute_of_day t
  /\ (minute_of_day t + dur) mod 1440 <= minute_of_day day_end
  /\ (0 <= minute_of_day t + dur < 1440 ->
      minute_of_day t + dur <= minute_of_day day_end).
Proof.
  intros Havail Hdur Hw Ht.
  apply available_start_slots_Ok in Havail.
  destruct Havail as (dur' & slots & spans & s' & e' & Hd' & Hs & _ & Hw' & _ & -> & _).
  assert (dur' = dur) by congruence. subst dur'.
  assert (s' = day_start /\ e' = day_end) as [-> ->]
    by (split; congruence).
  apply filter_In in Ht. destruct Ht as [Hin Hacc].
  apply andb_true_iff in Hacc. destruct Hacc as [Hfits _].
  unfold fits in Hfits. apply negb_true_iff, orb_false_iff in Hfits.
  destruct Hfits as [Hlo Hhi].
  destruct (worker_daily_range_ok _ _ _ Hw) as [Hs_ok He_ok].
  assert (Ht_ok : time_ok t).
  { apply generate_slots_times_ok in Hs.
    rewrite Forall_forall in Hs. now apply Hs. }
  rewrite time_ltb_minutes in Hlo by (apply Ht_ok || apply Hs_ok).
  rewrite time_ltb_minutes in Hhi by (apply He_ok || apply time_of_ok).
  unfold add_minutes in Hhi. rewrite minute_of_day_time_of in Hhi.
  apply Z.ltb_ge in Hlo, Hhi.
  split; [exact Hlo|]. split; [exact Hhi|].
  intros Hday. rewrite Z.mod_small in Hhi by assumption. exact Hhi.
Qed.

(** A visit that ends on the day it starts never leaves [datetime]'s
    range. *)
Lemma mapM_datetime_add_same_day (d : date) (dur : timedelta) (slots : list time) :
  date_ok d ->
  Forall (fun t => 0 <= minute_of_day t + dur < 1440) slots ->
  mapM (fun t => datetime_add (combine d t) dur) slots
  = Ok (map (fun t => combine d t + dur) slots).
Proof.
  intros Hd Hslots. induction Hslots as [|t slots Ht _ IH]; [reflexivity|].
  cbn [mapM map]. rewrite datetime_add_in_range.
  - cbn [rbind]. rewrite IH. reflexivity.
  - unfold date_ok in Hd. unfold combine. Z.div_mod_to_equations. lia.
Qed.

(** C1 (the code departs from it).  A worker is at work from 20:00 to
    23:30 and nothing is booked.  For a visit of six hours the Availability
    Calculator offers 20:00, although such a visit ends at 02:00 on the
    next day, two and a half hours after the window has closed: the test
    [en_t > day_end] looks at the time of day of the end and has lost the
    day. *)
Theorem available_start_slots_past_midnight :
  worker_daily_range night_worker = Ok (mkTime 20 0, mkTime 23 30)
  /\ duration 6%float = Ok 360
  /\ fst (available_start_slots night_worker a_day 6%float empty_world)
     = Ok [mkTime 20 0; mkTime 20 30; mkTime 21 0; mkTime 21 30;
           mkTime 22 0; mkTime 22 30; mkTime 23 0]
  /\ minute_of_day (mkTime 23 30) < minute_of_day (mkTime 20 0) + 360.
Proof.
  split; [vm_compute; reflexivity|]. split; [vm_compute; reflexivity|].
  split; vm_compute; reflexivity.
Qed.

(** C8. Scenario 1: window 09:00-18:00, no booked span, a visit of an hour
    and a half.  On every date the Availability Calculator returns a
    non-empty list that starts with 09:00 and ends with 16:30. *)
Theorem scenario_one (w : worker) (d : date) (W : world) :
  worker_daily_range w = Ok (mkTime 9 0, mkTime 18 0) ->
  date_ok d ->
  fst (worker_booked_spans (w_username w) d W) = Ok [] ->
  exists avail,
    fst (available_start_slots w d 1.5%float W) = Ok avail
    /\ avail <> []
    /\ hd_error avail = Some (mkTime 9 0)
    /\ last avail (mkTime 9 0) = mkTime 16 30.
Proof.
  intros Hw Hd Hspans.
  rewrite worker_booked_spans_run in Hspans. cbn [fst] in Hspans.
  rewrite available_start_slots_run.
  replace (duration 1.5%float) with (Ok (A := timedelta) 90) by reflexivity.
  rewrite (generate_slots_grid w d _ _ Hw Hd) by (intros _; cbv; discriminate).
  rewrite Hspans, Hw.
  rewrite available_loop_spec by apply grid_times_ok.
  rewrite mapM_datetime_add_same_day.
  - cbn [rbind fst app].
    eexists. split; [reflexivity|].
    split; [|split]; vm_compute; congruence.
  - exact Hd.
  - vm_compute. repeat constructor; discriminate.
Qed.

Lemma scenario_one_witness :
  exists avail,
    fst (available_start_slots
           (mkWorker "asha" None None [] 300 "" (Some "09:00") (Some "18:00"))
           739000 1.5%float (mkWorld (mkStore [] [] []) [])) = Ok avail
    /\ avail <> []
    /\ hd_error avail = Some (mkTime 9 0)
    /\ last avail (mkTime 9 0) = mkTime 16 30.
Proof.
  apply (scenario_one
           (mkWorker "asha" None None [] 300 "" (Some "09:00") (Some "18:00"))
           739000 (mkWorld (mkStore [] [] []) [])).
  - reflexivity.
  - unfold date_ok, MAXORDINAL. lia.
  - reflexivity.
Defined.

(** ** The Booking Transaction *)

(** Closes the cases in which no SMTP session is opened. *)
Ltac no_mail Hnone := exists []; split; [exact Hnone | now left].

Lemma send_confirmation_run (e : env) (recipient subject body : string) (W : world) :
  exists events,
    send_confirmation e recipient subject body W
    = (Ok (match events with [] => false | _ => smtp_session_ok e end),
       mkWorld (tables W) (trace W ++ events))
    /\ (events = [] \/
        exists sender, events = [SmtpSend sender recipient subject body]).
Proof.
  assert (Hnone : (Ok false, W)
                  = (Ok false, mkWorld (tables W) (trace W ++ []))).
  { rewrite app_nil_r. destruct W. reflexivity. }
  unfold send_confirmation.
  destruct (port_converts (EMAIL e)); cbn [negb];
    [|no_mail Hnone].
  destruct (host (EMAIL e)) as [h|];
    [|no_mail Hnone].
  destruct (smtp_username (EMAIL e)) as [n|];
    [|no_mail Hnone].
  destruct (smtp_password (EMAIL e)) as [p|];
    [|no_mail Hnone].
  destruct (sender_email (EMAIL e)) as [s|].
  - destruct (Py.truthy h && Py.truthy n && Py.truthy p && Py.truthy s);
      [|no_mail Hnone].
    exists [SmtpSend s recipient subject body]. split; [reflexivity|].
    right. now exists s.
  - destruct (Py.truthy h && Py.truthy n && Py.truthy p && Py.truthy n);
      [|no_mail Hnone].
    exists [SmtpSend n recipient subject body]. split; [reflexivity|].
    right. now exists n.
Qed.

Lemma notify_run (e : env) (u : user) (subject body : string) (W : world) :
  exists events,
    match u_email u with
    | Some address =>
        if Py.truthy address
        then send_confirmation e address subject body
        else ret false
    | None => ret false
    end W
    = (Ok (match events with [] => false | _ => smtp_session_ok e end),
       mkWorld (tables W) (trace W ++ events))
    /\ (events = [] \/
        exists sender recipient subject body,
          u_email u = Some recipient
          /\ events = [SmtpSend sender recipient subject body]).
Proof.
  assert (Hnone : ret false W
                  = (Ok false, mkWorld (tables W) (trace W ++ []))).
  { rewrite app_nil_r. destruct W. reflexivity. }
  destruct (u_email u) as [address|];
    [|no_mail Hnone].
  destruct (Py.truthy address);
    [|no_mail Hnone].
  destruct (send_confirmation_run e address subject body W)
    as (events & Hrun & [-> | (sender & ->)]).
  - exists []. split; [exact Hrun | now left].
  - exists [SmtpSend sender address subject body]. split; [exact Hrun|].
    right. exists sender, address, subject, body. auto.
Qed.

Lemma existsb_time_eqb (start : time) (avail : list time) :
  existsb (time_eqb start) avail = true <-> In start avail.
Proof.
  rewrite existsb_exists. split.
  - intros (t & Hin & E). apply time_eqb_eq in E. now subst.
  - intros Hin. exists start. split; [assumption | now apply time_eqb_eq].
Qed.

Section Transaction.

Variables (e : env) (u : user) (w : worker) (d : date) (start : time).
Variables (duration_hrs : float) (W : world).

(** The call under study and the availability list it is checked
    against. *)
Let outcome := create_booking e u w d start duration_hrs W.
Let offered := available_start_slots w d duration_hrs W.

Lemma create_booking_rejects (W1 : world) (dur : timedelta)
  (end_dt : datetime) (avail : list time) :
  duration duration_hrs = Ok dur ->
  datetime_add (combine d start) dur = Ok end_dt ->
  offered = (Ok avail, W1) ->
  ~ In start avail ->
  outcome = (Ok (false, SLOT_TAKEN), W1).
Proof.
  intros Hdur Hadd Havail Hnot.
  unfold outcome, offered, create_booking, bind, lift in *. rewrite Hdur, Hadd, Havail.
  destruct (existsb (time_eqb start) avail) eqn:Hex.
  - apply existsb_time_eqb in Hex. contradiction.
  - reflexivity.
Qed.

Lemma create_booking_accepts (W1 : world) (avail : list time) :
  offered = (Ok avail, W1) ->
  In start avail ->
  exists dur events,
    duration duration_hrs = Ok dur
    /\ outcome
       = (Ok (true,
              match events with
              | [] => BOOKED ++ NOT_SENT
              | _ => if smtp_session_ok e then BOOKED else BOOKED ++ NOT_SENT
              end)%string,
          mkWorld
            (mkStore (users (tables W)) (workers (tables W))
                     (bookings (tables W) ++ [booking_row e u w d start dur]))
            (trace W
             ++ [GhGet DATA_BOOKINGS; GhGet DATA_BOOKINGS;
                 GhPut DATA_BOOKINGS ("Add booking bk_" ++ utcnow e)%string]
             ++ events))
    /\ (events = [] \/
        exists sender recipient subject body,
          u_email u = Some recipient
          /\ events = [SmtpSend sender recipient subject body]).
Proof.
  unfold outcome, offered. intros Havail Hin.
  pose proof Havail as Hparts. apply available_start_slots_Ok in Hparts.
  destruct Hparts as (dur & slots & spans & s' & e' & Hdur & _ & _ & _ & Hadds & -> & ->).
  assert (Hadd : datetime_add (combine d start) dur = Ok (combine d start + dur)).
  { apply filter_In in Hin. destruct Hin as [Hin _].
    rewrite Forall_forall in Hadds. now apply Hadds. }
  apply existsb_time_eqb in Hin.
  exists dur.
  unfold create_booking, bind, lift. rewrite Hdur, Hadd, Havail, Hin.
  cbn [negb]. unfold load_bookings, save_table_bookings, bind, emit.
  cbn [tables trace after_read users workers bookings].
  replace (time_of (combine d start + dur)) with (add_minutes start dur)
    by (unfold add_minutes, combine; now rewrite <- Z.add_assoc, time_of_day_shift).
  fold (booking_row e u w d start dur).
  match goal with
  | |- context [send_confirmation e _ ?subject ?body] =>
      set (sj := subject); set (bd := body)
  end.
  match goal with
  | |- context [mkWorld ?s (((trace W ++ ?a) ++ ?b) ++ ?c)] =>
      set (W2 := mkWorld s (((trace W ++ a) ++ b) ++ c))
  end.
  destruct (notify_run e u sj bd W2) as (events & Hrun & Hevents).
  exists events. split; [reflexivity|]. split; [|exact Hevents].
  rewrite Hrun. subst W2. unfold ret. cbn [tables trace].
  rewrite <- !app_assoc. cbn [app].
  destruct events; [reflexivity|]. destruct (smtp_session_ok e); reflexivity.
Qed.

(** A call that reports success found its start in the list. *)
Lemma create_booking_success (W' : world) (msg : string) :
  outcome = (Ok (true, msg), W') ->
  exists avail W1, offered = (Ok avail, W1) /\ In start avail.
Proof.
  unfold outcome, offered, create_booking, bind, lift.
  destruct (duration duration_hrs) as [dur|]; [|discriminate].
  destruct (datetime_add (combine d start) dur) as [end_dt|]; [|discriminate].
  destruct (available_start_slots w d duration_hrs W) as [[avail|] W1];
    [|discriminate].
  destruct (existsb (time_eqb start) avail) eqn:Hex; cbn [negb].
  - intros _. exists avail, W1. split; [reflexivity|].
    now apply existsb_time_eqb.
  - unfold ret. discriminate.
Qed.

End Transaction.

Lemma available_start_slots_reads_only (w : worker) (d : date)
  (duration_hrs : float) (W : world) :
  tables (snd (available_start_slots w d duration_hrs W)) = tables W.
Proof.
  rewrite available_start_slots_run.
  destruct (duration duration_hrs); [|reflexivity].
  destruct (generate_slots w d); [|reflexivity].
  destruct (mapM booking_span _); [|reflexivity].
  destruct (worker_daily_range w) as [[day_start day_end]|]; reflexivity.
Qed.

(** C5, amended.  When the requested start is not in the list the
    Availability Calculator returns for the same worker, date and
    duration, [create_booking] writes nothing.  It returns the failure
    "Selected slot is no longer available." provided that the requested
    start plus the duration is a moment [datetime] can hold; otherwise its
    second line raises [OverflowError] before availability is looked at. *)
Theorem create_booking_unavailable (e : env) (u : user) (w : worker) (d : date)
  (start : time) (duration_hrs : float) (W : world) (avail : list time) :
  fst (available_start_slots w d duration_hrs W) = Ok avail ->
  ~ In start avail ->
  let outcome := create_booking e u w d start duration_hrs W in
  tables (snd outcome) = tables W
  /\ exists dur,
       duration duration_hrs = Ok dur
       /\ match datetime_add (combine d start) dur with
          | Ok _ => fst outcome = Ok (false, SLOT_TAKEN)
          | Raise x => x = OverflowError /\ fst outcome = Raise OverflowError
          end.
Proof.
  intros Havail Hnot outcome. subst outcome.
  destruct (available_start_slots w d duration_hrs W) as [r W1] eqn:Hrun.
  cbn [fst] in Havail. subst r.
  pose proof (available_start_slots_reads_only w d duration_hrs W) as Hro.
  rewrite Hrun in Hro. cbn [snd] in Hro.
  destruct (available_start_slots_Ok _ _ _ _ _ _ Hrun)
    as (dur & _ & _ & _ & _ & Hdur & _).
  destruct (datetime_add (combine d start) dur) as [end_dt|x] eqn:Hadd.
  - rewrite (create_booking_rejects e u w d start duration_hrs W W1 dur end_dt avail)
      by assumption.
    split; [exact Hro|]. exists dur. rewrite Hadd. auto.
  - unfold create_booking, bind, lift. rewrite Hdur, Hadd. cbn [fst snd].
    split; [reflexivity|]. exists dur. rewrite Hadd.
    unfold datetime_add in Hadd. cbv zeta in Hadd.
    destruct (_ && _) in Hadd; [discriminate|]. injection Hadd as <-. auto.
Qed.

Lemma create_booking_unavailable_witness :
  let outcome := create_booking quiet_env bob asha a_day (mkTime 8 0) 1%float
                                empty_world in
  tables (snd outcome) = tables empty_world
  /\ exists dur,
       duration 1%float = Ok dur
       /\ match datetime_add (combine a_day (mkTime 8 0)) dur with
          | Ok _ => fst outcome = Ok (false, SLOT_TAKEN)
          | Raise x => x = OverflowError /\ fst outcome = Raise OverflowError
          end.
Proof.
  eapply (create_booking_unavailable quiet_env bob asha a_day (mkTime 8 0)
                                     1%float empty_world).
  - vm_compute. reflexivity.
  - vm_compute. intuition discriminate.
Defined.

(** C5 as worded fails on the last day of the calendar: 23:30 is not
    offered for a visit of one hour on 9999-12-31, yet the transaction does
    not return the failure, it raises [OverflowError]. *)
Lemma create_booking_last_day_counterexample :
  exists avail,
    date_ok MAXORDINAL
    /\ fst (available_start_slots asha MAXORDINAL 1%float empty_world) = Ok avail
    /\ ~ In (mkTime 23 30) avail
    /\ fst (create_booking quiet_env bob asha MAXORDINAL (mkTime 23 30) 1%float
                           empty_world)
       = Raise OverflowError
    /\ fst (create_booking quiet_env bob asha MAXORDINAL (mkTime 23 30) 1%float
                           empty_world)
       <> Ok (false, SLOT_TAKEN).
Proof.
  eexists. split; [unfold date_ok, MAXORDINAL; lia|].
  split; [vm_compute; reflexivity|].
  split; [vm_compute; intuition discriminate|].
  split; vm_compute; [reflexivity | discriminate].
Qed.

(** The mail that follows the write, exactly. *)
Lemma notify_exact (e : env) (u : user) (subject body : string) (W : world) :
  match u_email u with
  | Some address =>
      if Py.truthy address
      then send_confirmation e address subject body
      else ret false
  | None => ret false
  end W
  = (Ok (match mail_route e u with
         | Some _ => smtp_session_ok e
         | None => false
         end),
     mkWorld (tables W)
             (trace W ++ match mail_route e u with
                         | Some (sender, recipient) =>
                             [SmtpSend sender recipient subject body]
                         | None => []
                         end)).
Proof.
  assert (Hnone : ret false W
                  = (Ok false, mkWorld (tables W) (trace W ++ []))).
  { rewrite app_nil_r. destruct W. reflexivity. }
  unfold mail_route, send_confirmation, set_and_filled.
  destruct (u_email u) as [address|].
  2: { destruct (sender_email (EMAIL e)), (smtp_username (EMAIL e));
         exact Hnone. }
  destruct (Py.truthy address); cbn [andb].
  2: { destruct (sender_email (EMAIL e)), (smtp_username (EMAIL e));
         exact Hnone. }
  destruct (port_converts (EMAIL e)); cbn [negb andb].
  2: { destruct (sender_email (EMAIL e)), (smtp_username (EMAIL e));
         exact Hnone. }
  destruct (host (EMAIL e)) as [h|]; cbn [andb].
  2: { destruct (sender_email (EMAIL e)), (smtp_username (EMAIL e));
         exact Hnone. }
  destruct (smtp_username (EMAIL e)) as [n|]; cbn [andb].
  2: { destruct (Py.truthy h), (sender_email (EMAIL e)); exact Hnone. }
  destruct (smtp_password (EMAIL e)) as [p|]; cbn [andb].
  2: { destruct (Py.truthy h), (Py.truthy n), (sender_email (EMAIL e));
         exact Hnone. }
  destruct (sender_email (EMAIL e)) as [s|];
    destruct (Py.truthy h), (Py.truthy n), (Py.truthy p); cbn [andb];
    try exact Hnone;
    try (destruct (Py.truthy s); cbn [andb]; try exact Hnone);
    reflexivity.
Qed.

(** A request whose start is in the list: the whole outcome. *)
Lemma create_booking_books (e : env) (u : user) (w : worker) (d : date)
  (start : time) (duration_hrs : float) (W W1 : world) (avail : list time) :
  available_start_slots w d duration_hrs W = (Ok avail, W1) ->
  In start avail ->
  exists dur subject body,
    duration duration_hrs = Ok dur
    /\ create_booking e u w d start duration_hrs W
       = (Ok (true,
              if match mail_route e u with
                 | Some _ => smtp_session_ok e
                 | None => false
                 end
              then BOOKED else (BOOKED ++ NOT_SENT)%string),
          mkWorld
            (mkStore (users (tables W)) (workers (tables W))
                     (bookings (tables W) ++ [booking_row e u w d start dur]))
            (trace W
             ++ [GhGet DATA_BOOKINGS; GhGet DATA_BOOKINGS;
                 GhPut DATA_BOOKINGS ("Add booking bk_" ++ utcnow e)%string]
             ++ match mail_route e u with
                | Some (sender, recipient) =>
                    [SmtpSend sender recipient subject body]
                | None => []
                end)).
Proof.
  intros Havail Hin.
  pose proof Havail as Hparts. apply available_start_slots_Ok in Hparts.
  destruct Hparts as (dur & slots & spans & s' & e' & Hdur & _ & _ & _ & Hadds & -> & ->).
  assert (Hadd : datetime_add (combine d start) dur = Ok (combine d start + dur)).
  { apply filter_In in Hin. destruct Hin as [Hin _].
    rewrite Forall_forall in Hadds. now apply Hadds. }
  apply existsb_time_eqb in Hin.
  exists dur.
  unfold create_booking, bind, lift. rewrite Hdur, Hadd, Havail, Hin.
  cbn [negb]. unfold load_bookings, save_table_bookings, bind, emit.
  cbn [tables trace after_read users workers bookings].
  replace (time_of (combine d start + dur)) with (add_minutes start dur)
    by (unfold add_minutes, combine; now rewrite <- Z.add_assoc, time_of_day_shift).
  fold (booking_row e u w d start dur).
  match goal with
  | |- context [send_confirmation e _ ?subject ?body] =>
      exists subject, body; set (sj := subject); set (bd := body)
  end.
  split; [reflexivity|].
  match goal with
  | |- context [mkWorld ?s (((trace W ++ ?a) ++ ?b) ++ ?c)] =>
      set (W2 := mkWorld s (((trace W ++ a) ++ b) ++ c))
  end.
  rewrite (notify_exact e u sj bd W2). subst W2. unfold ret.
  cbn [tables trace]. rewrite <- !app_assoc. cbn [app].
  destruct (mail_route e u) as [[sender recipient]|];
    [destruct (smtp_session_ok e)|]; reflexivity.
Qed.

(** C6. A request that passes re-validation is booked: the row is appended
    to the collection and the file is put back before any mail is sent.
    The trace of the call is two reads of the bookings, the write, and
    then the SMTP session to the address of the customer, which is opened
    exactly when the customer has an address and the mail secrets are
    complete ([mail_route]).  The call returns success whatever becomes of
    the mail; the message is "Booking created successfully." exactly when
    the session was opened and ran to its end, and carries the remark
    about SMTP settings in every other case.  The two messages differ. *)
Theorem create_booking_commits_then_notifies (e : env) (u : user) (w : worker)
  (d : date) (start : time) (duration_hrs : float) (W : world)
  (avail : list time) :
  fst (available_start_slots w d duration_hrs W) = Ok avail ->
  In start avail ->
  exists dur subject body,
    duration duration_hrs = Ok dur
    /\ create_booking e u w d start duration_hrs W
       = (Ok (true,
              if match mail_route e u with
                 | Some _ => smtp_session_ok e
                 | None => false
                 end
              then BOOKED else (BOOKED ++ NOT_SENT)%string),
          mkWorld
            (mkStore (users (tables W)) (workers (tables W))
                     (bookings (tables W) ++ [booking_row e u w d start dur]))
            (trace W
             ++ [GhGet DATA_BOOKINGS; GhGet DATA_BOOKINGS;
                 GhPut DATA_BOOKINGS ("Add booking bk_" ++ utcnow e)%string]
             ++ match mail_route e u with
                | Some (sender, recipient) =>
                    [SmtpSend sender recipient subject body]
                | None => []
                end))
    /\ (forall sender recipient,
          mail_route e u = Some (sender, recipient) ->
          u_email u = Some recipient)
    /\ BOOKED <> (BOOKED ++ NOT_SENT)%string.
Proof.
  intros Havail Hin.
  destruct (available_start_slots w d duration_hrs W) as [r W1] eqn:Hrun.
  cbn [fst] in Havail. subst r.
  destruct (create_booking_books e u w d start duration_hrs W W1 avail Hrun Hin)
    as (dur & subject & body & Hdur & Hbook).
  exists dur, subject, body.
  split; [exact Hdur|]. split; [exact Hbook|]. split; [|discriminate].
  unfold mail_route. intros sender recipient.
  destruct (match sender_email (EMAIL e) with
            | Some s => Some s
            | None => smtp_username (EMAIL e)
            end) as [s|]; [|discriminate].
  destruct (u_email u) as [r|]; [|discriminate].
  destruct (_ && _); [|discriminate].
  intros E. injection E as _ <-. reflexivity.
Qed.

Lemma create_booking_commits_then_notifies_witness :
  exists dur subject body,
    duration 1.5%float = Ok dur
    /\ create_booking sending_env bob asha a_day (mkTime 10 0) 1.5%float
                      empty_world
       = (Ok (true,
              if match mail_route sending_env bob with
                 | Some _ => smtp_session_ok sending_env
                 | None => false
                 end
              then BOOKED else (BOOKED ++ NOT_SENT)%string),
          mkWorld
            (mkStore (users (tables empty_world)) (workers (tables empty_world))
                     (bookings (tables empty_world)
                      ++ [booking_row sending_env bob asha a_day (mkTime 10 0)
                                      dur]))
            (trace empty_world
             ++ [GhGet DATA_BOOKINGS; GhGet DATA_BOOKINGS;
                 GhPut DATA_BOOKINGS
                       ("Add booking bk_" ++ utcnow sending_env)%string]
             ++ match mail_route sending_env bob with
                | Some (sender, recipient) =>
                    [SmtpSend sender recipient subject body]
                | None => []
                end))
    /\ (forall sender recipient,
          mail_route sending_env bob = Some (sender, recipient) ->
          u_email bob = Some recipient)
    /\ BOOKED <> (BOOKED ++ NOT_SENT)%string.
Proof.
  eapply (create_booking_commits_then_notifies sending_env bob asha a_day
                                               (mkTime 10 0) 1.5%float
                                               empty_world).
  - vm_compute. reflexivity.
  - vm_compute. tauto.
Defined.

(** The three ways the mail can go, computed: complete secrets and a
    session that runs to its end give the plain message after one session
    from the desk to the customer; a session that breaks, and secrets that
    are missing, give the remark, the latter without any session. *)
Example create_booking_mail_cases :
  let run e := create_booking e bob asha a_day (mkTime 10 0) 1.5%float
                              empty_world in
  mail_route sending_env bob = Some ("desk@example.org", "bob@example.org")%string
  /\ fst (run sending_env) = Ok (true, BOOKED)
  /\ (exists subject body,
        trace (snd (run sending_env))
        = [GhGet DATA_BOOKINGS; GhGet DATA_BOOKINGS;
           GhPut DATA_BOOKINGS ("Add booking bk_" ++ utcnow sending_env)%string;
           SmtpSend "desk@example.org" "bob@example.org" subject body])
  /\ mail_route mailing_env bob = Some ("maid", "bob@example.org")%string
  /\ fst (run mailing_env) = Ok (true, (BOOKED ++ NOT_SENT)%string)
  /\ mail_route quiet_env bob = None
  /\ fst (run quiet_env) = Ok (true, (BOOKED ++ NOT_SENT)%string)
  /\ trace (snd (run quiet_env))
     = [GhGet DATA_BOOKINGS; GhGet DATA_BOOKINGS;
        GhPut DATA_BOOKINGS ("Add booking bk_" ++ utcnow quiet_env)%string].
Proof.
  cbv zeta.
  split; [vm_compute; reflexivity|]. split; [vm_compute; reflexivity|].
  split; [eexists; eexists; vm_compute; reflexivity|].
  repeat split; vm_compute; reflexivity.
Qed.

(** C9, amended.  [create_booking] checks a request against the
    availability list and against nothing else; the program has no
    validation error.  Take a request whose duration is not a positive
    multiple of 30 minutes and for which the Availability Calculator
    returns a list.  When its start is in the list it is booked: two reads
    of the bookings, one write with the row appended, then the mail, and
    success is returned.  When its start is not in the list and start plus
    duration is a moment [datetime] can hold, the bookings are read once,
    nothing is written and the failure "Selected slot is no longer
    available." is returned; when start plus duration is no such moment,
    [OverflowError] is raised before any request is made.  In each case
    the trace holds every request once: nothing is retried. *)
Theorem create_booking_validates_nothing (e : env) (u : user) (w : worker)
  (d : date) (start : time) (duration_hrs : float) (W : world)
  (dur : timedelta) (avail : list time) :
  duration duration_hrs = Ok dur ->
  ~ (0 < dur /\ dur mod 30 = 0) ->
  fst (available_start_slots w d duration_hrs W) = Ok avail ->
  let outcome := create_booking e u w d start duration_hrs W in
  (In start avail ->
   exists subject body,
     outcome
     = (Ok (true,
            if match mail_route e u with
               | Some _ => smtp_session_ok e
               | None => false
               end
            then BOOKED else (BOOKED ++ NOT_SENT)%string),
        mkWorld
          (mkStore (users (tables W)) (workers (tables W))
                   (bookings (tables W) ++ [booking_row e u w d start dur]))
          (trace W
           ++ [GhGet DATA_BOOKINGS; GhGet DATA_BOOKINGS;
               GhPut DATA_BOOKINGS ("Add booking bk_" ++ utcnow e)%string]
           ++ match mail_route e u with
              | Some (sender, recipient) =>
                  [SmtpSend sender recipient subject body]
              | None => []
              end)))
  /\ (~ In start avail ->
      match datetime_add (combine d start) dur with
      | Ok _ =>
          outcome
          = (Ok (false, SLOT_TAKEN),
             mkWorld (tables W) (trace W ++ [GhGet DATA_BOOKINGS]))
      | Raise _ => outcome = (Raise OverflowError, W)
      end).
Proof.
  intros Hdur _ Havail outcome. subst outcome.
  destruct (available_start_slots w d duration_hrs W) as [r W1] eqn:Hrun.
  cbn [fst] in Havail. subst r. split.
  - intros Hin.
    destruct (create_booking_books e u w d start duration_hrs W W1 avail Hrun Hin)
      as (dur' & subject & body & Hdur' & ->).
    assert (dur' = dur) by congruence. subst dur'.
    exists subject, body. reflexivity.
  - intros Hnot.
    destruct (datetime_add (combine d start) dur) as [end_dt|x] eqn:Hadd.
    + rewrite (create_booking_rejects e u w d start duration_hrs W W1 dur end_dt avail)
        by assumption.
      apply available_start_slots_Ok in Hrun.
      destruct Hrun as (? & ? & ? & ? & ? & _ & _ & _ & _ & _ & _ & ->).
      reflexivity.
    + unfold create_booking, bind, lift. rewrite Hdur, Hadd.
      unfold datetime_add in Hadd. cbv zeta in Hadd.
      destruct (_ && _) in Hadd; [discriminate|]. injection Hadd as <-.
      reflexivity.
Qed.

Lemma create_booking_validates_nothing_witness :
  let outcome := create_booking quiet_env bob asha a_day (mkTime 9 0)
                                0.75%float empty_world in
  let avail := map (fun k => mkTime (9 + Z.of_nat k / 2)
                                    (30 * (Z.of_nat k mod 2)))
                   (seq 0 17) in
  (In (mkTime 9 0) avail ->
   exists subject body,
     outcome
     = (Ok (true,
            if match mail_route quiet_env bob with
               | Some _ => smtp_session_ok quiet_env
               | None => false
               end
            then BOOKED else (BOOKED ++ NOT_SENT)%string),
        mkWorld
          (mkStore (users (tables empty_world)) (workers (tables empty_world))
                   (bookings (tables empty_world)
                    ++ [booking_row quiet_env bob asha a_day (mkTime 9 0) 45]))
          (trace empty_world
           ++ [GhGet DATA_BOOKINGS; GhGet DATA_BOOKINGS;
               GhPut DATA_BOOKINGS ("Add booking bk_" ++ utcnow quiet_env)%string]
           ++ match mail_route quiet_env bob with
              | Some (sender, recipient) =>
                  [SmtpSend sender recipient subject body]
              | None => []
              end)))
  /\ (~ In (mkTime 9 0) avail ->
      match datetime_add (combine a_day (mkTime 9 0)) 45 with
      | Ok _ =>
          outcome
          = (Ok (false, SLOT_TAKEN),
             mkWorld (tables empty_world)
                     (trace empty_world ++ [GhGet DATA_BOOKINGS]))
      | Raise _ => outcome = (Raise OverflowError, empty_world)
      end).
Proof.
  apply (create_booking_validates_nothing quiet_env bob asha a_day (mkTime 9 0)
                                          0.75%float empty_world 45).
  - vm_compute. reflexivity.
  - intros [_ H]. vm_compute in H. discriminate.
  - vm_compute. reflexivity.
Defined.

(** C9 as worded fails: a visit of 45 minutes is booked, and so is a visit
    of six hours from 20:00 that ends at 02:00 on the next day; neither
    call raises, both write a row. *)
Lemma create_booking_validation_counterexample :
  let short := create_booking quiet_env bob asha a_day (mkTime 9 0) 0.75%float
                              empty_world in
  let late := create_booking quiet_env bob night_worker a_day (mkTime 20 0)
                             6%float empty_world in
  (duration 0.75%float = Ok 45 /\ 45 mod 30 <> 0
   /\ fst short = Ok (true, (BOOKED ++ NOT_SENT)%string)
   /\ map (fun b => (b_start b, b_end b)) (bookings (tables (snd short)))
      = [("09:00", "09:45")]%string)
  /\ (duration 6%float = Ok 360
      /\ 1440 <= minute_of_day (mkTime 20 0) + 360
      /\ fst late = Ok (true, (BOOKED ++ NOT_SENT)%string)
      /\ map (fun b => (b_start b, b_end b)) (bookings (tables (snd late)))
         = [("20:00", "02:00")]%string).
Proof.
  cbv zeta. split.
  - split; [vm_compute; reflexivity|]. split; [discriminate|].
    split; vm_compute; reflexivity.
  - split; [vm_compute; reflexivity|]. split; [vm_compute; discriminate|].
    split; vm_compute; reflexivity.
Qed.

(** The two ways a request that is not in the list ends, computed: 08:00
    is before the window opens, and is turned down after one read; on the
    last day of the calendar 23:30 plus 45 minutes is no moment, and the
    call raises before any request. *)
Example create_booking_turned_down_cases :
  create_booking quiet_env bob asha a_day (mkTime 8 0) 0.75%float empty_world
  = (Ok (false, SLOT_TAKEN),
     mkWorld (tables empty_world) [GhGet DATA_BOOKINGS])
  /\ create_booking quiet_env bob asha MAXORDINAL (mkTime 23 30) 0.75%float
                    empty_world
     = (Raise OverflowError, empty_world).
Proof. split; vm_compute; reflexivity. Qed.

(** ** Registration *)

Lemma code_range (c : ascii) : 0 <= Py.code c < 256.
Proof.
  unfold Py.code. pose proof (N_ascii_bounded c) as H. lia.
Qed.

Lemma lower_char_upper (a b : ascii) :
  is_upper a = true -> Py.code b = Py.code a + 32 ->
  Py.lower_char a = Py.lower_char b.
Proof.
  unfold is_upper, Py.lower_char. intros Ha Hb. rewrite Ha.
  apply andb_true_iff in Ha. destruct Ha as [Hlo Hhi].
  apply Z.leb_le in Hlo, Hhi.
  replace (Py.code b <=? 90) with false by (symmetry; apply Z.leb_gt; lia).
  rewrite andb_false_r.
  rewrite <- (ascii_N_embedding b). f_equal.
  unfold Py.code in Hb. lia.
Qed.

Lemma lower_char_case_eq (a b : ascii) :
  char_case_eq a b -> Py.lower_char a = Py.lower_char b.
Proof.
  intros [-> | [[Ha Hb] | [Hb Ha]]].
  - reflexivity.
  - now apply lower_char_upper.
  - symmetry. now apply lower_char_upper.
Qed.

(** Names that differ in the case of ASCII letters only have the same
    [lower()]. *)
Lemma lower_same_up_to_case (s t : string) :
  same_up_to_case s t -> Py.lower s = Py.lower t.
Proof.
  revert t. induction s as [|a s IH]; intros [|b t]; simpl; try tauto.
  intros [Hab Hst]. f_equal; [now apply lower_char_case_eq | now apply IH].
Qed.

(** C10. When the users collection holds a user whose name is the requested
    name up to the case of ASCII letters, [register_user] reads the
    collection, returns the failure "Username already exists." and writes
    nothing. *)
Theorem register_user_duplicate (e : env) (username email password role : string)
  (W : world) (u : user) :
  In u (users (tables W)) ->
  same_up_to_case (u_username u) username ->
  register_user e username email password role W
  = (Ok (false, "Username already exists."%string),
     mkWorld (tables W) (trace W ++ [GhGet DATA_USERS])).
Proof.
  intros Hin Hsame.
  unfold register_user, load_table_users, bind, emit. cbn [tables trace].
  replace (existsb _ (users (tables W))) with true; [reflexivity|].
  symmetry. apply existsb_exists. exists u. split; [assumption|].
  apply String.eqb_eq. now apply lower_same_up_to_case.
Qed.

Lemma register_user_duplicate_witness :
  register_user quiet_env "BOB" "b@example.org" "pw" "customer"
                (mkWorld (mkStore [bob] [] []) [])
  = (Ok (false, "Username already exists."%string),
     mkWorld (mkStore [bob] [] []) [GhGet DATA_USERS]).
Proof.
  apply (register_user_duplicate quiet_env "BOB" "b@example.org" "pw" "customer"
                                 (mkWorld (mkStore [bob] [] []) []) bob).
  - simpl. auto.
  - simpl. unfold char_case_eq, is_upper. repeat split; auto.
Defined.

(** X23. Registration keeps usernames unique up to case, whatever it
    returns. *)
Lemma register_user_keeps_unique (e : env) (username email password role : string)
  (W : world) :
  unique_usernames (users (tables W)) ->
  unique_usernames
    (users (tables (snd (register_user e username email password role W)))).
Proof.
  intros Huniq.
  unfold register_user, load_table_users, save_table_users, bind, emit, ret.
  cbn [tables trace].
  destruct (existsb _ (users (tables W))) eqn:Hex; [exact Huniq|].
  destruct (hash_password e password) as [salt_b64 hash_b64].
  cbn [snd tables users]. unfold unique_usernames. rewrite map_app.
  apply NoDup_app; [exact Huniq | repeat constructor; intros [] |].
  intros name Hname [<- | []]. cbn [u_username] in Hname.
  apply in_map_iff in Hname. destruct Hname as (u & Hu & Hin).
  assert (Hyes : existsb
                   (fun u => (Py.lower (u_username u) =? Py.lower username)%string)
                   (users (tables W)) = true).
  { apply existsb_exists. exists u. split; [assumption|].
    now apply String.eqb_eq. }
  congruence.
Qed.

Lemma register_user_keeps_unique_witness :
  unique_usernames
    (users (tables (snd (register_user quiet_env "BOB" "b@example.org" "pw"
                                       "customer"
                                       (mkWorld (mkStore [bob] [] []) []))))).
Proof.
  apply (register_user_keeps_unique quiet_env "BOB" "b@example.org" "pw"
                                    "customer"
                                    (mkWorld (mkStore [bob] [] []) [])).
  unfold unique_usernames. cbn. repeat constructor. cbn. tauto.
Defined.

(** ** No double booking *)

Lemma Forall2_In_l {A B : Type} (R : A -> B -> Prop) (l : list A) (r : list B)
  (a : A) :
  Forall2 R l r -> In a l -> exists b, In b r /\ R a b.
Proof.
  induction 1 as [|x y l r Hxy _ IH]; intros Hin; [contradiction|].
  destruct Hin as [-> | Hin].
  - exists y. simpl. auto.
  - destruct (IH Hin) as (b & Hb & Hab). exists b. simpl. auto.
Qed.

Lemma booking_span_times_ok (b : booking) (s e : time) :
  booking_span b = Ok (s, e) -> time_ok s /\ time_ok e.
Proof.
  unfold booking_span. intros H.
  rbind_inv H. destruct a as [sh sm].
  rbind_inv H. destruct a as [eh em].
  rbind_inv H. rbind_inv H. injection H as <- <-.
  apply dt_time_Ok in Ha1, Ha2. tauto.
Qed.

(** The row that is written reads back as the interval that was checked. *)
Lemma booking_span_row (e : env) (u : user) (w : worker) (d : date)
  (start : time) (dur : timedelta) :
  time_ok start ->
  booking_span (booking_row e u w d start dur)
  = Ok (start, add_minutes start dur).
Proof.
  intros Hstart. unfold booking_span, booking_row. cbn [b_start b_end].
  rewrite unpack_strftime by assumption. cbn [rbind].
  rewrite unpack_strftime by (unfold add_minutes; auto with times).
  cbn [rbind].
  rewrite dt_time_of_ok by assumption. cbn [rbind].
  rewrite dt_time_of_ok by (unfold add_minutes; auto with times).
  reflexivity.
Qed.


(** C2 (the code departs from it).  A worker is at work from 17:00 to
    23:30 and nothing is booked.  A visit of six hours from 17:30 is
    booked, and then a visit of six hours from 18:00 is booked as well:
    it ends at midnight, its end is stored as 00:00, and both the test of
    the window and [is_overlap] take that end for the earliest time of the
    day.  The collection reached holds two confirmed bookings of one
    worker on one date that share the five and a half hours from 18:00 to
    23:30. *)
Theorem double_booking_past_midnight :
  let first := create_booking quiet_env bob evening_worker a_day (mkTime 17 30)
                              6%float empty_world in
  let second := create_booking mailing_env bob evening_worker a_day
                               (mkTime 18 0) 6%float (snd first) in
  let row1 := booking_row quiet_env bob evening_worker a_day (mkTime 17 30) 360 in
  let row2 := booking_row mailing_env bob evening_worker a_day (mkTime 18 0) 360 in
  worker_daily_range evening_worker = Ok (mkTime 17 0, mkTime 23 30)
  /\ duration 6%float = Ok 360
  /\ fst first = Ok (true, (BOOKED ++ NOT_SENT)%string)
  /\ fst second = Ok (true, (BOOKED ++ NOT_SENT)%string)
  /\ booked_from_empty (snd second)
  /\ bookings (tables (snd second)) = [row1; row2]
  /\ map (fun b => (b_worker b, b_date b, b_start b, b_end b, b_status b))
         [row1; row2]
     = [("Asha", "2024-04-24", "17:30", "23:30", "confirmed");
        ("Asha", "2024-04-24", "18:00", "00:00", "confirmed")]%string
  /\ (forall x, 18 * 60 <= x < 23 * 60 + 30 ->
        minute_of_day (mkTime 17 30) <= x < minute_of_day (mkTime 17 30) + 360
        /\ minute_of_day (mkTime 18 0) <= x < minute_of_day (mkTime 18 0) + 360)
  /\ ~ no_double_booking (bookings (tables (snd second))).
Proof.
  cbv zeta.
  assert (Hfirst : create_booking quiet_env bob evening_worker a_day
                     (mkTime 17 30) 6%float empty_world
                   = (Ok (true, (BOOKED ++ NOT_SENT)%string),
                      snd (create_booking quiet_env bob evening_worker a_day
                             (mkTime 17 30) 6%float empty_world)))
    by (vm_compute; reflexivity).
  assert (Hsecond : create_booking mailing_env bob evening_worker a_day
                      (mkTime 18 0) 6%float
                      (snd (create_booking quiet_env bob evening_worker a_day
                              (mkTime 17 30) 6%float empty_world))
                    = (Ok (true, (BOOKED ++ NOT_SENT)%string),
                       snd (create_booking mailing_env bob evening_worker a_day
                              (mkTime 18 0) 6%float
                              (snd (create_booking quiet_env bob evening_worker
                                      a_day (mkTime 17 30) 6%float
                                      empty_world)))))
    by (vm_compute; reflexivity).
  assert (Hrows : bookings
                    (tables
                       (snd (create_booking mailing_env bob evening_worker a_day
                               (mkTime 18 0) 6%float
                               (snd (create_booking quiet_env bob evening_worker
                                       a_day (mkTime 17 30) 6%float
                                       empty_world)))))
                  = [booking_row quiet_env bob evening_worker a_day
                                 (mkTime 17 30) 360;
                     booking_row mailing_env bob evening_worker a_day
                                 (mkTime 18 0) 360])
    by (vm_compute; reflexivity).
  split; [vm_compute; reflexivity|]. split; [vm_compute; reflexivity|].
  split; [vm_compute; reflexivity|]. split; [vm_compute; reflexivity|].
  split.
  { eapply bfe_booked; [|exact Hsecond].
    eapply bfe_booked; [|exact Hfirst].
    apply bfe_empty. reflexivity. }
  split; [exact Hrows|]. split; [vm_compute; reflexivity|].
  split; [unfold minute_of_day; cbn [hour minute]; lia|].
  rewrite Hrows. intros Hno.
  destruct (Hno 0%nat 1%nat _ _ ltac:(discriminate) eq_refl eq_refl)
    as (sp1 & sp2 & H1 & H2 & Hfree);
    try (vm_compute; congruence).
  vm_compute in H1, H2. injection H1 as <-. injection H2 as <-.
  apply Hfree. exists (18 * 60). unfold span_end, minute_of_day.
  cbn [fst snd hour minute]. cbn. lia.
Qed.

(** * The rest of the application *)

(** ** Passwords *)

Lemma byte_code (a : ascii) : Base64.byte (Py.code a) = a.
Proof.
  unfold Base64.byte, Py.code. rewrite N2Z.id. apply ascii_N_embedding.
Qed.

Lemma alphabet_table_all :
  forallb (fun k =>
             match Base64.table_a2b (Base64.alphabet (Z.of_nat k)) with
             | Some n => (n =? Z.of_nat k)
                         && negb (Ascii.eqb (Base64.alphabet (Z.of_nat k)) "=")
             | None => false
             end) (seq 0 64) = true.
Proof. vm_compute. reflexivity. Qed.

(** The alphabet and the decoding table are inverse, and no letter of the
    alphabet is the pad. *)
Lemma alphabet_table (n : Z) :
  0 <= n < 64 ->
  Base64.table_a2b (Base64.alphabet n) = Some n
  /\ Ascii.eqb (Base64.alphabet n) "=" = false.
Proof.
  intros Hn. pose proof alphabet_table_all as H.
  rewrite forallb_forall in H. specialize (H (Z.to_nat n)).
  rewrite Z2Nat.id in H by lia.
  assert (Hin : In (Z.to_nat n) (seq 0 64)) by (apply in_seq; lia).
  specialize (H Hin).
  destruct (Base64.table_a2b (Base64.alphabet n)) as [m|]; [|discriminate].
  apply andb_true_iff in H. destruct H as [Hm Hpad].
  apply Z.eqb_eq in Hm. apply negb_true_iff in Hpad. subst m. auto.
Qed.

(** One turn of the decoding loop on a letter of the alphabet. *)
Lemma a2b_base64_letter (n : Z) (r : string) (quad_pos leftchar pads : Z) :
  0 <= n < 64 ->
  Base64.a2b_base64 (String (Base64.alphabet n) r) quad_pos leftchar pads =
  if quad_pos =? 0 then Base64.a2b_base64 r 1 n 0
  else if quad_pos =? 1 then
    (out <- Base64.a2b_base64 r 2 (n mod 16) 0 ;;
     Ok (String (Base64.byte (leftchar * 4 + n / 16)) out))%result
  else if quad_pos =? 2 then
    (out <- Base64.a2b_base64 r 3 (n mod 4) 0 ;;
     Ok (String (Base64.byte (leftchar * 16 + n / 4)) out))%result
  else
    (out <- Base64.a2b_base64 r 0 0 0 ;;
     Ok (String (Base64.byte (leftchar * 64 + n)) out))%result.
Proof.
  intros Hn. destruct (alphabet_table n Hn) as [Htable Hpad].
  cbn [Base64.a2b_base64]. rewrite Hpad, Htable. reflexivity.
Qed.

Lemma string_ind3 (P : string -> Prop) :
  P EmptyString ->
  (forall a, P (String a EmptyString)) ->
  (forall a b, P (String a (String b EmptyString))) ->
  (forall a b c r, P r -> P (String a (String b (String c r)))) ->
  forall s, P s.
Proof.
  intros H0 H1 H2 H3.
  assert (H : forall s, P s /\ (forall a, P (String a s))
                        /\ (forall a b, P (String a (String b s)))).
  { induction s as [|c s (IH0 & IH1 & IH2)].
    - auto.
    - split; [apply IH1|]. split; [intros a; apply IH2|].
      intros a b. apply H3. exact IH0. }
  intros s. apply H.
Qed.

(** [base64.b64decode(base64.b64encode(s)) == s]. *)
Lemma b64decode_b64encode (s : string) :
  Base64.b64decode (Base64.b64encode s) = Ok s.
Proof.
  unfold Base64.b64decode.
  induction s as [|a|a b|a b c r IH] using string_ind3.
  - reflexivity.
  - pose proof (code_range a) as Ha.
    cbn [Base64.b64encode]. cbv zeta.
    rewrite !a2b_base64_letter by (Z.div_mod_to_equations; lia).
    cbn [Z.eqb]. cbn. 
    replace (Py.code a / 4 * 4 + Py.code a mod 4 * 16 / 16) with (Py.code a)
      by (Z.div_mod_to_equations; lia).
    now rewrite byte_code.
  - pose proof (code_range a) as Ha. pose proof (code_range b) as Hb.
    cbn [Base64.b64encode]. cbv zeta.
    rewrite !a2b_base64_letter by (Z.div_mod_to_equations; lia).
    cbn.
    replace (Py.code a / 4 * 4 + (Py.code a mod 4 * 16 + Py.code b / 16) / 16)
      with (Py.code a) by (Z.div_mod_to_equations; lia).
    replace ((Py.code a mod 4 * 16 + Py.code b / 16) mod 16 * 16
             + Py.code b mod 16 * 4 / 4)
      with (Py.code b) by (Z.div_mod_to_equations; lia).
    now rewrite !byte_code.
  - pose proof (code_range a) as Ha. pose proof (code_range b) as Hb.
    pose proof (code_range c) as Hc.
    cbn [Base64.b64encode]. cbv zeta.
    rewrite !a2b_base64_letter by (Z.div_mod_to_equations; lia).
    cbn [Z.eqb]. rewrite IH. cbn [rbind].
    replace (Py.code a / 4 * 4 + (Py.code a mod 4 * 16 + Py.code b / 16) / 16)
      with (Py.code a) by (Z.div_mod_to_equations; lia).
    replace ((Py.code a mod 4 * 16 + Py.code b / 16) mod 16 * 16
             + (Py.code b mod 16 * 4 + Py.code c / 64) / 4)
      with (Py.code b) by (Z.div_mod_to_equations; lia).
    replace ((Py.code b mod 16 * 4 + Py.code c / 64) mod 4 * 64
             + Py.code c mod 64)
      with (Py.code c) by (Z.div_mod_to_equations; lia).
    now rewrite !byte_code.
Qed.

Lemma b64encode_inj (s t : string) :
  Base64.b64encode s = Base64.b64encode t -> s = t.
Proof.
  intros E. pose proof (b64decode_b64encode s) as Hs.
  rewrite E, b64decode_b64encode in Hs. congruence.
Qed.

Lemma verify_password_hash (pbkdf2_hmac : string -> string -> string)
  (urandom password : string) (salt : option string) :
  Auth.verify_password pbkdf2_hmac password
    (fst (Auth.hash_password pbkdf2_hmac urandom password salt))
    (snd (Auth.hash_password pbkdf2_hmac urandom password salt)) = Ok true.
Proof.
  unfold Auth.hash_password, Auth.verify_password. cbn [fst snd].
  rewrite b64decode_b64encode. cbn [rbind].
  now rewrite String.eqb_refl.
Qed.

(** X1. A password verifies against what [hash_password] made of it:
    [verify_password(p, *hash_password(p, salt))] is [True], whatever the
    salt (given or drawn) and whatever [pbkdf2_hmac] computes. *)
Theorem verify_password_hash_password (pbkdf2_hmac : string -> string -> string)
  (urandom password : string) (salt : option string) :
  let '(salt_b64, hash_b64) :=
    Auth.hash_password pbkdf2_hmac urandom password salt in
  Auth.verify_password pbkdf2_hmac password salt_b64 hash_b64 = Ok true.
Proof.
  pose proof (verify_password_hash pbkdf2_hmac urandom password salt) as H.
  destruct (Auth.hash_password pbkdf2_hmac urandom password salt). exact H.
Qed.

(** X2. Against the salt and hash [hash_password] made of a password,
    [verify_password] never raises, and it accepts another password exactly
    when [pbkdf2_hmac] gives both passwords the same digest under that
    salt. *)
Theorem verify_password_other (pbkdf2_hmac : string -> string -> string)
  (urandom password other : string) (salt : option string) :
  let '(salt_b64, hash_b64) :=
    Auth.hash_password pbkdf2_hmac urandom password salt in
  let used := match salt with Some s => s | None => urandom end in
  exists ok,
    Auth.verify_password pbkdf2_hmac other salt_b64 hash_b64 = Ok ok
    /\ (ok = true <-> pbkdf2_hmac other used = pbkdf2_hmac password used).
Proof.
  unfold Auth.hash_password, Auth.verify_password.
  rewrite b64decode_b64encode. cbn [rbind].
  eexists. split; [reflexivity|].
  rewrite String.eqb_eq. split.
  - apply b64encode_inj.
  - intros ->. reflexivity.
Qed.

(** ** Accounts *)

Lemma find_none_existsb {A : Type} (f : A -> bool) (l : list A) :
  find f l = None <-> existsb f l = false.
Proof.
  induction l as [|a l IH]; simpl; [tauto|].
  destruct (f a); simpl; [split; discriminate | exact IH].
Qed.

Lemma find_snoc {A : Type} (f : A -> bool) (l : list A) (x : A) :
  existsb f l = false -> f x = true -> find f (l ++ [x]) = Some x.
Proof.
  induction l as [|a l IH]; simpl; intros Hl Hx.
  - now rewrite Hx.
  - apply orb_false_iff in Hl. destruct Hl as [Ha Hl].
    rewrite Ha. now apply IH.
Qed.

Lemma register_user_run (e : env) (username email password role : string)
  (W : world) :
  register_user e username email password role W =
  if name_taken username (users (tables W))
  then (Ok (false, "Username already exists."%string),
        mkWorld (tables W) (trace W ++ [GhGet DATA_USERS]))
  else (Ok (true, "Account created."%string),
        mkWorld (mkStore (users (tables W)
                          ++ [new_user e username email password role])
                         (workers (tables W)) (bookings (tables W)))
                (trace W ++ [GhGet DATA_USERS;
                             GhPut DATA_USERS ("Add user " ++ username)%string])).
Proof.
  unfold register_user, load_table_users, save_table_users, bind, emit, ret,
    name_taken, new_user.
  cbn [tables trace].
  destruct (existsb _ (users (tables W))); [reflexivity|].
  destruct (hash_password e password) as [salt_b64 hash_b64].
  cbn [fst snd tables trace users workers bookings].
  now rewrite <- app_assoc.
Qed.

Lemma get_user_run (username : string) (W : world) :
  get_user username W =
  (Ok (find (fun u => (Py.lower (u_username u) =? Py.lower username)%string)
            (users (tables W))),
   mkWorld (tables W) (trace W ++ [GhGet DATA_USERS])).
Proof. reflexivity. Qed.

Lemma register_user_success (e : env) (username email password role : string)
  (W : world) (msg : string) :
  fst (register_user e username email password role W) = Ok (true, msg) ->
  name_taken username (users (tables W)) = false.
Proof.
  rewrite register_user_run.
  destruct (name_taken username (users (tables W))); [discriminate | reflexivity].
Qed.

(** X3. Registering, then looking up: after a [register_user] that reports
    success, [get_user] on the name, written in any case, returns the row
    just added, which carries the name, the e-mail address and the role as
    they were given. *)
Theorem get_user_after_register_user (e : env)
  (username email password role lookup : string) (W : world) (msg : string) :
  fst (register_user e username email password role W) = Ok (true, msg) ->
  same_up_to_case username lookup ->
  exists row,
    fst (get_user lookup (snd (register_user e username email password role W)))
    = Ok (Some row)
    /\ u_username row = username
    /\ u_email row = Some email
    /\ u_role row = role
    /\ (u_pwd_salt row, u_pwd_hash row) = hash_password e password.
Proof.
  intros Hok Hsame. apply register_user_success in Hok.
  rewrite register_user_run, Hok. cbn [snd]. rewrite get_user_run.
  cbn [fst tables users].
  exists (new_user e username email password role).
  split; [|unfold new_user; cbn; repeat split;
           now destruct (hash_password e password)].
  f_equal. apply find_snoc.
  - unfold name_taken in Hok.
    now rewrite <- (lower_same_up_to_case _ _ Hsame).
  - cbn [new_user u_username]. apply String.eqb_eq.
    now apply lower_same_up_to_case.
Qed.

Lemma get_user_after_register_user_witness :
  exists row,
    fst (get_user "bob"
           (snd (register_user quiet_env "Bob" "bob@example.org" "pw" "customer"
                               empty_world)))
    = Ok (Some row)
    /\ u_username row = "Bob"%string
    /\ u_email row = Some "bob@example.org"%string
    /\ u_role row = "customer"%string
    /\ (u_pwd_salt row, u_pwd_hash row) = hash_password quiet_env "pw".
Proof.
  apply (get_user_after_register_user quiet_env "Bob" "bob@example.org" "pw"
                                      "customer" "bob" empty_world
                                      "Account created.").
  - vm_compute. reflexivity.
  - cbn. unfold char_case_eq, is_upper. cbn. intuition.
Defined.

Lemma login_user_run (pbkdf2_hmac : string -> string -> string)
  (username password : string) (W : world) :
  login_user pbkdf2_hmac username password W =
  let W' := mkWorld (tables W) (trace W ++ [GhGet DATA_USERS]) in
  match find (fun u => (Py.lower (u_username u) =? Py.lower username)%string)
             (users (tables W)) with
  | None => (Ok (false, "User not found."%string, None), W')
  | Some u =>
      match Auth.verify_password pbkdf2_hmac password
                                 (u_pwd_salt u) (u_pwd_hash u) with
      | Raise x => (Raise x, W')
      | Ok true => (Ok (true, "Welcome back!"%string, Some u), W')
      | Ok false => (Ok (false, "Invalid password."%string, None), W')
      end
  end.
Proof.
  unfold login_user, bind. rewrite get_user_run. cbv zeta.
  destruct (find _ (users (tables W))) as [u|]; [|reflexivity].
  unfold lift. destruct (Auth.verify_password _ _ _ _) as [[|]|]; reflexivity.
Qed.

(** X4. [login_user] never writes.  It answers "User not found." exactly
    when no stored user has the name up to case; and when it reports
    success, it hands back a stored row of that name whose salt and hash
    [verify_password] accepts for the password. *)
Theorem login_user_outcomes (pbkdf2_hmac : string -> string -> string)
  (username password : string) (W : world) :
  let outcome := login_user pbkdf2_hmac username password W in
  tables (snd outcome) = tables W
  /\ (fst outcome = Ok (false, "User not found."%string, None) <->
      name_taken username (users (tables W)) = false)
  /\ (forall msg found,
         fst outcome = Ok (true, msg, found) ->
         exists u,
           found = Some u
           /\ In u (users (tables W))
           /\ Py.lower (u_username u) = Py.lower username
           /\ Auth.verify_password pbkdf2_hmac password
                                   (u_pwd_salt u) (u_pwd_hash u) = Ok true).
Proof.
  cbv zeta. rewrite login_user_run. cbv zeta. unfold name_taken.
  destruct (find _ (users (tables W))) as [u|] eqn:Hfind.
  - assert (Htaken : existsb
                       (fun u => (Py.lower (u_username u) =? Py.lower username)%string)
                       (users (tables W)) = true).
    { destruct (existsb _ (users (tables W))) eqn:Hex; [reflexivity|].
      apply find_none_existsb in Hex. congruence. }
    rewrite Htaken. apply find_some in Hfind. destruct Hfind as [Hin Hname].
    apply String.eqb_eq in Hname.
    destruct (Auth.verify_password _ _ _ _) as [[|]|] eqn:Hverify;
      cbn [fst snd tables]; (split; [reflexivity|]);
      (split; [split; discriminate|]); intros msg found E;
      try discriminate.
    injection E as _ <-. exists u. auto.
  - apply find_none_existsb in Hfind. rewrite Hfind. cbn [fst snd tables].
    split; [reflexivity|]. split; [tauto|]. discriminate.
Qed.

(** X5. Registering, then logging in.  Let [register_user] run with the
    real [hash_password] and report success.  Then [login_user] with the
    name, written in any case, and the same password answers "Welcome
    back!" with the new row; with a password to which [pbkdf2_hmac] gives
    another digest under the salt of the row it answers "Invalid
    password.". *)
Theorem login_user_after_register_user
  (pbkdf2_hmac : string -> string -> string) (urandom : string) (e : env)
  (username email password role lookup attempt : string) (W : world)
  (msg : string) :
  (forall p, hash_password e p = Auth.hash_password pbkdf2_hmac urandom p None) ->
  fst (register_user e username email password role W) = Ok (true, msg) ->
  same_up_to_case username lookup ->
  let W' := snd (register_user e username email password role W) in
  fst (login_user pbkdf2_hmac lookup password W')
  = Ok (true, "Welcome back!"%string,
        Some (new_user e username email password role))
  /\ (pbkdf2_hmac attempt urandom <> pbkdf2_hmac password urandom ->
      fst (login_user pbkdf2_hmac lookup attempt W')
      = Ok (false, "Invalid password."%string, None)).
Proof.
  intros Hreal Hok Hsame W'. subst W'.
  apply register_user_success in Hok.
  rewrite register_user_run, Hok. cbn [snd].
  rewrite !login_user_run. cbv zeta. cbn [tables users fst].
  rewrite find_snoc.
  - unfold new_user. cbn [u_pwd_salt u_pwd_hash]. rewrite Hreal.
    split.
    + now rewrite (verify_password_hash pbkdf2_hmac urandom password None).
    + intros Hdiff.
      unfold Auth.hash_password, Auth.verify_password. cbn [fst snd].
      rewrite b64decode_b64encode. cbn [rbind].
      destruct (String.eqb_spec
                  (Base64.b64encode (pbkdf2_hmac attempt urandom))
                  (Base64.b64encode (pbkdf2_hmac password urandom))) as [E|N];
        [|reflexivity].
      apply b64encode_inj in E. contradiction.
  - unfold name_taken in Hok.
    now rewrite <- (lower_same_up_to_case _ _ Hsame).
  - cbn [new_user u_username]. apply String.eqb_eq.
    now apply lower_same_up_to_case.
Qed.

Lemma login_user_after_register_user_witness :
  let W' := snd (register_user hashing_env "Bob" "bob@example.org" "pw"
                               "customer" empty_world) in
  fst (login_user sample_digest "bob" "pw" W')
  = Ok (true, "Welcome back!"%string,
        Some (new_user hashing_env "Bob" "bob@example.org" "pw" "customer"))
  /\ (sample_digest "guess" sample_salt <> sample_digest "pw" sample_salt ->
      fst (login_user sample_digest "bob" "guess" W')
      = Ok (false, "Invalid password."%string, None)).
Proof.
  apply (login_user_after_register_user sample_digest sample_salt hashing_env
           "Bob" "bob@example.org" "pw" "customer" "bob" "guess" empty_world
           "Account created.").
  - intros p. reflexivity.
  - vm_compute. reflexivity.
  - cbn. unfold char_case_eq, is_upper. cbn. intuition.
Defined.

(** ** Worker profiles *)

Lemma get_worker_run (name : string) (W : world) :
  get_worker name W =
  (Ok (find (named name) (workers (tables W))),
   mkWorld (tables W) (trace W ++ [GhGet DATA_WORKERS])).
Proof. reflexivity. Qed.

Lemma upsert_worker_run (profile : worker) (W : world) :
  exists message,
    upsert_worker profile W =
    (Ok tt,
     mkWorld (mkStore (users (tables W))
                      (upserted profile (workers (tables W)))
                      (bookings (tables W)))
             (trace W ++ [GhGet DATA_WORKERS; GhPut DATA_WORKERS message])).
Proof.
  unfold upsert_worker, upserted, load_table_workers, save_table_workers,
    bind, emit.
  cbn [tables trace].
  destruct (upsert_loop profile (workers (tables W))); eexists;
    cbn [tables trace users workers bookings];
    rewrite <- app_assoc; reflexivity.
Qed.

Lemma upsert_loop_none (profile : worker) (rows : list worker) :
  upsert_loop profile rows = None <->
  existsb (named (w_username profile)) rows = false.
Proof.
  induction rows as [|w rows IH]; cbn [upsert_loop existsb]; [tauto|].
  fold (named (w_username profile) w).
  destruct (named (w_username profile) w); cbn [orb].
  - split; discriminate.
  - rewrite <- IH. destruct (upsert_loop profile rows); cbn; split;
      congruence.
Qed.

Lemma named_lower (a b : string) (w : worker) :
  Py.lower a = Py.lower b -> named a w = named b w.
Proof. unfold named. now intros ->. Qed.

Lemma named_self (name : string) (w : worker) :
  Py.lower name = Py.lower (w_username w) -> named name w = true.
Proof. unfold named. intros ->. apply String.eqb_refl. Qed.

(** Looking a name up in the table after an upsert. *)
Lemma find_upserted (profile : worker) (name : string) (rows : list worker) :
  find (named name) (upserted profile rows) =
  if (Py.lower name =? Py.lower (w_username profile))%string
  then Some profile
  else find (named name) rows.
Proof.
  unfold upserted.
  destruct (String.eqb_spec (Py.lower name) (Py.lower (w_username profile)))
    as [E|N].
  - induction rows as [|w rows IH]; cbn [upsert_loop find app].
    + now rewrite (named_self name profile E).
    + fold (named (w_username profile) w).
      rewrite <- (named_lower name (w_username profile) w E).
      destruct (named name w) eqn:Hw.
      * cbn [find]. now rewrite (named_self name profile E).
      * destruct (upsert_loop profile rows); cbn [option_map find] in *;
          now rewrite Hw.
  - assert (Hp : named name profile = false).
    { unfold named. apply String.eqb_neq. congruence. }
    induction rows as [|w rows IH]; cbn [upsert_loop find app].
    + now rewrite Hp.
    + fold (named (w_username profile) w).
      destruct (named (w_username profile) w) eqn:Hw.
      * assert (Hn : named name w = false).
        { unfold named in *. apply String.eqb_eq in Hw.
          apply String.eqb_neq. congruence. }
        cbn [find]. now rewrite Hp, Hn.
      * destruct (upsert_loop profile rows); cbn [option_map find] in *;
          destruct (named name w); auto.
Qed.

(** X6. Saving a profile, then reading it back: after
    [upsert_worker(profile)], [get_worker] on the profile's name, written
    in any case, returns that very profile, whether the name was new or
    not. *)
Theorem get_worker_after_upsert_worker (profile : worker) (lookup : string)
  (W : world) :
  same_up_to_case (w_username profile) lookup ->
  fst (get_worker lookup (snd (upsert_worker profile W))) = Ok (Some profile).
Proof.
  intros Hsame. apply lower_same_up_to_case in Hsame.
  destruct (upsert_worker_run profile W) as (message & ->).
  cbn [snd]. rewrite get_worker_run. cbn [fst tables workers].
  rewrite find_upserted, <- Hsame, String.eqb_refl. reflexivity.
Qed.

Lemma get_worker_after_upsert_worker_witness :
  fst (get_worker "ASHA" (snd (upsert_worker asha empty_world)))
  = Ok (Some asha).
Proof.
  apply (get_worker_after_upsert_worker asha "ASHA" empty_world).
  cbn. unfold char_case_eq, is_upper. cbn. intuition.
Defined.

(** X7. [upsert_worker] touches one name only: for a name that differs
    from the profile's even up to case, [get_worker] returns after the
    upsert what it returned before; the users and the bookings are left as
    they were. *)
Theorem upsert_worker_frame (profile : worker) (other : string) (W : world) :
  Py.lower other <> Py.lower (w_username profile) ->
  let W' := snd (upsert_worker profile W) in
  fst (get_worker other W') = fst (get_worker other W)
  /\ users (tables W') = users (tables W)
  /\ bookings (tables W') = bookings (tables W).
Proof.
  intros Hother W'. subst W'.
  destruct (upsert_worker_run profile W) as (message & ->).
  cbn [snd]. rewrite !get_worker_run. cbn [fst tables workers users bookings].
  rewrite find_upserted.
  apply String.eqb_neq in Hother. rewrite Hother. auto.
Qed.

Lemma upsert_worker_frame_witness :
  let W' := snd (upsert_worker asha asha_world) in
  fst (get_worker "ravi" W') = fst (get_worker "ravi" asha_world)
  /\ users (tables W') = users (tables asha_world)
  /\ bookings (tables W') = bookings (tables asha_world).
Proof.
  apply (upsert_worker_frame asha "ravi" asha_world).
  vm_compute. discriminate.
Defined.

Lemma upserted_names (profile : worker) (rows : list worker) :
  map (fun w => Py.lower (w_username w)) (upserted profile rows) =
  if existsb (named (w_username profile)) rows
  then map (fun w => Py.lower (w_username w)) rows
  else map (fun w => Py.lower (w_username w)) rows
       ++ [Py.lower (w_username profile)].
Proof.
  unfold upserted. induction rows as [|w rows IH];
    cbn [upsert_loop existsb map app]; [reflexivity|].
  fold (named (w_username profile) w).
  destruct (named (w_username profile) w) eqn:Hw; cbn [orb map].
  - unfold named in Hw. apply String.eqb_eq in Hw. now rewrite Hw.
  - destruct (upsert_loop profile rows) as [rows'|] eqn:Hloop;
      cbn [option_map map app];
      destruct (existsb (named (w_username profile)) rows);
      cbn [map app] in IH |- *; now rewrite IH.
Qed.

(** X8. [upsert_worker] keeps worker names unique up to case, and the
    table grows by one row exactly when the name is new; otherwise its
    length stays. *)
Theorem upsert_worker_keeps_unique (profile : worker) (W : world) :
  unique_handles (workers (tables W)) ->
  let rows' := workers (tables (snd (upsert_worker profile W))) in
  unique_handles rows'
  /\ List.length rows' =
     if existsb (named (w_username profile)) (workers (tables W))
     then List.length (workers (tables W))
     else S (List.length (workers (tables W))).
Proof.
  intros Huniq rows'. subst rows'.
  destruct (upsert_worker_run profile W) as (message & ->).
  cbn [snd tables workers]. unfold unique_handles in *.
  pose proof (upserted_names profile (workers (tables W))) as Hnames.
  assert (Hlen : List.length (upserted profile (workers (tables W)))
                 = List.length (map (fun w => Py.lower (w_username w))
                                    (upserted profile (workers (tables W)))))
    by now rewrite length_map.
  rewrite Hlen, Hnames.
  destruct (existsb (named (w_username profile)) (workers (tables W))) eqn:Hex.
  - rewrite length_map. auto.
  - rewrite length_app, length_map. cbn [List.length].
    split; [|lia].
    apply NoDup_app; [exact Huniq | repeat constructor; intros [] |].
    intros name Hname [<- | []].
    apply in_map_iff in Hname. destruct Hname as (w & Hw & Hin).
    assert (Hyes : existsb (named (w_username profile)) (workers (tables W))
                   = true).
    { apply existsb_exists. exists w. split; [assumption|].
      unfold named. now apply String.eqb_eq. }
    congruence.
Qed.

Lemma upsert_worker_keeps_unique_witness :
  let rows' := workers (tables (snd (upsert_worker night_worker asha_world))) in
  unique_handles rows'
  /\ List.length rows' =
     if existsb (named (w_username night_worker)) (workers (tables asha_world))
     then List.length (workers (tables asha_world))
     else S (List.length (workers (tables asha_world))).
Proof.
  apply (upsert_worker_keeps_unique night_worker asha_world).
  unfold unique_handles. cbn. repeat constructor. cbn. tauto.
Defined.

Lemma upsert_loop_hit (profile : worker) (rows rows' : list worker) :
  upsert_loop profile rows = Some rows' ->
  upsert_loop profile rows' = Some rows'.
Proof.
  revert rows'. induction rows as [|w rows IH]; intros rows';
    cbn [upsert_loop]; [discriminate|].
  destruct (Py.lower (w_username w) =? Py.lower (w_username profile))%string
    eqn:Hw.
  - intros E. injection E as <-. cbn [upsert_loop].
    now rewrite String.eqb_refl.
  - destruct (upsert_loop profile rows) as [r|]; cbn [option_map];
      [|discriminate].
    intros E. injection E as <-. cbn [upsert_loop]. rewrite Hw.
    now rewrite (IH r eq_refl).
Qed.

Lemma upsert_loop_new (profile : worker) (rows : list worker) :
  existsb (named (w_username profile)) rows = false ->
  upsert_loop profile (rows ++ [profile]) = Some (rows ++ [profile]).
Proof.
  induction rows as [|w rows IH]; cbn [existsb app upsert_loop].
  - intros _. now rewrite String.eqb_refl.
  - fold (named (w_username profile) w). intros H.
    apply orb_false_iff in H. destruct H as [Hw Hrows].
    rewrite Hw, (IH Hrows). reflexivity.
Qed.

(** X9. Saving the same profile twice is saving it once: the second
    [upsert_worker] leaves every table as the first one left it. *)
Theorem upsert_worker_twice (profile : worker) (W : world) :
  tables (snd (upsert_worker profile (snd (upsert_worker profile W))))
  = tables (snd (upsert_worker profile W)).
Proof.
  destruct (upsert_worker_run profile W) as (m1 & ->). cbn [snd].
  match goal with
  | |- context [upsert_worker profile ?W1] =>
      destruct (upsert_worker_run profile W1) as (m2 & ->)
  end.
  cbn [snd tables users workers bookings]. f_equal.
  unfold upserted at 1.
  destruct (upsert_loop profile (upserted profile (workers (tables W))))
    as [rows''|] eqn:Hsecond.
  - unfold upserted in *.
    destruct (upsert_loop profile (workers (tables W))) as [rows'|] eqn:Hfirst.
    + rewrite (upsert_loop_hit _ _ _ Hfirst) in Hsecond. congruence.
    + apply upsert_loop_none in Hfirst.
      rewrite (upsert_loop_new _ _ Hfirst) in Hsecond. congruence.
  - apply upsert_loop_none in Hsecond.
    assert (Hyes : existsb (named (w_username profile))
                           (upserted profile (workers (tables W))) = true).
    { destruct (existsb _ (upserted profile (workers (tables W)))) eqn:Hex;
        [reflexivity|].
      apply find_none_existsb in Hex.
      rewrite find_upserted, String.eqb_refl in Hex. discriminate. }
    congruence.
Qed.

(** ** Browsing workers *)

Lemma prefix_spec (a b : string) :
  String.prefix a b = true <-> exists after, b = (a ++ after)%string.
Proof.
  revert b. induction a as [|c a IH]; intros b.
  - split; [intros _; exists b; reflexivity|].
    intros _. destruct b; reflexivity.
  - destruct b as [|d b]; cbn [String.prefix String.append].
    + split; [discriminate | intros (after & E); discriminate].
    + destruct (ascii_dec c d) as [->|N].
      * rewrite IH. split; intros (after & E); exists after; congruence.
      * split; [discriminate|]. intros (after & E). congruence.
Qed.

(** [needle in hay] says that [needle] occurs in [hay]. *)
Lemma contains_spec (needle hay : string) :
  Str.contains needle hay = true <-> occurs_in needle hay.
Proof.
  unfold occurs_in. induction hay as [|c hay IH]; cbn [Str.contains].
  - rewrite orb_false_r, prefix_spec. split.
    + intros (after & E). exists EmptyString, after. exact E.
    + intros ([|d before] & after & E); [|discriminate].
      exists after. exact E.
  - rewrite orb_true_iff, prefix_spec, IH. split.
    + intros [(after & E) | (before & after & E)].
      * exists EmptyString, after. exact E.
      * exists (String c before), after. cbn. now rewrite E.
    + intros ([|d before] & after & E).
      * left. exists after. exact E.
      * right. cbn in E. injection E as -> E. now exists before, after.
Qed.

Lemma filter_twice {A : Type} (f g : A -> bool) (l : list A) :
  filter g (filter f l) = filter (fun a => f a && g a) l.
Proof.
  induction l as [|a l IH]; [reflexivity|]. cbn [filter].
  destruct (f a); cbn [filter andb]; [destruct (g a)|]; now rewrite IH.
Qed.

Lemma filter_all {A : Type} (l : list A) : filter (fun _ => true) l = l.
Proof. induction l as [|a l IH]; cbn; congruence. Qed.

Lemma list_workers_run (f : filters) (W : world) :
  exists keep,
    list_workers f W =
    (Ok (filter keep (workers (tables W))),
     mkWorld (tables W) (trace W ++ [GhGet DATA_WORKERS]))
    /\ forall w,
         keep w = true <->
         (filter_text (f_city f) = EmptyString
          \/ occurs_in (filter_text (f_city f))
                       (Py.lower (get_default (w_city w) "")))
         /\ (filter_text (f_skill f) = EmptyString
             \/ exists s, In s (w_skills w)
                          /\ occurs_in (filter_text (f_skill f)) (Py.lower s)).
Proof.
  exists (fun w =>
            (negb (Py.truthy (filter_text (f_city f)))
             || Str.contains (filter_text (f_city f))
                             (Py.lower (get_default (w_city w) "")))
            && (negb (Py.truthy (filter_text (f_skill f)))
                || existsb (fun s => Str.contains (filter_text (f_skill f))
                                                  (Py.lower s))
                           (w_skills w))).
  split.
  - unfold list_workers, load_table_workers, bind, emit, ret.
    cbn [tables trace]. f_equal. f_equal.
    destruct (Py.truthy (filter_text (f_city f))),
             (Py.truthy (filter_text (f_skill f))); cbn [negb orb].
    + apply filter_twice.
    + apply filter_ext. intros w. now rewrite andb_true_r.
    + reflexivity.
    + symmetry. apply filter_all.
  - intros w. rewrite andb_true_iff, !orb_true_iff, contains_spec,
      existsb_exists.
    assert (Hblank : forall t, negb (Py.truthy t) = true <-> t = EmptyString).
    { intros [|c t]; cbn; split; congruence. }
    rewrite !Hblank.
    split; intros [Hc Hs]; (split; [exact Hc|]);
      (destruct Hs as [Hs | (s & Hin & Hs)]; [now left | right]);
      exists s; (split; [exact Hin|]); now apply contains_spec.
Qed.

(** X10. [list_workers] writes nothing and lists, in table order, exactly
    the workers in whose city the city filter occurs and one of whose
    skills contains the skill filter, case aside; a filter that is absent,
    empty or blank lets everyone through, so that without filters the
    whole table is listed. *)
Theorem list_workers_lists (f : filters) (W : world) :
  exists keep rows,
    list_workers f W
    = (Ok rows, mkWorld (tables W) (trace W ++ [GhGet DATA_WORKERS]))
    /\ rows = filter keep (workers (tables W))
    /\ (forall w,
          In w rows <->
          In w (workers (tables W))
          /\ (filter_text (f_city f) = EmptyString
              \/ occurs_in (filter_text (f_city f))
                           (Py.lower (get_default (w_city w) "")))
          /\ (filter_text (f_skill f) = EmptyString
              \/ exists s, In s (w_skills w)
                           /\ occurs_in (filter_text (f_skill f)) (Py.lower s)))
    /\ (filter_text (f_city f) = EmptyString ->
        filter_text (f_skill f) = EmptyString ->
        rows = workers (tables W)).
Proof.
  destruct (list_workers_run f W) as (keep & Hrun & Hkeep).
  exists keep, (filter keep (workers (tables W))).
  split; [exact Hrun|]. split; [reflexivity|]. split.
  - intros w. rewrite filter_In, Hkeep. tauto.
  - intros Hcity Hskill. rewrite <- (filter_all (workers (tables W))) at 2.
    apply filter_ext. intros w. apply Hkeep. auto.
Qed.

Lemma append_nil_r (s : string) : (s ++ EmptyString)%string = s.
Proof. induction s as [|c s IH]; cbn; congruence. Qed.

Lemma append_assoc (a b c : string) :
  ((a ++ b) ++ c)%string = (a ++ (b ++ c))%string.
Proof. induction a as [|x a IH]; cbn; congruence. Qed.

Lemma str_rev_app (a b : string) :
  Str.rev (a ++ b) = (Str.rev b ++ Str.rev a)%string.
Proof.
  induction a as [|x a IH]; cbn [Str.rev String.append].
  - now rewrite append_nil_r.
  - now rewrite IH, append_assoc.
Qed.

Lemma blank_app (a b : string) : blank a -> blank b -> blank (a ++ b).
Proof. induction a as [|x a IH]; cbn; tauto. Qed.

Lemma blank_rev (a : string) : blank a -> blank (Str.rev a).
Proof.
  induction a as [|x a IH]; cbn [blank Str.rev]; [tauto|].
  intros [Hx Ha]. apply blank_app; cbn; auto.
Qed.

Lemma lstrip_blank (pad s : string) :
  blank pad -> Str.lstrip (pad ++ s) = Str.lstrip s.
Proof.
  induction pad as [|x pad IH]; cbn [blank String.append]; [reflexivity|].
  intros [Hx Hpad]. cbn [Str.lstrip]. rewrite Hx. now apply IH.
Qed.

Lemma lstrip_app_blank (s pad : string) :
  blank pad ->
  Str.lstrip (s ++ pad) = (Str.lstrip s ++ pad)%string
  \/ (Str.lstrip s = EmptyString /\ Str.lstrip (s ++ pad) = EmptyString).
Proof.
  intros Hpad. induction s as [|x s IH]; cbn [String.append Str.lstrip].
  - right. split; [reflexivity|].
    rewrite <- (append_nil_r pad). now apply lstrip_blank.
  - destruct (Str.isspace x); [exact IH | now left].
Qed.

Lemma rstrip_app_blank (s pad : string) :
  blank pad -> Str.rstrip (s ++ pad) = Str.rstrip s.
Proof.
  intros Hpad. unfold Str.rstrip.
  rewrite str_rev_app, lstrip_blank by now apply blank_rev. reflexivity.
Qed.

(** [strip] does away with blank margins. *)
Lemma strip_margins (left s right : string) :
  blank left -> blank right ->
  Str.strip (left ++ s ++ right) = Str.strip s.
Proof.
  intros Hl Hr. unfold Str.strip. rewrite lstrip_blank by assumption.
  destruct (lstrip_app_blank s right Hr) as [-> | [-> ->]].
  - now apply rstrip_app_blank.
  - reflexivity.
Qed.

Lemma isspace_case_eq (a b : ascii) :
  char_case_eq a b -> Str.isspace a = Str.isspace b.
Proof.
  assert (H : forall x y, is_upper x = true -> Py.code y = Py.code x + 32 ->
                          Str.isspace x = false /\ Str.isspace y = false).
  { unfold is_upper, Str.isspace. intros x y Hx Hy.
    apply andb_true_iff in Hx. destruct Hx as [Hlo Hhi].
    apply Z.leb_le in Hlo, Hhi.
    split; apply orb_false_iff; split; apply andb_false_iff;
      rewrite ?Z.leb_gt; lia. }
  intros [-> | [[Ha Hb] | [Hb Ha]]]; [reflexivity | |].
  - destruct (H a b Ha Hb) as [-> ->]. reflexivity.
  - destruct (H b a Hb Ha) as [-> ->]. reflexivity.
Qed.

Lemma same_up_to_case_lstrip (s t : string) :
  same_up_to_case s t -> same_up_to_case (Str.lstrip s) (Str.lstrip t).
Proof.
  revert t. induction s as [|a s IH]; intros [|b t]; cbn [same_up_to_case];
    try tauto.
  intros [Hab Hst]. cbn [Str.lstrip]. rewrite (isspace_case_eq a b Hab).
  destruct (Str.isspace b); [now apply IH | cbn; auto].
Qed.

Lemma same_up_to_case_app (s t s' t' : string) :
  same_up_to_case s t -> same_up_to_case s' t' ->
  same_up_to_case (s ++ s') (t ++ t').
Proof.
  revert t. induction s as [|a s IH]; intros [|b t]; cbn; try tauto.
  intros [Hab Hst] H'. auto.
Qed.

Lemma same_up_to_case_rev (s t : string) :
  same_up_to_case s t -> same_up_to_case (Str.rev s) (Str.rev t).
Proof.
  revert t. induction s as [|a s IH]; intros [|b t]; cbn [same_up_to_case];
    try tauto.
  intros [Hab Hst]. cbn [Str.rev].
  apply same_up_to_case_app; [now apply IH | cbn; auto].
Qed.

Lemma same_up_to_case_strip (s t : string) :
  same_up_to_case s t -> same_up_to_case (Str.strip s) (Str.strip t).
Proof.
  intros H. unfold Str.strip, Str.rstrip.
  now apply same_up_to_case_rev, same_up_to_case_lstrip,
    same_up_to_case_rev, same_up_to_case_lstrip.
Qed.

Lemma filter_text_margins_case (left s right t : string) :
  blank left -> blank right -> same_up_to_case s t ->
  filter_text (Some (left ++ s ++ right)%string) = filter_text (Some t).
Proof.
  intros Hl Hr Hst. unfold filter_text. cbn [get_default].
  rewrite strip_margins by assumption.
  now apply lower_same_up_to_case, same_up_to_case_strip.
Qed.

(** X11. The filters of [list_workers] are read without their blank
    margins and without regard to case: a city or a skill typed with
    spaces around it, or in other capitals, gives the same listing; and a
    filter that is absent is a filter that is empty. *)
Theorem list_workers_filter_text (left1 city right1 city' : string)
  (left2 skill right2 skill' : string) (W : world) :
  blank left1 -> blank right1 -> same_up_to_case city city' ->
  blank left2 -> blank right2 -> same_up_to_case skill skill' ->
  list_workers (mkFilters (Some (left1 ++ city ++ right1)%string)
                          (Some (left2 ++ skill ++ right2)%string)) W
  = list_workers (mkFilters (Some city') (Some skill')) W
  /\ list_workers (mkFilters None None) W
     = list_workers (mkFilters (Some EmptyString) (Some EmptyString)) W.
Proof.
  intros Hl1 Hr1 Hc Hl2 Hr2 Hs. split; [|reflexivity].
  unfold list_workers. cbn [f_city f_skill].
  now rewrite (filter_text_margins_case left1 city right1 city'),
    (filter_text_margins_case left2 skill right2 skill').
Qed.

Lemma list_workers_filter_text_witness :
  list_workers (mkFilters (Some ("  " ++ "Pune" ++ " ")%string)
                          (Some ("" ++ "COOKING" ++ "  ")%string))
               empty_world
  = list_workers (mkFilters (Some "pune"%string) (Some "cooking"%string))
                 empty_world
  /\ list_workers (mkFilters None None) empty_world
     = list_workers (mkFilters (Some EmptyString) (Some EmptyString))
                    empty_world.
Proof.
  apply (list_workers_filter_text "  " "Pune" " " "pune"
                                  "" "COOKING" "  " "cooking" empty_world);
    cbn; unfold char_case_eq, is_upper; cbn; intuition.
Defined.

(** ** Reading a start time back from the list of the page *)

Lemma strptime_strftime_all :
  forallb (fun t =>
             match strptime_HM (strftime_HM t) with
             | Ok t' => time_eqb t' t
             | Raise _ => false
             end) all_times = true.
Proof. vm_compute. reflexivity. Qed.

Lemma strptime_strftime (t : time) :
  time_ok t -> strptime_HM (strftime_HM t) = Ok t.
Proof.
  intros Ht. pose proof strptime_strftime_all as H.
  rewrite forallb_forall in H. specialize (H t (all_times_complete t Ht)).
  destruct (strptime_HM (strftime_HM t)) as [t'|]; [|discriminate].
  apply time_eqb_eq in H. now subst.
Qed.

(** Availability is computed from the tables alone. *)
Lemma available_start_slots_tables (w : worker) (d : date)
  (duration_hrs : float) (W W' : world) :
  tables W = tables W' ->
  fst (available_start_slots w d duration_hrs W)
  = fst (available_start_slots w d duration_hrs W').
Proof.
  intros E. rewrite !available_start_slots_run, E.
  destruct (duration duration_hrs); [|reflexivity].
  destruct (generate_slots w d); [|reflexivity].
  destruct (mapM booking_span _); [|reflexivity].
  destruct (worker_daily_range w) as [[day_start day_end]|]; reflexivity.
Qed.

Lemma available_start_slots_world (w : worker) (d : date)
  (duration_hrs : float) (W W1 : world) (avail : list time) :
  available_start_slots w d duration_hrs W = (Ok avail, W1) ->
  W1 = after_read W.
Proof.
  intros H. apply available_start_slots_Ok in H.
  destruct H as (? & ? & ? & ? & ? & _ & _ & _ & _ & _ & _ & H). exact H.
Qed.

Lemma available_start_slots_times_ok (w : worker) (d : date)
  (duration_hrs : float) (W W1 : world) (avail : list time) :
  available_start_slots w d duration_hrs W = (Ok avail, W1) ->
  Forall time_ok avail.
Proof.
  intros H. apply available_start_slots_Ok in H.
  destruct H as (dur & slots & spans & s & e & _ & Hs & _ & _ & _ & -> & _).
  apply generate_slots_times_ok in Hs. rewrite Forall_forall in *.
  intros t Ht. apply filter_In in Ht. now apply Hs.
Qed.

Lemma available_start_slots_again (w : worker) (d : date)
  (duration_hrs : float) (W W1 : world) (avail : list time) :
  available_start_slots w d duration_hrs W = (Ok avail, W1) ->
  available_start_slots w d duration_hrs W1 = (Ok avail, after_read W1).
Proof.
  intros H. pose proof (available_start_slots_world _ _ _ _ _ _ H) as ->.
  pose proof (available_start_slots_tables w d duration_hrs (after_read W) W
                eq_refl) as E.
  rewrite H in E. cbn [fst] in E.
  destruct (available_start_slots w d duration_hrs (after_read W))
    as [r W2] eqn:E2.
  cbn [fst] in E. subst r.
  now rewrite (available_start_slots_world _ _ _ _ _ _ E2).
Qed.

(** ** More on availability *)

Lemma generate_slots_Ok_grid (w : worker) (d : date) (slots : list time) :
  date_ok d -> generate_slots w d = Ok slots ->
  exists start_t end_t,
    worker_daily_range w = Ok (start_t, end_t) /\ slots = grid start_t end_t.
Proof.
  intros Hd H.
  destruct (worker_daily_range w) as [[s e]|x] eqn:Hw.
  - exists s, e. split; [reflexivity|].
    destruct (Z.eq_dec d 1) as [E|N],
             (Z.lt_ge_cases (minute_of_day e) 30) as [Hlt|Hge].
    + rewrite (generate_slots_overflow w d s e Hw E Hlt) in H. discriminate.
    + rewrite (generate_slots_grid w d s e Hw Hd) in H by lia. congruence.
    + rewrite (generate_slots_grid w d s e Hw Hd) in H by lia. congruence.
    + rewrite (generate_slots_grid w d s e Hw Hd) in H by lia. congruence.
  - unfold generate_slots in H. rewrite Hw in H. discriminate.
Qed.

Lemma grid_minutes (start_t end_t t : time) (k : nat) :
  time_ok start_t -> time_ok end_t ->
  nth_error (grid start_t end_t) k = Some t ->
  minute_of_day t = minute_of_day start_t + 30 * Z.of_nat k
  /\ minute_of_day t + 30 <= minute_of_day end_t.
Proof.
  intros Hs He Hk. apply grid_is_grid in Hk. destruct Hk as [-> Hle].
  apply minute_of_day_range in Hs, He.
  unfold add_minutes. rewrite minute_of_day_time_of.
  rewrite Z.mod_small by lia. lia.
Qed.

Lemma StronglySorted_nth {A : Type} (R : A -> A -> Prop) (l : list A) :
  (forall i j a b, (i < j)%nat -> nth_error l i = Some a ->
                   nth_error l j = Some b -> R a b) ->
  StronglySorted R l.
Proof.
  induction l as [|x l IH]; intros H; constructor.
  - apply IH. intros i j a b Hij Ha Hb. apply (H (S i) (S j)); auto. lia.
  - apply Forall_forall. intros y Hy. apply In_nth_error in Hy.
    destruct Hy as [j Hj]. apply (H O (S j)); auto. lia.
Qed.

Lemma StronglySorted_filter {A : Type} (R : A -> A -> Prop) (p : A -> bool)
  (l : list A) :
  StronglySorted R l -> StronglySorted R (filter p l).
Proof.
  induction 1 as [|x l Hl IH Hx]; cbn [filter]; [constructor|].
  destruct (p x); [|exact IH]. constructor; [exact IH|].
  rewrite Forall_forall in *. intros y Hy. apply filter_In in Hy.
  now apply Hx.
Qed.

Lemma StronglySorted_NoDup {A : Type} (R : A -> A -> Prop) (l : list A) :
  (forall a, ~ R a a) -> StronglySorted R l -> NoDup l.
Proof.
  intros Hirr. induction 1 as [|x l Hl IH Hx]; constructor; [|exact IH].
  intros Hin. rewrite Forall_forall in Hx. exact (Hirr x (Hx x Hin)).
Qed.

Lemma grid_increasing (start_t end_t : time) :
  time_ok start_t -> time_ok end_t ->
  StronglySorted earlier (grid start_t end_t).
Proof.
  intros Hs He. apply StronglySorted_nth. intros i j a b Hij Ha Hb.
  apply grid_minutes in Ha, Hb; try assumption. unfold earlier. lia.
Qed.

(** X13. The starts the Availability Calculator offers for a date are
    listed from the earliest to the latest, none twice; each lies a whole
    number of half hours after the start of the window and leaves room for
    a half hour before its end. *)
Theorem available_start_slots_increasing (w : worker) (d : date)
  (duration_hrs : float) (W : world) (avail : list time) :
  date_ok d ->
  fst (available_start_slots w d duration_hrs W) = Ok avail ->
  exists day_start day_end,
    worker_daily_range w = Ok (day_start, day_end)
    /\ StronglySorted earlier avail
    /\ NoDup avail
    /\ Forall (fun t =>
                 exists k : nat,
                   minute_of_day t = minute_of_day day_start + 30 * Z.of_nat k
                   /\ minute_of_day t + 30 <= minute_of_day day_end) avail.
Proof.
  intros Hd H.
  destruct (available_start_slots w d duration_hrs W) as [r W1] eqn:E.
  cbn [fst] in H. subst r. apply available_start_slots_Ok in E.
  destruct E as (dur & slots & spans & s & e & _ & Hs & _ & Hw & _ & -> & _).
  destruct (generate_slots_Ok_grid w d slots Hd Hs) as (s' & e' & Hw' & ->).
  assert (s' = s /\ e' = e) as [-> ->] by (split; congruence).
  destruct (worker_daily_range_ok _ _ _ Hw) as [Hs_ok He_ok].
  pose proof (StronglySorted_filter earlier
                (fun t => fits s e dur t && free spans dur t) _
                (grid_increasing s e Hs_ok He_ok)) as Hsorted.
  exists s, e. split; [exact Hw|]. split; [exact Hsorted|]. split.
  - apply (StronglySorted_NoDup earlier); [|exact Hsorted].
    unfold earlier. intros a. lia.
  - apply Forall_forall. intros t Ht. apply filter_In in Ht.
    destruct Ht as [Ht _]. apply In_nth_error in Ht. destruct Ht as [k Hk].
    exists k. now apply grid_minutes.
Qed.

Lemma available_start_slots_increasing_witness :
  let avail := map (fun k => mkTime (9 + Z.of_nat k / 2) (30 * (Z.of_nat k mod 2)))
                   (seq 0 17) in
  exists day_start day_end,
    worker_daily_range asha = Ok (day_start, day_end)
    /\ StronglySorted earlier avail
    /\ NoDup avail
    /\ Forall (fun t =>
                 exists k : nat,
                   minute_of_day t = minute_of_day day_start + 30 * Z.of_nat k
                   /\ minute_of_day t + 30 <= minute_of_day day_end) avail.
Proof.
  apply (available_start_slots_increasing asha a_day 1%float empty_world).
  - unfold date_ok, a_day, MAXORDINAL. lia.
  - vm_compute. reflexivity.
Defined.

(** ** What availability depends on *)

Lemma mapM_app {A B : Type} (f : A -> result B) (l1 l2 : list A) :
  mapM f (l1 ++ l2)
  = (r1 <- mapM f l1 ;; r2 <- mapM f l2 ;; Ok (r1 ++ r2))%result.
Proof.
  induction l1 as [|a l1 IH]; cbn [app mapM rbind].
  - destruct (mapM f l2); reflexivity.
  - destruct (f a) as [b|]; cbn [rbind]; [|reflexivity].
    rewrite IH. destruct (mapM f l1); cbn [rbind]; [|reflexivity].
    destruct (mapM f l2); reflexivity.
Qed.

Lemma mapM_total {A B : Type} (f : A -> result B) (g : A -> B) (l : list A) :
  Forall (fun a => f a = Ok (g a)) l -> mapM f l = Ok (map g l).
Proof.
  induction 1 as [|a l Ha _ IH]; [reflexivity|].
  cbn [mapM map]. now rewrite Ha, IH.
Qed.

Lemma free_app (spans more : list span) (dur : timedelta) (t : time) :
  free (spans ++ more) dur t = free spans dur t && free more dur t.
Proof. unfold free. now rewrite existsb_app, negb_orb. Qed.

Lemma filter_and {A : Type} (p q : A -> bool) (l : list A) :
  filter (fun a => p a && q a) l = filter q (filter p l).
Proof.
  induction l as [|a l IH]; [reflexivity|]. cbn [filter].
  destruct (p a); cbn [andb filter]; [|exact IH].
  destruct (q a); now rewrite IH.
Qed.

(** Availability once more rows have been appended to the bookings, in
    terms of the availability before. *)
Lemma available_start_slots_more (w : worker) (d : date) (duration_hrs : float)
  (W W1 W' : world) (avail : list time) (more : list booking)
  (spans : list span) (dur : timedelta) :
  available_start_slots w d duration_hrs W = (Ok avail, W1) ->
  duration duration_hrs = Ok dur ->
  bookings (tables W') = bookings (tables W) ++ more ->
  mapM booking_span (filter (occupiesb (w_username w) (isoformat d)) more)
  = Ok spans ->
  available_start_slots w d duration_hrs W'
  = (Ok (filter (free spans dur) avail), after_read W').
Proof.
  intros Ha Hdur Hrows Hmore. apply available_start_slots_Ok in Ha.
  destruct Ha as (dur' & slots & spans0 & s & e & Hdur' & Hs & Hsp & Hw & Hadds
                  & -> & _).
  assert (dur' = dur) by congruence. subst dur'.
  rewrite available_start_slots_run, Hdur, Hs, Hrows, filter_app, mapM_app.
  rewrite Hsp, Hmore. cbn [rbind]. rewrite Hw.
  rewrite available_loop_spec by (eapply generate_slots_times_ok; eassumption).
  rewrite (mapM_total _ _ _ Hadds). cbn [rbind app]. f_equal. f_equal.
  rewrite <- filter_and. apply filter_ext. intros t.
  rewrite free_app. now rewrite andb_assoc.
Qed.

Lemma available_start_slots_occupying (w : worker) (d : date)
  (duration_hrs : float) (W W' : world) :
  filter (occupiesb (w_username w) (isoformat d)) (bookings (tables W'))
  = filter (occupiesb (w_username w) (isoformat d)) (bookings (tables W)) ->
  fst (available_start_slots w d duration_hrs W')
  = fst (available_start_slots w d duration_hrs W).
Proof.
  intros E. rewrite !available_start_slots_run, E.
  destruct (duration duration_hrs); [|reflexivity].
  destruct (generate_slots w d); [|reflexivity].
  destruct (mapM booking_span _); [|reflexivity].
  destruct (worker_daily_range w) as [[day_start day_end]|]; reflexivity.
Qed.

(** X14. Availability is a matter of the rows that occupy the calendar of
    the worker on the date, and of nothing else: two worlds whose bookings
    agree on those rows give the same answer, whatever their other rows,
    their users, their workers and their histories. *)
Theorem available_start_slots_frame (w : worker) (d : date)
  (duration_hrs : float) (W W' : world) :
  filter (occupiesb (w_username w) (isoformat d)) (bookings (tables W'))
  = filter (occupiesb (w_username w) (isoformat d)) (bookings (tables W)) ->
  fst (available_start_slots w d duration_hrs W')
  = fst (available_start_slots w d duration_hrs W).
Proof. apply available_start_slots_occupying. Qed.

Lemma available_start_slots_frame_witness :
  fst (available_start_slots asha a_day 1%float
         (with_bookings asha_world [ravi_booking]))
  = fst (available_start_slots asha a_day 1%float empty_world).
Proof.
  apply (available_start_slots_frame asha a_day 1%float empty_world
           (with_bookings asha_world [ravi_booking])).
  vm_compute. reflexivity.
Defined.

(** X15. More bookings never make more starts available: when rows are
    appended to the bookings, the list offered afterwards is a sublist of
    the list offered before, in the same order. *)
Theorem available_start_slots_antitone (w : worker) (d : date)
  (duration_hrs : float) (W : world) (more : list booking)
  (avail avail' : list time) :
  fst (available_start_slots w d duration_hrs W) = Ok avail ->
  fst (available_start_slots w d duration_hrs
         (with_bookings W (bookings (tables W) ++ more))) = Ok avail' ->
  exists keep : time -> bool, avail' = filter keep avail.
Proof.
  intros H H'.
  destruct (available_start_slots w d duration_hrs W) as [r W1] eqn:E.
  cbn [fst] in H. subst r.
  pose proof E as Hparts. apply available_start_slots_Ok in Hparts.
  destruct Hparts as (dur & slots & spans0 & s & e & Hdur & Hs & Hsp & Hw & _).
  destruct (mapM booking_span
              (filter (occupiesb (w_username w) (isoformat d)) more))
    as [spans|x] eqn:Hmore.
  - exists (free spans dur).
    rewrite (available_start_slots_more w d duration_hrs W W1
               (with_bookings W (bookings (tables W) ++ more)) avail more
               spans dur E Hdur eq_refl Hmore) in H'.
    cbn [fst] in H'. congruence.
  - rewrite available_start_slots_run, Hdur, Hs in H'.
    cbn [with_bookings tables bookings] in H'.
    rewrite filter_app, mapM_app, Hsp, Hmore in H'. discriminate.
Qed.

Lemma available_start_slots_antitone_witness :
  exists keep : time -> bool,
    returned (fst (available_start_slots asha a_day 1%float
                     (with_bookings empty_world
                        (bookings (tables empty_world) ++ [asha_booking]))))
    = filter keep
             (returned (fst (available_start_slots asha a_day 1%float
                               empty_world))).
Proof.
  apply (available_start_slots_antitone asha a_day 1%float empty_world
           [asha_booking]).
  - vm_compute. reflexivity.
  - vm_compute. reflexivity.
Defined.

(** ** A booked visit blocks what overlaps it *)

Lemma occupiesb_booking_row (e : env) (u : user) (w : worker) (d : date)
  (start : time) (dur : timedelta) :
  occupiesb (w_username w) (isoformat d) (booking_row e u w d start dur) = true.
Proof.
  unfold occupiesb, booking_row. cbn [b_worker b_date b_status].
  now rewrite !String.eqb_refl.
Qed.

(** X16. Once a visit that ends on the day it starts has been booked, and
    for as long as its row is among the bookings, no request for the same
    worker and date is accepted whose visit, of whatever length, also ends
    on that day and would share a minute with it; the same start again is
    such a request.  It is turned down with "Selected slot is no longer
    available." whenever availability can be computed, it raises what
    [available_start_slots] raises otherwise, and either way it writes
    nothing, whoever makes it. *)
Theorem create_booking_blocks_overlap (e e' : env) (u u' : user) (w : worker)
  (d : date) (start start' : time) (duration_hrs duration_hrs' : float)
  (W W1 W' : world) (msg : string) (dur dur' : timedelta) :
  create_booking e u w d start duration_hrs W = (Ok (true, msg), W1) ->
  duration duration_hrs = Ok dur ->
  minute_of_day start + dur < 1440 ->
  (forall b, In b (bookings (tables W1)) -> In b (bookings (tables W'))) ->
  duration duration_hrs' = Ok dur' ->
  time_ok start' ->
  minute_of_day start' + dur' < 1440 ->
  (exists x : Z,
     minute_of_day start <= x < minute_of_day start + dur
     /\ minute_of_day start' <= x < minute_of_day start' + dur') ->
  let outcome := create_booking e' u' w d start' duration_hrs' W' in
  tables (snd outcome) = tables W'
  /\ fst outcome
     = match fst (available_start_slots w d duration_hrs' W') with
       | Ok _ => Ok (false, SLOT_TAKEN)
       | Raise x => Raise x
       end.
Proof.
  intros Hrun Hdur Hday Hkept Hdur' Hok' Hday' (x & Hx & Hx') outcome.
  subst outcome.
  destruct (create_booking_success e u w d start duration_hrs W W1 msg Hrun)
    as (avail & W0 & Havail & Hin).
  destruct (create_booking_accepts e u w d start duration_hrs W W0 avail
              Havail Hin) as (dur0 & events & Hdur0 & Hrun' & _).
  assert (dur0 = dur) by congruence. subst dur0.
  rewrite Hrun in Hrun'. injection Hrun' as _ HW1.
  pose proof (available_start_slots_times_ok _ _ _ _ _ _ Havail) as Hok.
  rewrite Forall_forall in Hok. specialize (Hok start Hin).
  pose proof Havail as Hparts. apply available_start_slots_Ok in Hparts.
  destruct Hparts as (dur0 & slots & spans0 & s & c & Hdur0' & _ & _ & _ & Hadds
                      & Eavail & _).
  assert (dur0 = dur) by congruence. subst dur0.
  assert (Hadd : datetime_add (combine d start) dur = Ok (combine d start + dur)).
  { rewrite Eavail in Hin. apply filter_In in Hin. destruct Hin as [Hin _].
    rewrite Forall_forall in Hadds. now apply Hadds. }
  pose proof (minute_of_day_range _ Hok) as Hr.
  pose proof (minute_of_day_range _ Hok') as Hr'.
  assert (Hadd' : datetime_add (combine d start') dur'
                  = Ok (combine d start' + dur')).
  { apply datetime_add_Ok in Hadd. destruct Hadd as [_ Hrange].
    apply datetime_add_in_range. unfold combine in *.
    Z.div_mod_to_equations. lia. }
  (* the row of the first visit is still there, and it occupies *)
  assert (Hrow : In (booking_row e u w d start dur) (bookings (tables W'))).
  { apply Hkept. subst W1. cbn [tables bookings].
    apply in_or_app. right. now left. }
  pose proof (available_start_slots_reads_only w d duration_hrs' W') as Hro.
  destruct (available_start_slots w d duration_hrs' W') as [[avail'|y] W2]
    eqn:Havail'; cbn [fst snd] in *.
  - assert (Hnot : ~ In start' avail').
    { intros Hin'. apply available_start_slots_Ok in Havail'.
      destruct Havail' as (dur0 & slots' & spans' & s' & c' & Hd0 & _ & Hsp
                           & _ & _ & -> & _).
      assert (dur0 = dur') by congruence. subst dur0.
      apply filter_In in Hin'. destruct Hin' as [_ Hacc].
      apply andb_true_iff in Hacc. destruct Hacc as [_ Hfree].
      unfold free in Hfree. apply negb_true_iff in Hfree.
      apply mapM_Ok_Forall2 in Hsp.
      assert (Hocc : In (booking_row e u w d start dur)
                        (filter (occupiesb (w_username w) (isoformat d))
                                (bookings (tables W')))).
      { apply filter_In. split; [exact Hrow | apply occupiesb_booking_row]. }
      destruct (Forall2_In_l _ _ _ _ Hsp Hocc) as (sp & Hsp_in & Hspan).
      rewrite booking_span_row in Hspan by assumption. injection Hspan as <-.
      assert (Hyes : existsb
                       (fun '(s0, e0) =>
                          is_overlap start' (add_minutes start' dur') s0 e0)
                       spans' = true).
      { apply existsb_exists. exists (start, add_minutes start dur).
        split; [exact Hsp_in|].
        rewrite is_overlap_minutes
          by (assumption || (unfold add_minutes; apply time_of_ok)).
        unfold add_minutes. rewrite !minute_of_day_time_of.
        rewrite !Z.mod_small by lia. apply Z.ltb_lt. lia. }
      congruence. }
    rewrite (create_booking_rejects e' u' w d start' duration_hrs' W' W2 dur'
               (combine d start' + dur') avail' Hdur' Hadd' Havail' Hnot).
    cbn [fst snd]. auto.
  - unfold create_booking, bind, lift. rewrite Hdur', Hadd', Havail'.
    cbn [fst snd]. auto.
Qed.

Lemma create_booking_blocks_overlap_witness :
  let W1 := snd (create_booking quiet_env bob asha a_day (mkTime 10 0) 1%float
                                empty_world) in
  let W' := with_bookings W1 (bookings (tables W1) ++ [ravi_booking]) in
  let outcome := create_booking mailing_env bob asha a_day (mkTime 10 30)
                                2%float W' in
  tables (snd outcome) = tables W'
  /\ fst outcome
     = match fst (available_start_slots asha a_day 2%float W') with
       | Ok _ => Ok (false, SLOT_TAKEN)
       | Raise x => Raise x
       end.
Proof.
  intros W1 W'.
  apply (create_booking_blocks_overlap quiet_env mailing_env bob bob asha a_day
           (mkTime 10 0) (mkTime 10 30) 1%float 2%float empty_world W1 W'
           (BOOKED ++ NOT_SENT)%string 60 120).
  - vm_compute. reflexivity.
  - vm_compute. reflexivity.
  - vm_compute. reflexivity.
  - intros b Hb. subst W'. cbn [with_bookings tables bookings].
    apply in_or_app. now left.
  - vm_compute. reflexivity.
  - unfold time_ok. cbn. lia.
  - vm_compute. reflexivity.
  - exists 630. unfold minute_of_day. cbn [hour minute]. lia.
Defined.

(** ** The order of "My Bookings" *)

Lemma ascii_compare_refl (a : ascii) : Ascii.compare a a = Eq.
Proof. unfold Ascii.compare. apply N.compare_refl. Qed.

Lemma ascii_compare_eq (a b : ascii) : Ascii.compare a b = Eq -> a = b.
Proof.
  unfold Ascii.compare. intros H. apply N.compare_eq in H.
  rewrite <- (ascii_N_embedding a), <- (ascii_N_embedding b). now rewrite H.
Qed.

Lemma ascii_compare_lt_trans (a b c : ascii) :
  Ascii.compare a b = Lt -> Ascii.compare b c = Lt -> Ascii.compare a c = Lt.
Proof.
  unfold Ascii.compare. rewrite !N.compare_lt_iff. apply N.lt_trans.
Qed.

Lemma string_compare_refl (s : string) : String.compare s s = Eq.
Proof.
  induction s as [|a s IH]; cbn; [reflexivity|].
  now rewrite ascii_compare_refl.
Qed.

Lemma string_compare_eq (s t : string) : String.compare s t = Eq -> s = t.
Proof.
  revert t. induction s as [|a s IH]; intros [|b t]; cbn; try discriminate;
    [reflexivity|].
  destruct (Ascii.compare a b) eqn:E; try discriminate.
  intros H. apply ascii_compare_eq in E. apply IH in H. now subst.
Qed.

Lemma string_compare_lt_trans (s t r : string) :
  String.compare s t = Lt -> String.compare t r = Lt -> String.compare s r = Lt.
Proof.
  revert t r. induction s as [|a s IH]; intros [|b t] [|c r]; cbn;
    try discriminate; try reflexivity.
  destruct (Ascii.compare a b) eqn:Eab; try discriminate;
    destruct (Ascii.compare b c) eqn:Ebc; try discriminate; intros H1 H2.
  - apply ascii_compare_eq in Eab, Ebc. subst.
    rewrite ascii_compare_refl. now apply (IH t).
  - apply ascii_compare_eq in Eab. subst. now rewrite Ebc.
  - apply ascii_compare_eq in Ebc. subst. now rewrite Eab.
  - now rewrite (ascii_compare_lt_trans a b c).
Qed.

Lemma string_compare_gt (s t : string) :
  String.compare s t = Gt -> String.compare t s = Lt.
Proof.
  intros H. rewrite String.compare_antisym, H. reflexivity.
Qed.

Lemma key_ltb_cmp (a b : booking) : key_ltb a b = true <-> key_cmp a b = Lt.
Proof.
  unfold key_ltb, key_cmp, Str.ltb, String.ltb.
  destruct (String.compare (b_date a) (b_date b)) eqn:E.
  - apply string_compare_eq in E. rewrite E, String.eqb_refl. cbn.
    destruct (String.compare (b_start a) (b_start b)); split;
      congruence.
  - cbn. tauto.
  - destruct (String.eqb_spec (b_date a) (b_date b)) as [E'|_]; cbn.
    + rewrite E', string_compare_refl in E. discriminate.
    + split; discriminate.
Qed.

Lemma key_cmp_eq (a b : booking) :
  key_cmp a b = Eq -> b_date a = b_date b /\ b_start a = b_start b.
Proof.
  unfold key_cmp.
  destruct (String.compare (b_date a) (b_date b)) eqn:E; try discriminate.
  intros H. split; now apply string_compare_eq.
Qed.

Lemma key_cmp_same (a b : booking) :
  b_date a = b_date b -> b_start a = b_start b -> key_cmp a b = Eq.
Proof.
  unfold key_cmp. intros -> ->. now rewrite !string_compare_refl.
Qed.

Lemma key_cmp_gt (a b : booking) : key_cmp a b = Gt -> key_cmp b a = Lt.
Proof.
  unfold key_cmp.
  destruct (String.compare (b_date a) (b_date b)) eqn:E; try discriminate.
  - apply string_compare_eq in E. rewrite E, string_compare_refl.
    apply string_compare_gt.
  - intros _. now rewrite (string_compare_gt _ _ E).
Qed.

Lemma key_cmp_lt_trans (a b c : booking) :
  key_cmp a b = Lt -> key_cmp b c = Lt -> key_cmp a c = Lt.
Proof.
  unfold key_cmp.
  destruct (String.compare (b_date a) (b_date b)) eqn:Eab; try discriminate;
    destruct (String.compare (b_date b) (b_date c)) eqn:Ebc; try discriminate;
    intros H1 H2.
  - apply string_compare_eq in Eab, Ebc. rewrite Eab, Ebc.
    rewrite string_compare_refl. now apply (string_compare_lt_trans _ (b_start b)).
  - apply string_compare_eq in Eab. now rewrite Eab, Ebc.
  - apply string_compare_eq in Ebc. now rewrite <- Ebc, Eab.
  - now rewrite (string_compare_lt_trans _ _ _ Eab Ebc).
Qed.

Lemma key_ltb_irrefl (a b : booking) :
  b_date a = b_date b -> b_start a = b_start b -> key_ltb a b = false.
Proof.
  intros Hd Hs. destruct (key_ltb a b) eqn:E; [|reflexivity].
  apply key_ltb_cmp in E. rewrite key_cmp_same in E by assumption.
  discriminate.
Qed.

Lemma key_ltb_asym (a b : booking) : key_ltb a b = true -> key_ltb b a = false.
Proof.
  intros H. destruct (key_ltb b a) eqn:E; [|reflexivity].
  apply key_ltb_cmp in H, E.
  pose proof (key_cmp_lt_trans _ _ _ H E) as Haa.
  rewrite key_cmp_same in Haa by reflexivity. discriminate.
Qed.

(** If [z] is before [b], it is before [y] or [y] is before [b]. *)
Lemma key_ltb_between (z y b : booking) :
  key_ltb z b = true -> key_ltb z y = true \/ key_ltb y b = true.
Proof.
  intros H. destruct (key_cmp z y) eqn:E.
  - right. apply key_cmp_eq in E. destruct E as [Ed Es].
    unfold key_ltb in *. now rewrite <- Ed, <- Es.
  - left. now apply key_ltb_cmp.
  - right. apply key_cmp_gt in E. apply key_ltb_cmp.
    apply key_ltb_cmp in H. now apply (key_cmp_lt_trans y z b).
Qed.

Lemma insert_row_perm (b : booking) (l : list booking) :
  Permutation (insert_row b l) (b :: l).
Proof.
  induction l as [|y r IH]; cbn [insert_row]; [reflexivity|].
  destruct (key_ltb y b); [|reflexivity].
  rewrite IH. apply perm_swap.
Qed.

Lemma sorted_perm (l : list booking) : Permutation (sorted l) l.
Proof.
  induction l as [|b r IH]; cbn [sorted]; [reflexivity|].
  rewrite insert_row_perm. now constructor.
Qed.

Lemma insert_row_sorted (b : booking) (l : list booking) :
  StronglySorted not_after l -> StronglySorted not_after (insert_row b l).
Proof.
  induction 1 as [|y r Hr IH Hy]; cbn [insert_row].
  - repeat constructor.
  - destruct (key_ltb y b) eqn:E.
    + constructor; [exact IH|].
      apply (Permutation_Forall (Permutation_sym (insert_row_perm b r))).
      constructor; [|exact Hy]. now apply key_ltb_asym.
    + constructor; [now constructor|].
      constructor; [exact E|].
      rewrite Forall_forall in *. intros z Hz. specialize (Hy z Hz).
      unfold not_after in *. destruct (key_ltb z b) eqn:Ez; [|reflexivity].
      destruct (key_ltb_between z y b Ez); congruence.
Qed.

Lemma sorted_sorted (l : list booking) : StronglySorted not_after (sorted l).
Proof.
  induction l as [|b r IH]; cbn [sorted]; [constructor|].
  now apply insert_row_sorted.
Qed.

Lemma at_key_spec (day start : string) (b : booking) :
  at_key day start b = true <-> b_date b = day /\ b_start b = start.
Proof. unfold at_key. now rewrite andb_true_iff, !String.eqb_eq. Qed.

Lemma insert_row_at_key (day start : string) (b : booking) (l : list booking) :
  filter (at_key day start) (insert_row b l)
  = filter (at_key day start) (b :: l).
Proof.
  induction l as [|y r IH]; cbn [insert_row]; [reflexivity|].
  destruct (key_ltb y b) eqn:E; [|reflexivity].
  cbn [filter] in *. rewrite IH.
  destruct (at_key day start y) eqn:Ey, (at_key day start b) eqn:Eb;
    try reflexivity.
  apply at_key_spec in Ey, Eb. destruct Ey as [<- <-], Eb as [Hd Hs].
  rewrite key_ltb_irrefl in E by congruence. discriminate.
Qed.

Lemma sorted_at_key (day start : string) (l : list booking) :
  filter (at_key day start) (sorted l) = filter (at_key day start) l.
Proof.
  induction l as [|b r IH]; cbn [sorted]; [reflexivity|].
  rewrite insert_row_at_key. cbn [filter]. now rewrite IH.
Qed.

Lemma rows_sorted_run (u : user) (W : world) :
  rows_sorted u W
  = (Ok (sorted (filter (shown_to u) (bookings (tables W)))), after_read W).
Proof.
  unfold rows_sorted, load_bookings, bind, emit, ret, after_read. cbn.
  unfold shown_to.
  destruct (u_role u =? "customer")%string; [reflexivity|].
  destruct (u_role u =? "worker")%string; [reflexivity|].
  now rewrite filter_all.
Qed.

(** X17. "My Bookings" reads the bookings once and writes nothing.  It
    lists the bookings of the customer, or of the worker, whose name it is
    given up to case, and all the bookings for any other role; each of
    them once, by date and then by start, rows of one date and start in
    the order of the file. *)
Theorem rows_sorted_listing (u : user) (W : world) :
  exists listed,
    rows_sorted u W = (Ok listed, after_read W)
    /\ Permutation listed (filter (shown_to u) (bookings (tables W)))
    /\ StronglySorted not_after listed
    /\ forall day start,
         filter (at_key day start) listed
         = filter (at_key day start)
                  (filter (shown_to u) (bookings (tables W))).
Proof.
  exists (sorted (filter (shown_to u) (bookings (tables W)))).
  split; [apply rows_sorted_run|]. split; [apply sorted_perm|].
  split; [apply sorted_sorted|]. intros day start. apply sorted_at_key.
Qed.

(** ** The profile the dashboard saves *)

Lemma str_rev_involutive (s : string) : Str.rev (Str.rev s) = s.
Proof.
  induction s as [|c s IH]; cbn [Str.rev]; [reflexivity|].
  rewrite str_rev_app, IH. reflexivity.
Qed.

Lemma lstrip_idem (s : string) : Str.lstrip (Str.lstrip s) = Str.lstrip s.
Proof.
  induction s as [|c s IH]; cbn [Str.lstrip]; [reflexivity|].
  destruct (Str.isspace c) eqn:E; [exact IH|].
  cbn [Str.lstrip]. now rewrite E.
Qed.

Lemma lstrip_snoc (s : string) (c : ascii) :
  Str.isspace c = false ->
  exists s', Str.lstrip (s ++ String c EmptyString)
             = (s' ++ String c EmptyString)%string.
Proof.
  intros Hc. induction s as [|a s IH]; cbn [String.append Str.lstrip].
  - rewrite Hc. now exists EmptyString.
  - destruct (Str.isspace a); [exact IH|].
    now exists (String a s).
Qed.

(** Stripping on the right leaves a first character that is no space
    where it is. *)
Lemma lstrip_rstrip (s : string) :
  Str.lstrip (Str.rstrip (Str.lstrip s)) = Str.rstrip (Str.lstrip s).
Proof.
  destruct (Str.lstrip s) as [|c r] eqn:E; [reflexivity|].
  assert (Hc : Str.isspace c = false).
  { clear - E. induction s as [|a s IH]; cbn [Str.lstrip] in E;
      [discriminate|].
    destruct (Str.isspace a) eqn:Ea; [now apply IH|].
    injection E as <- _. exact Ea. }
  unfold Str.rstrip. cbn [Str.rev].
  destruct (lstrip_snoc (Str.rev r) c Hc) as (s' & ->).
  rewrite str_rev_app. cbn [Str.rev String.append Str.lstrip].
  now rewrite Hc.
Qed.

Lemma strip_idem (s : string) : Str.strip (Str.strip s) = Str.strip s.
Proof.
  unfold Str.strip. rewrite lstrip_rstrip.
  unfold Str.rstrip. now rewrite str_rev_involutive, lstrip_idem.
Qed.

Lemma truthy_spec (s : string) : Py.truthy s = true <-> s <> EmptyString.
Proof. destruct s; cbn; split; congruence. Qed.

(** X18. The dashboard saves a profile that the rest of the program can
    read.  After "Save Profile", [get_worker] finds that profile under the
    name of the user in any capitals; its working window, as
    [worker_daily_range] reads it, is the pair of times that the two time
    inputs held, and the dashboard itself reads the same two times back
    when it is opened again; no skill in it is empty or has a blank
    margin, and its display name is not empty unless the user name is. *)
Theorem page_worker_dashboard_save_readable (u : user)
  (name city skills_csv : string) (rate : Z) (start end_ : time) (bio lookup : string)
  (W : world) :
  time_ok start -> time_ok end_ ->
  same_up_to_case (u_username u) lookup ->
  let W' := snd (page_worker_dashboard_save u name city skills_csv rate
                                            start end_ bio W) in
  exists profile,
    fst (get_worker lookup W') = Ok (Some profile)
    /\ w_username profile = u_username u
    /\ worker_daily_range profile = Ok (start, end_)
    /\ fst (page_worker_dashboard_times u W') = Ok (start, end_)
    /\ Forall (fun s => s <> EmptyString /\ Str.strip s = s) (w_skills profile)
    /\ (u_username u <> EmptyString -> w_name profile <> Some EmptyString).
Proof.
  intros Hs He Hsame W'. subst W'. unfold page_worker_dashboard_save.
  remember (dashboard_profile u name city skills_csv rate start end_ bio)
    as profile eqn:Ep.
  assert (Hname : w_username profile = u_username u) by (now subst profile).
  assert (Hds : w_daily_start profile = Some (strftime_HM start))
    by (now subst profile).
  assert (Hde : w_daily_end profile = Some (strftime_HM end_))
    by (now subst profile).
  exists profile.
  destruct (upsert_worker_run profile W) as (message & ->). cbn [snd].
  apply lower_same_up_to_case in Hsame.
  split; [|split; [exact Hname|split; [|split; [|split]]]].
  - rewrite get_worker_run. cbn [fst tables workers].
    now rewrite find_upserted, Hname, <- Hsame, String.eqb_refl.
  - unfold worker_daily_range. rewrite Hds, Hde. cbn [get_default].
    rewrite !unpack_strftime by assumption. cbn [rbind].
    now rewrite !dt_time_of_ok by assumption.
  - unfold page_worker_dashboard_times, bind at 1.
    rewrite get_worker_run. cbn [tables workers].
    rewrite find_upserted, Hname, String.eqb_refl.
    rewrite Hds, Hde. cbn [get_default]. unfold bind, lift, ret.
    now rewrite !strptime_strftime by assumption.
  - subst profile. cbn [dashboard_profile w_skills].
    apply Forall_forall. intros s Hin. apply in_map_iff in Hin.
    destruct Hin as (raw & <- & Hraw). apply filter_In in Hraw.
    destruct Hraw as [_ Htruthy]. apply truthy_spec in Htruthy.
    split; [exact Htruthy | apply strip_idem].
  - intros Hu. subst profile. cbn [dashboard_profile w_name].
    destruct (Py.truthy (Str.strip name)) eqn:Hn.
    + apply truthy_spec in Hn. congruence.
    + congruence.
Qed.

Lemma page_worker_dashboard_save_readable_witness :
  let W' := snd (page_worker_dashboard_save asha_user "  Asha K " "Pune "
                   " cooking, ,cleaning" 300 (mkTime 9 0) (mkTime 17 30)
                   EmptyString empty_world) in
  exists profile,
    fst (get_worker "asha" W') = Ok (Some profile)
    /\ w_username profile = u_username asha_user
    /\ worker_daily_range profile = Ok (mkTime 9 0, mkTime 17 30)
    /\ fst (page_worker_dashboard_times asha_user W')
       = Ok (mkTime 9 0, mkTime 17 30)
    /\ Forall (fun s => s <> EmptyString /\ Str.strip s = s) (w_skills profile)
    /\ (u_username asha_user <> EmptyString ->
        w_name profile <> Some EmptyString).
Proof.
  apply (page_worker_dashboard_save_readable asha_user "  Asha K " "Pune "
           " cooking, ,cleaning" 300 (mkTime 9 0) (mkTime 17 30) EmptyString
           "asha" empty_world).
  - unfold time_ok. cbn. lia.
  - unfold time_ok. cbn. lia.
  - cbn. unfold char_case_eq, is_upper. cbn. intuition.
Defined.

(** ** Navigation *)

(** X19. The menu of [main] and the pages agree for a user who is logged
    in: every name on the menu is a page, and a page is on the menu
    exactly when it opens for that user.  A visitor who is not logged in
    is offered "Home", which opens, and "Browse & Book", which only asks
    to log in. *)
Theorem visible_pages_open (u : user) :
  (forall choice,
     In choice (visible (Some u)) <->
     exists page, pages choice = Some page /\ page (Some u) = Opens)
  /\ visible None = ["Home"; "Browse & Book"]%string
  /\ (exists page, pages "Home" = Some page /\ page None = Opens)
  /\ (exists page, pages "Browse & Book" = Some page
                   /\ page None = PleaseLogIn).
Proof.
  split; [|split; [reflexivity|split; eexists; split; reflexivity]].
  intros choice. unfold visible, pages.
  unfold page_home_entry, page_browse_and_book_entry, page_my_bookings_entry,
    page_worker_dashboard_entry, page_admin_entry, logged_in.
  split.
  - destruct (u_role u =? "worker")%string eqn:Hw,
             (u_role u =? "admin")%string eqn:Ha; cbn [orb negb app In].
    all: intros H.
    all: repeat (destruct H as [<- | H];
                 [eexists; split;
                  [reflexivity | cbn; rewrite ?Hw, ?Ha; reflexivity]|]).
    all: contradiction.
  - intros (page & Hpage & Hopen).
    repeat match type of Hpage with
           | (if (choice =? ?s)%string then _ else _) = _ =>
               destruct (String.eqb_spec choice s) as [->|_]
           end; try discriminate.
    all: injection Hpage as <-.
    all: destruct (u_role u =? "worker")%string eqn:Hw,
                  (u_role u =? "admin")%string eqn:Ha;
      cbn [orb negb app In] in *; try discriminate; tauto.
Qed.

(** ** Availability, for visits that end on the day they start *)

Lemma Forall2_In_r {A B : Type} (R : A -> B -> Prop) (l : list A) (r : list B)
  (b : B) :
  Forall2 R l r -> In b r -> exists a, In a l /\ R a b.
Proof.
  induction 1 as [|x y l r Hxy _ IH]; intros Hin; [contradiction|].
  destruct Hin as [-> | Hin].
  - exists x. simpl. auto.
  - destruct (IH Hin) as (a & Ha & Hab). exists a. simpl. auto.
Qed.

Lemma existsb_false {A : Type} (p : A -> bool) (l : list A) :
  existsb p l = false <-> forall a, In a l -> p a = false.
Proof.
  induction l as [|x l IH]; cbn [existsb In]; [tauto|].
  rewrite orb_false_iff, IH. split.
  - intros [Hx Hl] a [<- | Ha]; auto.
  - intros H. split; auto.
Qed.

(** X20. What the Availability Calculator offers, for a visit that ends
    on the day it starts: exactly the times that lie a whole number of half
    hours after the start of the window with room for a half hour before
    its end, whose visit ends by the end of the window, and shares no
    minute of the day with a booking that occupies the calendar of the
    worker on that date and is stored with its end after its start.  An
    occupying booking stored with an end that is not after its start, as
    a visit that reached or passed midnight is, blocks nothing. *)
Theorem available_start_slots_same_day (w : worker) (d : date)
  (duration_hrs : float) (W : world) (avail : list time) (dur : timedelta)
  (day_start day_end t : time) :
  date_ok d ->
  fst (available_start_slots w d duration_hrs W) = Ok avail ->
  duration duration_hrs = Ok dur ->
  worker_daily_range w = Ok (day_start, day_end) ->
  time_ok t ->
  0 <= minute_of_day t + dur < 1440 ->
  In t avail <->
  (exists k : nat,
     minute_of_day t = minute_of_day day_start + 30 * Z.of_nat k
     /\ minute_of_day t + 30 <= minute_of_day day_end)
  /\ minute_of_day t + dur <= minute_of_day day_end
  /\ forall b s e,
       In b (bookings (tables W)) ->
       occupies (w_username w) (isoformat d) b ->
       booking_span b = Ok (s, e) ->
       minute_of_day s < minute_of_day e ->
       ~ exists x : Z,
           minute_of_day t <= x < minute_of_day t + dur
           /\ minute_of_day s <= x < minute_of_day e.
Proof.
  intros Hd H Hdur Hw Ht Hday.
  destruct (available_start_slots w d duration_hrs W) as [r W1] eqn:E.
  cbn [fst] in H. subst r. apply available_start_slots_Ok in E.
  destruct E as (dur' & slots & spans & s' & e' & Hdur' & Hs & Hsp & Hw' & _
                 & -> & _).
  assert (dur' = dur) by congruence. subst dur'.
  assert (s' = day_start /\ e' = day_end) as [-> ->] by (split; congruence).
  destruct (generate_slots_Ok_grid w d slots Hd Hs) as (s' & e' & Hw'' & ->).
  assert (s' = day_start /\ e' = day_end) as [-> ->] by (split; congruence).
  destruct (worker_daily_range_ok _ _ _ Hw) as [Hs_ok He_ok].
  pose proof (minute_of_day_range _ Ht) as Hrt.
  pose proof (minute_of_day_range _ Hs_ok) as Hrs.
  pose proof (minute_of_day_range _ He_ok) as Hre.
  assert (Hend : minute_of_day (add_minutes t dur) = minute_of_day t + dur).
  { unfold add_minutes. rewrite minute_of_day_time_of. now apply Z.mod_small. }
  assert (Hend_ok : time_ok (add_minutes t dur))
    by (unfold add_minutes; apply time_of_ok).
  apply mapM_Ok_Forall2 in Hsp.
  rewrite filter_In, andb_true_iff.
  unfold fits, free. rewrite !negb_true_iff, orb_false_iff.
  rewrite !time_ltb_minutes by (apply Ht || apply Hs_ok || apply He_ok
                                || apply Hend_ok).
  rewrite Hend, !Z.ltb_ge, existsb_false.
  split.
  - intros (Hin & [Hlo Hhi] & Hfree). apply In_nth_error in Hin.
    destruct Hin as [k Hk]. split; [|split; [exact Hhi|]].
    + exists k. now apply grid_minutes.
    + intros b s e Hb Hocc Hspan _ (x & Hx1 & Hx2).
      assert (Hbin : In b (filter (occupiesb (w_username w) (isoformat d))
                                  (bookings (tables W)))).
      { apply filter_In. split; [exact Hb | now apply occupiesb_spec]. }
      destruct (Forall2_In_l _ _ _ _ Hsp Hbin) as ([s0 e0] & Hin0 & Hspan0).
      assert (s0 = s /\ e0 = e) as [-> ->] by (split; congruence).
      specialize (Hfree _ Hin0). cbn beta iota in Hfree.
      destruct (booking_span_times_ok _ _ _ Hspan) as [Hs1 He1].
      rewrite is_overlap_minutes in Hfree by assumption.
      rewrite Hend in Hfree. apply Z.ltb_ge in Hfree. lia.
  - intros ((k & Hk & Hroom) & Hhi & Hfree). split; [|split].
    + apply (nth_error_In _ k). apply grid_is_grid. split; [|lia].
      apply minute_of_day_inj; [assumption | unfold add_minutes; apply time_of_ok|].
      unfold add_minutes. rewrite minute_of_day_time_of.
      rewrite Z.mod_small by lia. exact Hk.
    + split; lia.
    + intros [s e] Hin.
      destruct (Forall2_In_r _ _ _ _ Hsp Hin) as (b & Hb & Hspan).
      apply filter_In in Hb. destruct Hb as [Hb Hocc].
      apply occupiesb_spec in Hocc.
      destruct (booking_span_times_ok _ _ _ Hspan) as [Hs1 He1].
      rewrite is_overlap_minutes by assumption. rewrite Hend.
      apply Z.ltb_ge. specialize (Hfree b s e Hb Hocc Hspan).
      destruct (Z.lt_ge_cases (minute_of_day s) (minute_of_day e)) as [Hse|Hse];
        [|lia].
      destruct (Z.lt_ge_cases
                  (Z.max (minute_of_day t) (minute_of_day s))
                  (Z.min (minute_of_day t + dur) (minute_of_day e)))
        as [Hov|]; [|assumption].
      exfalso. apply (Hfree Hse).
      exists (Z.max (minute_of_day t) (minute_of_day s)). lia.
Qed.

Lemma available_start_slots_same_day_witness :
  In (mkTime 10 0)
     (returned (fst (available_start_slots asha a_day 1%float
                       (with_bookings empty_world [asha_booking]))))
  <->
  (exists k : nat,
     minute_of_day (mkTime 10 0) = minute_of_day (mkTime 9 0) + 30 * Z.of_nat k
     /\ minute_of_day (mkTime 10 0) + 30 <= minute_of_day (mkTime 18 0))
  /\ minute_of_day (mkTime 10 0) + 60 <= minute_of_day (mkTime 18 0)
  /\ forall b s e,
       In b (bookings (tables (with_bookings empty_world [asha_booking]))) ->
       occupies (w_username asha) (isoformat a_day) b ->
       booking_span b = Ok (s, e) ->
       minute_of_day s < minute_of_day e ->
       ~ exists x : Z,
           minute_of_day (mkTime 10 0) <= x < minute_of_day (mkTime 10 0) + 60
           /\ minute_of_day s <= x < minute_of_day e.
Proof.
  apply (available_start_slots_same_day asha a_day 1%float
           (with_bookings empty_world [asha_booking])
           (returned (fst (available_start_slots asha a_day 1%float
                             (with_bookings empty_world [asha_booking]))))
           60 (mkTime 9 0) (mkTime 18 0) (mkTime 10 0)).
  - unfold date_ok, a_day, MAXORDINAL. lia.
  - vm_compute. reflexivity.
  - vm_compute. reflexivity.
  - vm_compute. reflexivity.
  - unfold time_ok. cbn. lia.
  - cbn. lia.
Defined.

(** ** Dates and the strings that stand for them *)

Lemma month_cases (n : Z) :
  0 <= n < 366 ->
  let month := Z.shiftr (n + 50) 5 in
  month = 1 \/ month = 2 \/ month = 3 \/ month = 4 \/ month = 5 \/ month = 6
  \/ month = 7 \/ month = 8 \/ month = 9 \/ month = 10 \/ month = 11
  \/ month = 12.
Proof.
  intros Hn month. subst month. rewrite Z.shiftr_div_pow2 by lia.
  change (2 ^ 5) with 32. Z.div_mod_to_equations. lia.
Qed.

(** [_ord2ymd] gives a year, a month and a day of the calendar, and
    [_ymd2ord] leads back from them to the ordinal. *)
Lemma ord2ymd_spec (n : Z) :
  date_ok n ->
  let '(year, month, day) := ord2ymd n in
  ymd2ord (year, month, day) = n
  /\ 1 <= year <= 9999 /\ 1 <= month <= 12 /\ 1 <= day <= 31.
Proof.
  unfold date_ok, MAXORDINAL. intros Hn. unfold ord2ymd.
  remember (n - 1) as n0 eqn:En0.
  remember (n0 / 146097) as n400 eqn:E400.
  remember (n0 mod 146097) as r400 eqn:R400.
  remember (r400 / 36524) as n100 eqn:E100.
  remember (r400 mod 36524) as r100 eqn:R100.
  remember (r100 / 1461) as n4 eqn:E4.
  remember (r100 mod 1461) as r4 eqn:R4.
  remember (r4 / 365) as n1 eqn:E1.
  remember (r4 mod 365) as r1 eqn:R1.
  cbv zeta.
  assert (H0 : 0 <= n0) by lia.
  assert (Hvars :
            n0 = 146097 * n400 + r400 /\ 0 <= r400 < 146097 /\ 0 <= n400
            /\ r400 = 36524 * n100 + r100 /\ 0 <= r100 < 36524 /\ 0 <= n100 <= 4
            /\ r100 = 1461 * n4 + r4 /\ 0 <= r4 < 1461 /\ 0 <= n4 <= 24
            /\ r4 = 365 * n1 + r1 /\ 0 <= r1 < 365 /\ 0 <= n1 <= 4).
  { subst n400 r400 n100 r100 n4 r4 n1 r1. Z.div_mod_to_equations. lia. }
  clear E400 R400 E100 R100 E4 R4 E1 R1.
  destruct Hvars as (D400 & B400 & P400 & D100 & B100 & P100 & D4 & B4 & P4
                     & D1 & B1 & P1).
  destruct ((n1 =? 4) || (n100 =? 4)) eqn:Hlast.
  - unfold ymd2ord, days_before_year, days_before_month, is_leap.
    cbn [DAYS_BEFORE_MONTH]. change (2 <? 12) with true. cbn [andb].
    apply orb_true_iff in Hlast. rewrite !Z.eqb_eq in Hlast.
    assert (Hleap : (n400 * 400 + 1 + n100 * 100 + n4 * 4 + n1 - 1) mod 4 = 0
                    /\ ((n400 * 400 + 1 + n100 * 100 + n4 * 4 + n1 - 1) mod 100 <> 0
                        \/ (n400 * 400 + 1 + n100 * 100 + n4 * 4 + n1 - 1) mod 400 = 0)).
    { Z.div_mod_to_equations. lia. }
    destruct Hleap as [L4 L100].
    rewrite (proj2 (Z.eqb_eq _ _) L4). cbn [andb].
    replace (negb (_ mod 100 =? 0) || (_ mod 400 =? 0)) with true.
    + repeat split; try lia; Z.div_mod_to_equations; lia.
    + symmetry. apply orb_true_iff. destruct L100 as [L|L].
      * left. apply negb_true_iff. now apply Z.eqb_neq.
      * right. now apply Z.eqb_eq.
  - apply orb_false_iff in Hlast. rewrite !Z.eqb_neq in Hlast.
    destruct Hlast as [N1 N100].
    remember (n400 * 400 + 1 + n100 * 100 + n4 * 4 + n1) as year eqn:Ey.
    remember ((n1 =? 3) && (negb (n4 =? 24) || (n100 =? 3))) as leapyear eqn:El.
    assert (Hleap : is_leap year = leapyear).
    { subst leapyear year. unfold is_leap.
      destruct (Z.eqb_spec n1 3), (Z.eqb_spec n4 24), (Z.eqb_spec n100 3);
        cbn [andb orb negb];
        repeat match goal with
          | |- context [?a mod ?b =? 0] =>
              destruct (Z.eqb_spec (a mod b) 0)
          end; cbn [andb orb negb]; try reflexivity;
        exfalso; Z.div_mod_to_equations; lia. }
    assert (Hyear : days_before_year year = n0 - r1).
    { subst year. unfold days_before_year. cbv zeta.
      Z.div_mod_to_equations. lia. }
    assert (Hrange : 1 <= year <= 9999) by lia.
    assert (Hday : leapyear = false -> r4 < 1460 -> True) by trivial.
    assert (Hr1 : 0 <= r1 < 366) by lia.
    pose proof (month_cases r1 Hr1) as Hmonth. cbv zeta in Hmonth.
    remember (Z.shiftr (r1 + 50) 5) as month eqn:Em.
    rewrite Z.shiftr_div_pow2 in Em by lia. change (2 ^ 5) with 32 in Em.
    clear El Ey D400 D100 D4 D1 Hday.
    destruct Hmonth as [M|[M|[M|[M|[M|[M|[M|[M|[M|[M|[M|M]]]]]]]]]]];
      rewrite M in *; destruct leapyear; cbn;
      match goal with
      | |- context [r1 <? ?p] => destruct (Z.ltb_spec r1 p)
      end;
      unfold ymd2ord, days_before_month; rewrite Hleap, Hyear; cbn;
      (split; [|split; [exact Hrange|]]);
      Z.div_mod_to_equations; lia.
Qed.

Lemma digit_char_code (d : Z) : 0 <= d <= 9 -> Py.code (Py.digit_char d) = 48 + d.
Proof.
  intros Hd. unfold Py.code, Py.digit_char.
  rewrite N_ascii_embedding by lia. lia.
Qed.

Lemma digit_char_inj (a b : Z) :
  0 <= a <= 9 -> 0 <= b <= 9 -> Py.digit_char a = Py.digit_char b -> a = b.
Proof.
  intros Ha Hb E. apply (f_equal Py.code) in E.
  rewrite !digit_char_code in E by assumption. lia.
Qed.

Lemma pad2_inj (a b : Z) :
  0 <= a < 100 -> 0 <= b < 100 -> Py.pad2 a = Py.pad2 b -> a = b.
Proof.
  intros Ha Hb E. unfold Py.pad2 in E. injection E as E1 E2.
  assert (H1 : a / 10 = b / 10)
    by (apply digit_char_inj; [| |exact E1]; Z.div_mod_to_equations; lia).
  assert (H2 : a mod 10 = b mod 10)
    by (apply digit_char_inj; [| |exact E2]; Z.div_mod_to_equations; lia).
  Z.div_mod_to_equations. lia.
Qed.

Lemma pad4_inj (a b : Z) :
  0 <= a < 10000 -> 0 <= b < 10000 -> Py.pad4 a = Py.pad4 b -> a = b.
Proof.
  intros Ha Hb E. unfold Py.pad4 in E.
  remember (Py.pad2 (a mod 100)) as pa eqn:Epa.
  remember (Py.pad2 (b mod 100)) as pb eqn:Epb.
  injection E as E1 E2 E3. subst pa pb.
  assert (H1 : a / 1000 = b / 1000)
    by (apply digit_char_inj; [| |exact E1]; Z.div_mod_to_equations; lia).
  assert (H2 : a / 100 mod 10 = b / 100 mod 10)
    by (apply digit_char_inj; [| |exact E2]; Z.div_mod_to_equations; lia).
  assert (H3 : a mod 100 = b mod 100)
    by (apply pad2_inj; [| |exact E3]; Z.div_mod_to_equations; lia).
  Z.div_mod_to_equations. lia.
Qed.

(** Two dates that print alike are the same date. *)
Lemma isoformat_inj (a b : date) :
  date_ok a -> date_ok b -> isoformat a = isoformat b -> a = b.
Proof.
  intros Ha Hb E. unfold isoformat in E.
  pose proof (ord2ymd_spec a Ha) as Sa. pose proof (ord2ymd_spec b Hb) as Sb.
  destruct (ord2ymd a) as [[ya ma] da], (ord2ymd b) as [[yb mb] db].
  destruct Sa as (Oa & Ya & Ma & Da), Sb as (Ob & Yb & Mb & Db).
  assert (Hsplit : forall y m dd,
            (Py.pad4 y ++ "-" ++ Py.pad2 m ++ "-" ++ Py.pad2 dd)%string
            = String (Py.digit_char (y / 1000))
                (String (Py.digit_char (y / 100 mod 10))
                   (String (Py.digit_char (y mod 100 / 10))
                      (String (Py.digit_char (y mod 100 mod 10))
                         (String "-"
                            (String (Py.digit_char (m / 10))
                               (String (Py.digit_char (m mod 10))
                                  (String "-" (Py.pad2 dd))))))))) by reflexivity.
  rewrite !Hsplit in E. clear Hsplit.
  injection E as E1 E2 E3 E4 E5 E6 E7.
  assert (Ey : ya = yb).
  { apply pad4_inj; [lia | lia |]. unfold Py.pad4, Py.pad2. congruence. }
  assert (Em : ma = mb).
  { apply pad2_inj; [lia | lia |]. unfold Py.pad2. congruence. }
  assert (Ed : da = db).
  { apply pad2_inj; [lia | lia |]. unfold Py.pad2. congruence. }
  subst. congruence.
Qed.

(** ** What a booking leaves alone *)

(** The tables after [create_booking], whatever it returns. *)
Lemma create_booking_tables (e : env) (u : user) (w : worker) (d : date)
  (start : time) (duration_hrs : float) (W : world) :
  tables (snd (create_booking e u w d start duration_hrs W)) = tables W
  \/ exists dur,
       duration duration_hrs = Ok dur
       /\ tables (snd (create_booking e u w d start duration_hrs W))
          = mkStore (users (tables W)) (workers (tables W))
                    (bookings (tables W) ++ [booking_row e u w d start dur]).
Proof.
  destruct (duration duration_hrs) as [dur|x] eqn:Hdur.
  2: { left. unfold create_booking, bind, lift. now rewrite Hdur. }
  destruct (datetime_add (combine d start) dur) as [end_dt|x] eqn:Hadd.
  2: { left. unfold create_booking, bind, lift. now rewrite Hdur, Hadd. }
  destruct (available_start_slots w d duration_hrs W) as [[avail|x] W1] eqn:Ha.
  2: { left. unfold create_booking, bind, lift. rewrite Hdur, Hadd, Ha.
       cbn [snd]. change W1 with (snd (Raise x : result (list time), W1)).
       rewrite <- Ha. apply available_start_slots_reads_only. }
  destruct (existsb (time_eqb start) avail) eqn:Hex.
  - right. apply existsb_time_eqb in Hex.
    destruct (create_booking_accepts e u w d start duration_hrs W W1 avail
                Ha Hex) as (dur' & events & Hdur' & -> & _).
    exists dur'. split; [congruence | reflexivity].
  - left.
    rewrite (create_booking_rejects e u w d start duration_hrs W W1 dur end_dt
               avail Hdur Hadd Ha).
    + cbn [snd]. change W1 with (snd (Ok avail, W1)).
      rewrite <- Ha. apply available_start_slots_reads_only.
    + intros Hin. apply existsb_time_eqb in Hin. congruence.
Qed.

(** X21. A booking touches the calendar of one worker on one date.
    Whatever [create_booking] returns for a worker and a date, the
    availability of a worker with another name, capitals aside, and the
    availability of any worker on another date are afterwards what they
    were before; the users and the workers are never written to. *)
Theorem create_booking_frame (e : env) (u : user) (w w' : worker)
  (d d' : date) (start : time) (duration_hrs duration_hrs' : float) (W : world) :
  date_ok d -> date_ok d' ->
  Py.lower (w_username w') <> Py.lower (w_username w) \/ d' <> d ->
  let W' := snd (create_booking e u w d start duration_hrs W) in
  fst (available_start_slots w' d' duration_hrs' W')
  = fst (available_start_slots w' d' duration_hrs' W)
  /\ users (tables W') = users (tables W)
  /\ workers (tables W') = workers (tables W).
Proof.
  intros Hd Hd' Hother W'. subst W'.
  destruct (create_booking_tables e u w d start duration_hrs W)
    as [Htables | (dur & _ & Htables)].
  - rewrite Htables. split; [|split; reflexivity].
    apply available_start_slots_occupying. now rewrite Htables.
  - rewrite Htables. cbn [users workers]. split; [|split; reflexivity].
    apply available_start_slots_occupying. rewrite Htables. cbn [bookings].
    rewrite filter_app. cbn [filter].
    replace (occupiesb (w_username w') (isoformat d')
                       (booking_row e u w d start dur)) with false.
    + apply app_nil_r.
    + symmetry. unfold occupiesb, booking_row. cbn [b_worker b_date b_status].
      destruct Hother as [Hname | Hdate].
      * apply not_eq_sym, String.eqb_neq in Hname. now rewrite Hname.
      * assert (Hiso : isoformat d <> isoformat d').
        { intros E. apply Hdate. symmetry. now apply isoformat_inj. }
        apply String.eqb_neq in Hiso. rewrite Hiso.
        now rewrite andb_false_r.
Qed.

Lemma create_booking_frame_witness :
  let W' := snd (create_booking quiet_env bob asha a_day (mkTime 10 0) 1%float
                                empty_world) in
  fst (available_start_slots asha (a_day + 1) 2%float W')
  = fst (available_start_slots asha (a_day + 1) 2%float empty_world)
  /\ users (tables W') = users (tables empty_world)
  /\ workers (tables W') = workers (tables empty_world).
Proof.
  apply (create_booking_frame quiet_env bob asha asha a_day (a_day + 1)
           (mkTime 10 0) 1%float 2%float empty_world).
  - unfold date_ok, a_day, MAXORDINAL. lia.
  - unfold date_ok, a_day, MAXORDINAL. lia.
  - right. unfold a_day. lia.
Defined.

(** ** The Overlap Detector once more *)

(** X22. [is_overlap] does not care which interval comes first, and an
    interval that ends no later than it starts overlaps nothing; a visit
    that runs past midnight is stored as such an interval. *)
Theorem is_overlap_symmetric (s1 e1 s2 e2 : time) :
  time_ok s1 -> time_ok e1 -> time_ok s2 -> time_ok e2 ->
  is_overlap s1 e1 s2 e2 = is_overlap s2 e2 s1 e1
  /\ (minute_of_day e1 <= minute_of_day s1 -> is_overlap s1 e1 s2 e2 = false).
Proof.
  intros Hs1 He1 Hs2 He2. rewrite !is_overlap_minutes by assumption. split.
  - now rewrite Z.max_comm, Z.min_comm.
  - intros Hempty. apply Z.ltb_ge. lia.
Qed.

Lemma is_overlap_symmetric_witness :
  is_overlap (mkTime 23 0) (mkTime 1 0) (mkTime 23 30) (mkTime 23 59)
  = is_overlap (mkTime 23 30) (mkTime 23 59) (mkTime 23 0) (mkTime 1 0)
  /\ (minute_of_day (mkTime 1 0) <= minute_of_day (mkTime 23 0) ->
      is_overlap (mkTime 23 0) (mkTime 1 0) (mkTime 23 30) (mkTime 23 59)
      = false).
Proof.
  apply (is_overlap_symmetric (mkTime 23 0) (mkTime 1 0)
                              (mkTime 23 30) (mkTime 23 59));
    unfold time_ok; cbn; lia.
Defined.

(** ** Accounts made in the sidebar *)

(** X24. Signing up in the sidebar makes no request at all when a
    required field is empty or the two passwords differ, and it keeps the
    users to the two roles of its select box.  Whoever then logs in
    through the sidebar is one of the stored users; "Admin" is not on the
    menu of that user, and the page refuses the user. *)
Theorem sidebar_auth_no_admin (e : env) (u_new email role p1 p2 : string)
  (W : world) :
  role = "customer"%string \/ role = "worker"%string ->
  roles_offered (users (tables W)) ->
  let W' := snd (sidebar_sign_up e u_new email role p1 p2 W) in
  roles_offered (users (tables W'))
  /\ (u_new = EmptyString \/ email = EmptyString \/ p1 = EmptyString
      \/ p1 <> p2 -> W' = W)
  /\ forall pbkdf2_hmac u_name pwd u shown W'',
       sidebar_log_in pbkdf2_hmac u_name pwd W' = ((Some u, shown), W'') ->
       In u (users (tables W'))
       /\ ~ In "Admin"%string (visible (Some u))
       /\ page_admin_entry (Some u) = WrongRole.
Proof.
  intros Hrole Hroles W'.
  assert (Hkept : roles_offered (users (tables W'))).
  { subst W'. unfold sidebar_sign_up.
    destruct (negb (Py.truthy u_new) || negb (Py.truthy email)
              || negb (Py.truthy p1)); [exact Hroles|].
    destruct (negb (p1 =? p2)%string); [exact Hroles|].
    rewrite register_user_run.
    destruct (name_taken u_new (users (tables W))); cbn [snd tables users];
      [exact Hroles|].
    apply Forall_app. split; [exact Hroles|].
    constructor; [exact Hrole | constructor]. }
  split; [exact Hkept|]. split.
  - subst W'. unfold sidebar_sign_up. intros Hbad.
    destruct u_new as [|c1 r1]; [reflexivity|].
    destruct email as [|c2 r2]; [reflexivity|].
    destruct p1 as [|c3 r3]; [reflexivity|].
    cbn [Py.truthy negb orb].
    destruct (String.eqb_spec (String c3 r3) p2) as [E|N]; [|reflexivity].
    destruct Hbad as [H|[H|[H|H]]]; try discriminate. contradiction.
  - intros pbkdf2_hmac u_name pwd u shown W'' Hlog.
    unfold sidebar_log_in in Hlog. rewrite login_user_run in Hlog.
    cbv zeta in Hlog.
    destruct (find _ (users (tables W'))) as [found|] eqn:Hfind;
      [|discriminate].
    destruct (Auth.verify_password _ _ _ _) as [[|]|]; try discriminate.
    injection Hlog as <- _ _.
    apply find_some in Hfind. destruct Hfind as [Hin _].
    unfold roles_offered in Hkept. rewrite Forall_forall in Hkept.
    specialize (Hkept _ Hin).
    assert (Hadmin : (u_role found =? "admin")%string = false).
    { apply String.eqb_neq. destruct Hkept as [-> | ->]; discriminate. }
    split; [exact Hin|]. split.
    + unfold visible. rewrite Hadmin.
      destruct Hkept as [-> | ->]; cbn; intuition discriminate.
    + unfold page_admin_entry, logged_in. now rewrite Hadmin.
Qed.

Lemma sidebar_auth_no_admin_witness :
  let W' := snd (sidebar_sign_up hashing_env "Bob" "bob@example.org" "customer"
                                 "pw" "pw" empty_world) in
  roles_offered (users (tables W'))
  /\ ("Bob"%string = EmptyString \/ "bob@example.org"%string = EmptyString
      \/ "pw"%string = EmptyString \/ "pw"%string <> "pw"%string ->
      W' = empty_world)
  /\ forall pbkdf2_hmac u_name pwd u shown W'',
       sidebar_log_in pbkdf2_hmac u_name pwd W' = ((Some u, shown), W'') ->
       In u (users (tables W'))
       /\ ~ In "Admin"%string (visible (Some u))
       /\ page_admin_entry (Some u) = WrongRole.
Proof.
  apply (sidebar_auth_no_admin hashing_env "Bob" "bob@example.org" "customer"
                               "pw" "pw" empty_world).
  - now left.
  - constructor.
Defined.

(** ** A booking shows up where it should *)

(** X25. A booking that [create_booking] has made is on "My Bookings" of
    the customer who made it, of the worker it is for, and of anyone whose
    role is neither of the two; names are compared without regard to
    case. *)
Theorem rows_sorted_after_create_booking (e : env) (u viewer : user)
  (w : worker) (d : date) (start : time) (duration_hrs : float)
  (W W1 : world) (msg : string) :
  create_booking e u w d start duration_hrs W = (Ok (true, msg), W1) ->
  (u_role viewer = "customer"%string
   /\ same_up_to_case (u_username u) (u_username viewer))
  \/ (u_role viewer = "worker"%string
      /\ same_up_to_case (w_username w) (u_username viewer))
  \/ (u_role viewer <> "customer"%string /\ u_role viewer <> "worker"%string) ->
  exists dur listed,
    duration duration_hrs = Ok dur
    /\ fst (rows_sorted viewer W1) = Ok listed
    /\ In (booking_row e u w d start dur) listed.
Proof.
  intros Hrun Hviewer.
  destruct (create_booking_success e u w d start duration_hrs W W1 msg Hrun)
    as (avail & W0 & Havail & Hin).
  destruct (create_booking_accepts e u w d start duration_hrs W W0 avail
              Havail Hin) as (dur & events & Hdur & Hrun' & _).
  rewrite Hrun in Hrun'. injection Hrun' as _ ->.
  exists dur. eexists. split; [exact Hdur|].
  rewrite rows_sorted_run. cbn [fst tables bookings]. split; [reflexivity|].
  apply (Permutation_in _ (Permutation_sym (sorted_perm _))).
  apply filter_In. split; [apply in_or_app; right; now left|].
  unfold shown_to, booking_row. cbn [b_user b_worker].
  destruct Hviewer as [[Hrole Hsame] | [[Hrole Hsame] | [Hc Hw]]].
  - rewrite Hrole. cbn. apply String.eqb_eq. now apply lower_same_up_to_case.
  - rewrite Hrole. cbn. apply String.eqb_eq. now apply lower_same_up_to_case.
  - apply String.eqb_neq in Hc, Hw. now rewrite Hc, Hw.
Qed.

Lemma rows_sorted_after_create_booking_witness :
  exists dur listed,
    duration 1%float = Ok dur
    /\ fst (rows_sorted asha_user
              (snd (create_booking quiet_env bob asha a_day (mkTime 10 0)
                                   1%float empty_world))) = Ok listed
    /\ In (booking_row quiet_env bob asha a_day (mkTime 10 0) dur) listed.
Proof.
  apply (rows_sorted_after_create_booking quiet_env bob asha_user asha a_day
           (mkTime 10 0) 1%float empty_world
           (snd (create_booking quiet_env bob asha a_day (mkTime 10 0) 1%float
                                empty_world))
           (BOOKED ++ NOT_SENT)%string).
  - vm_compute. reflexivity.
  - right. left. split; [reflexivity|].
    cbn. unfold char_case_eq. intuition.
Defined.

(** ** The page "Browse & Book" *)

(** X12. On the page "Browse & Book", as long as no other session has
    changed the bookings that occupy the calendar of the chosen worker on
    the chosen date between the read of the page and the call of
    [create_booking], a booking is not turned down: the start handed over
    is one of the options of the select box, read back by [strptime] as
    [strftime] wrote it, so whatever [create_booking] returns is a
    success, and it has appended exactly the row of the chosen worker,
    date and start to the bookings it found; the page itself writes to no
    other table. *)
Theorem page_browse_and_book_books (e : env) (u : user) (f : filters)
  (choose : list worker -> worker) (d : date) (duration_hrs : float)
  (pick : list string -> string) (others : world -> world) (W W' : world)
  (out : bool * string) (listed : list worker) :
  (forall options, options <> [] -> In (pick options) options) ->
  fst (list_workers f W) = Ok listed ->
  (forall V,
     filter (occupiesb (w_username (choose listed)) (isoformat d))
            (bookings (tables (others V)))
     = filter (occupiesb (w_username (choose listed)) (isoformat d))
              (bookings (tables V))) ->
  page_browse_and_book e u f choose d duration_hrs pick true others W
  = (Ok (Some out), W') ->
  exists avail start dur Wread,
    tables Wread = tables W
    /\ fst (available_start_slots (choose listed) d duration_hrs W) = Ok avail
    /\ In start avail
    /\ pick (map strftime_HM avail) = strftime_HM start
    /\ duration duration_hrs = Ok dur
    /\ fst out = true
    /\ tables W'
       = mkStore (users (tables (others Wread)))
                 (workers (tables (others Wread)))
                 (bookings (tables (others Wread))
                  ++ [booking_row e u (choose listed) d start dur]).
Proof.
  intros Hpick Hlisted Hothers. unfold page_browse_and_book, bind at 1.
  destruct (list_workers_run f W) as (keep & Hlist & _).
  rewrite Hlist in Hlisted |- *. cbn [fst] in Hlisted.
  injection Hlisted as Hlisted. rewrite Hlisted. clear Hlisted.
  remember (mkWorld (tables W) (trace W ++ [GhGet DATA_WORKERS])) as W0 eqn:E0.
  destruct listed as [|w0 rest]; [unfold ret; discriminate|].
  remember (choose (w0 :: rest)) as selected eqn:Es.
  unfold bind at 1.
  destruct (available_start_slots selected d duration_hrs W0)
    as [[avail|x] W1] eqn:Ea; [|discriminate].
  destruct avail as [|t0 avail0]; [unfold ret; discriminate|].
  remember (t0 :: avail0) as avail eqn:Eav.
  assert (Hne : map strftime_HM avail <> []) by (subst avail; discriminate).
  pose proof (Hpick _ Hne) as Hin. apply in_map_iff in Hin.
  destruct Hin as (start & Hstart & Hin).
  pose proof (available_start_slots_times_ok _ _ _ _ _ _ Ea) as Hok.
  rewrite Forall_forall in Hok.
  replace (match avail with [] => ret None | _ :: _ => _ end)
    with (start_time <- lift (strptime_HM (pick (map strftime_HM avail))) ;;
          (fun V => (Ok tt, others V)) ;;;
          outcome <- create_booking e u selected d start_time duration_hrs ;;
          ret (Some outcome))%io
    by (subst avail; reflexivity).
  rewrite <- Hstart, strptime_strftime by (now apply Hok).
  unfold bind at 1, lift. unfold bind at 1. unfold bind at 1.
  assert (Ea2 : fst (available_start_slots selected d duration_hrs (others W1))
                = Ok avail).
  { rewrite (available_start_slots_occupying selected d duration_hrs W1
               (others W1) (Hothers W1)).
    now rewrite (available_start_slots_again _ _ _ _ _ _ Ea). }
  destruct (available_start_slots selected d duration_hrs (others W1))
    as [r W2] eqn:Ea3. cbn [fst] in Ea2. subst r.
  destruct (create_booking_accepts e u selected d start duration_hrs
              (others W1) W2 avail Ea3 Hin)
    as (dur & events & Hdur & Hrun & _).
  rewrite Hrun. unfold ret. intros E. injection E as <- <-.
  exists avail, start, dur, W1.
  pose proof (available_start_slots_world _ _ _ _ _ _ Ea) as EW1.
  split; [subst W1 W0; reflexivity|]. split.
  { rewrite (available_start_slots_tables selected d duration_hrs W W0)
      by (subst W0; reflexivity).
    now rewrite Ea. }
  repeat (split; [assumption || (symmetry; assumption) || reflexivity|]).
  reflexivity.
Qed.

Lemma page_browse_and_book_books_witness :
  let others := fun V => with_bookings V (bookings (tables V) ++ [ravi_booking]) in
  let page := page_browse_and_book quiet_env bob (mkFilters None None)
                                   (hd asha) a_day 1%float (hd EmptyString) true
                                   others asha_world in
  exists avail start dur Wread,
    tables Wread = tables asha_world
    /\ fst (available_start_slots (hd asha [asha]) a_day 1%float asha_world)
       = Ok avail
    /\ In start avail
    /\ hd EmptyString (map strftime_HM avail) = strftime_HM start
    /\ duration 1%float = Ok dur
    /\ fst (true, (BOOKED ++ NOT_SENT)%string) = true
    /\ tables (snd page)
       = mkStore (users (tables (others Wread)))
                 (workers (tables (others Wread)))
                 (bookings (tables (others Wread))
                  ++ [booking_row quiet_env bob (hd asha [asha]) a_day start dur]).
Proof.
  intros others page.
  apply (page_browse_and_book_books quiet_env bob (mkFilters None None)
           (hd asha) a_day 1%float (hd EmptyString) others asha_world (snd page)
           (true, (BOOKED ++ NOT_SENT)%string) [asha]).
  - intros [|x l] H; [contradiction | now left].
  - vm_compute. reflexivity.
  - intros V. subst others. cbn [with_bookings tables bookings].
    rewrite filter_app.
    replace (filter _ [ravi_booking]) with (@nil booking)
      by (vm_compute; reflexivity).
    apply app_nil_r.
  - vm_compute. reflexivity.
Defined.

(** What the hypothesis on the other sessions is for: when one of them
    books the first start on offer in between, the page is turned down,
    and shows the failure. *)
Example page_browse_and_book_turned_down :
  let taken := mkBooking "bk_0" "eve" "Asha" "2024-04-24" "09:00" "10:00" ""
                         "confirmed" in
  let others := fun V => with_bookings V (bookings (tables V) ++ [taken]) in
  fst (page_browse_and_book quiet_env bob (mkFilters None None) (hd asha) a_day
                            1%float (hd EmptyString) true others asha_world)
  = Ok (Some (false, SLOT_TAKEN)).
Proof. vm_compute. reflexivity. Qed.
